(** * alloy-lab/seo: the SEO derivation and serialization pipeline

    A shallow embedding of [src/utils/seo.ts], [src/utils/sitemap.ts] and
    [src/utils/structuredData.ts], and the properties the specification
    states about them.

    Conventions.
    - A JavaScript string is a [string]: a sequence of 8-bit characters.
    - An optional field [f?: T] is an [option T]; [None] is [undefined].
    - Truthiness is written out: [undefined] and the empty string are
      falsy, [0], [-0] and [NaN] are the falsy numbers.
    - An object used as an ordered record of named values is an
      association list, in property insertion order. *)

From Stdlib Require Import String Ascii List Bool ZArith Lia.
From Stdlib Require Import Floats.SpecFloat.
From Stdlib Require Import DecimalString DecimalNat DecimalZ DecimalFacts.
Import ListNotations.
Local Open Scope list_scope.
Local Open Scope string_scope.

(** ** JavaScript strings, truthiness and template literals *)

Module JS.

(** The double quote character, and a text between double quotes. *)
Definition DQUOTE : ascii := "034"%char.
Definition dq : string := String DQUOTE EmptyString.
Definition quoted (s : string) : string := dq ++ s ++ dq.

(** The line feed character, as [\n] in a string literal. *)
Definition LF : ascii := "010"%char.
Definition nl : string := String LF EmptyString.

(** [Boolean(x)] for [x : string | undefined]. *)
Definition truthy (x : option string) : bool :=
  match x with
  | Some (String _ _) => true
  | Some EmptyString => false
  | None => false
  end.

(** [Boolean(x)] for [x : boolean | undefined]. *)
Definition truthy_bool (x : option bool) : bool :=
  match x with
  | Some b => b
  | None => false
  end.

(** [x || y] where both sides may be undefined. *)
Definition or_else (x y : option string) : option string :=
  if truthy x then x else y.

(** [x || 'literal']: the right operand is a string, so is the result. *)
Definition or_default (x : option string) (d : string) : string :=
  match x with
  | Some (String a t) => String a t
  | _ => d
  end.

(** [`${x}`] for [x : string | undefined]: ToString(undefined) is the
    text "undefined". *)
Definition interpolate (x : option string) : string :=
  match x with
  | Some s => s
  | None => "undefined"
  end.

(** [text.replace(/c/g, by)] for a single character [c]. *)
Fixpoint replaceAll (c : ascii) (by_ : string) (text : string) : string :=
  match text with
  | EmptyString => EmptyString
  | String a rest =>
      if Ascii.eqb a c then by_ ++ replaceAll c by_ rest
      else String a (replaceAll c by_ rest)
  end.

(** [s.startsWith(p)]. *)
Definition startsWith (s p : string) : bool := String.prefix p s.

(** [tags.join(sep)]. *)
Definition join (sep : string) (xs : list string) : string :=
  String.concat sep xs.

(** [xs.push(a, b, ...)] on an array threaded as a value. *)
Definition push {A : Type} (xs : list A) (items : list A) : list A :=
  (xs ++ items)%list.

(** The text of a string, character by character, through [f]. *)
Fixpoint flat_map_string (f : ascii -> string) (s : string) : string :=
  match s with
  | EmptyString => EmptyString
  | String a rest => f a ++ flat_map_string f rest
  end.

End JS.

(** ** [src/utils/seo.ts]: escaping *)

Module Escaping.
Import JS.

(** [escapeHtml]: five global replacements, [&] first. *)
Definition escapeHtml (text : string) : string :=
  replaceAll "'" "&#39;"
    (replaceAll DQUOTE "&quot;"
       (replaceAll ">" "&gt;"
          (replaceAll "<" "&lt;"
             (replaceAll "&" "&amp;" text)))).

(** The entity of one character: the five special characters have one,
    every other character stands for itself. *)
Definition html_entity (c : ascii) : string :=
  if Ascii.eqb c "&" then "&amp;"
  else if Ascii.eqb c "<" then "&lt;"
  else if Ascii.eqb c ">" then "&gt;"
  else if Ascii.eqb c DQUOTE then "&quot;"
  else if Ascii.eqb c "'" then "&#39;"
  else String c EmptyString.

Definition is_special (c : ascii) : bool :=
  Ascii.eqb c "&" || Ascii.eqb c "<" || Ascii.eqb c ">"
  || Ascii.eqb c DQUOTE || Ascii.eqb c "'".

(** [true] when none of the five characters occurs in the string. *)
Fixpoint free_of_specials (s : string) : bool :=
  match s with
  | EmptyString => true
  | String a rest => negb (is_special a) && free_of_specials rest
  end.

End Escaping.

(** ** [src/types/index.ts]: the data model *)

(** A JavaScript number is an IEEE 754 binary64 datum. *)
Definition number : Type := spec_float.

(** [Boolean(x)] for a number: [0], [-0] and [NaN] are falsy. *)
Definition Number_truthy (x : number) : bool :=
  match x with
  | S754_zero _ => false
  | S754_nan => false
  | S754_infinity _ => true
  | S754_finite _ _ _ => true
  end.

(** The literals [1.0] and [0.8] of [sitemap.ts] as binary64 data. *)
Definition Number_1_0 : number := S754_finite false 4503599627370496 (-52).
Definition Number_0_8 : number := S754_finite false 7205759403792794 (-53).

Module Media.
Record t : Type := mk {
  id : string;
  url : string;
  alt : option string;
  filename : option string;
  mimeType : option string;
  filesize : option number;
  width : option number;
  height : option number;
  createdAt : string;
  updatedAt : string
}.
End Media.

Module SEOFields.
Record t : Type := mk {
  title : option string;
  description : option string;
  keywords : option string;
  image : option Media.t;
  noIndex : option bool;
  noFollow : option bool
}.
End SEOFields.

Inductive Status : Type := draft | published.

Definition Status_eqb (a b : Status) : bool :=
  match a, b with
  | draft, draft => true
  | published, published => true
  | _, _ => false
  end.

Module Page.
Record t : Type := mk {
  id : string;
  title : string;
  slug : string;
  status : Status;
  excerpt : option string;
  featuredImage : option Media.t;
  seo : option SEOFields.t;
  publishedDate : option string;
  createdAt : string;
  updatedAt : string
}.
End Page.

Module ContactInfo.
Record t : Type := mk {
  email : option string;
  phone : option string;
  address : option string
}.
End ContactInfo.

Module SiteSettings.
(** [socialMedia] is an object whose values are read with
    [Object.values]: an association list in insertion order. *)
Record t : Type := mk {
  siteName : option string;
  siteDescription : option string;
  logo : option Media.t;
  socialMedia : option (list (string * option string));
  contactInfo : option ContactInfo.t
}.
End SiteSettings.

Module SEOData.
Record t : Type := mk {
  title : string;
  description : string;
  keywords : option string;
  image : option string;
  url : option string;
  type : option string;
  structuredData : option string
}.
End SEOData.

Module Breadcrumb.
Record t : Type := mk {
  name : string;
  url : string
}.
End Breadcrumb.

Inductive Changefreq : Type :=
  always | hourly | daily | weekly | monthly | yearly | never.

Module SitemapUrl.
Record t : Type := mk {
  loc : string;
  lastmod : string;
  changefreq : Changefreq;
  priority : number
}.
End SitemapUrl.

Module SitemapConfig.
(** [Partial<SitemapConfig>]: every field may be absent. *)
Record t : Type := mk {
  baseUrl : option string;
  includeHomepage : option bool;
  homepagePriority : option number;
  pagePriority : option number;
  defaultChangefreq : option Changefreq
}.
(** The default argument [{}]. *)
Definition empty : t := mk None None None None None.
End SitemapConfig.

Module ProductData.
Record t : Type := mk {
  name : string;
  description : string;
  price : option number;
  currency : option string;
  image : option string;
  availability : option string
}.
End ProductData.

(** The first argument of [generateSEO] is a [Page | SiteSettings].  The
    code tells the two apart with ['title' in data] and ['slug' in data],
    and passes the object on under the assertion [data as Page], which
    has no effect at run time: so the object keeps its union type here,
    and a property a [SiteSettings] lacks reads as [undefined]. *)
Module Data.
Inductive t : Type :=
| OfPage (p : Page.t)
| OfSiteSettings (s : SiteSettings.t).

(** ['title' in data], ['slug' in data]. *)
Definition has_title (d : t) : bool :=
  match d with OfPage _ => true | OfSiteSettings _ => false end.
Definition has_slug (d : t) : bool :=
  match d with OfPage _ => true | OfSiteSettings _ => false end.

(** Property reads [page.title], [page.slug], ... on the object. *)
Definition title (d : t) : option string :=
  match d with OfPage p => Some (Page.title p) | OfSiteSettings _ => None end.
Definition slug (d : t) : option string :=
  match d with OfPage p => Some (Page.slug p) | OfSiteSettings _ => None end.
Definition excerpt (d : t) : option string :=
  match d with OfPage p => Page.excerpt p | OfSiteSettings _ => None end.
Definition featuredImage (d : t) : option Media.t :=
  match d with OfPage p => Page.featuredImage p | OfSiteSettings _ => None end.
Definition seo (d : t) : option SEOFields.t :=
  match d with OfPage p => Page.seo p | OfSiteSettings _ => None end.
Definition publishedDate (d : t) : option string :=
  match d with OfPage p => Page.publishedDate p | OfSiteSettings _ => None end.
Definition createdAt (d : t) : option string :=
  match d with OfPage p => Some (Page.createdAt p) | OfSiteSettings _ => None end.
Definition updatedAt (d : t) : option string :=
  match d with OfPage p => Some (Page.updatedAt p) | OfSiteSettings _ => None end.
End Data.

Module StructuredDataConfig.
(** [page] is declared a [Page]; [generateSEO] fills it with
    [data as Page], so it holds whatever object [data] is. *)
Record t : Type := mk {
  baseUrl : string;
  siteSettings : SiteSettings.t;
  page : option Data.t;
  breadcrumbs : option (list Breadcrumb.t)
}.
End StructuredDataConfig.

(** [o?.f] for an optional field [f] of an optional object [o]. *)
Definition opt_chain {A B : Type} (o : option A) (f : A -> option B) : option B :=
  match o with
  | Some a => f a
  | None => None
  end.

(** ** JavaScript values and the [JSON] built-in

    The JSON-LD builders return [Record<string, unknown>] objects whose
    leaves are strings, list positions and [undefined].  [VNum] holds
    whole numbers, the only numbers these builders emit (a position is
    an array index plus one, far below the 10^21 from which
    Number::toString switches to exponent notation). *)

Module JSON.
Import JS.

#[warnings="-register-all"]
Inductive value : Type :=
| VUndefined
| VNull
| VBool (b : bool)
| VNum (n : Z)
| VStr (s : string)
| VArr (items : list value)
| VObj (props : list (string * value)).

Definition is_undefined (v : value) : bool :=
  match v with VUndefined => true | _ => false end.

(** [o[k]] on an object: the value of property [k]. *)
Fixpoint get_prop (k : string) (props : list (string * value)) : option value :=
  match props with
  | [] => None
  | (k', v) :: rest => if String.eqb k k' then Some v else get_prop k rest
  end.

Definition get (k : string) (v : value) : option value :=
  match v with
  | VObj props => get_prop k props
  | _ => None
  end.

(** [o[k] = v]: an existing property keeps its place and takes the new
    value, a new one goes last. *)
Fixpoint set_prop (k : string) (v : value) (props : list (string * value))
  : list (string * value) :=
  match props with
  | [] => [(k, v)]
  | (k', v') :: rest =>
      if String.eqb k k' then (k', v) :: rest
      else (k', v') :: set_prop k v rest
  end.

(** *** [JSON.stringify(value, null, 2)] *)

Definition hex_digit (n : nat) : ascii :=
  match n with
  | 0 => "0" | 1 => "1" | 2 => "2" | 3 => "3" | 4 => "4"
  | 5 => "5" | 6 => "6" | 7 => "7" | 8 => "8" | 9 => "9"
  | 10 => "a" | 11 => "b" | 12 => "c" | 13 => "d" | 14 => "e"
  | _ => "f"
  end%char.

Definition BACKSLASH : ascii := "092"%char.

(** QuoteJSONString, one character: the short escapes, [\u00xx] for the
    other control characters, the character itself otherwise. *)
Definition escape_char (c : ascii) : string :=
  let n := nat_of_ascii c in
  if Nat.eqb n 8 then String BACKSLASH "b"
  else if Nat.eqb n 9 then String BACKSLASH "t"
  else if Nat.eqb n 10 then String BACKSLASH "n"
  else if Nat.eqb n 12 then String BACKSLASH "f"
  else if Nat.eqb n 13 then String BACKSLASH "r"
  else if Ascii.eqb c DQUOTE then String BACKSLASH dq
  else if Ascii.eqb c BACKSLASH then String BACKSLASH (String BACKSLASH "")
  else if Nat.ltb n 32 then
    String BACKSLASH
      (String "u" (String "0" (String "0"
         (String (hex_digit (n / 16)) (String (hex_digit (n mod 16)) "")))))
  else String c "".

Definition quote (s : string) : string :=
  dq ++ flat_map_string escape_char s ++ dq.

(** Number::toString of a whole number. *)
Definition Number_toString (n : Z) : string :=
  NilZero.string_of_int (Z.to_int n).

(** The gap of [JSON.stringify(_, null, 2)]. *)
Definition gap : string := "  ".

(** SerializeJSONProperty at the current [indent].  A property whose
    value is [undefined] is left out of an object; an [undefined]
    element of an array is written [null]. *)
Fixpoint serialize (indent : string) (v : value) : string :=
  match v with
  | VUndefined => "null"
  | VNull => "null"
  | VBool true => "true"
  | VBool false => "false"
  | VNum n => Number_toString n
  | VStr s => quote s
  | VArr items =>
      let stepback := indent in
      let indent := indent ++ gap in
      match items with
      | [] => "[]"
      | _ :: _ =>
          "[" ++ nl ++ indent
          ++ join ("," ++ nl ++ indent) (map (serialize indent) items)
          ++ nl ++ stepback ++ "]"
      end
  | VObj props =>
      let stepback := indent in
      let indent := indent ++ gap in
      let partial :=
        (fix members (ps : list (string * value)) : list string :=
           match ps with
           | [] => []
           | (k, VUndefined) :: rest => members rest
           | (k, p) :: rest =>
               (quote k ++ ": " ++ serialize indent p) :: members rest
           end) props in
      match partial with
      | [] => "{}"
      | _ :: _ =>
          "{" ++ nl ++ indent
          ++ join ("," ++ nl ++ indent) partial
          ++ nl ++ stepback ++ "}"
      end
  end.

(** [JSON.stringify(xs, null, 2)] for an array [xs]: always a string. *)
Definition stringify_array (xs : list value) : string :=
  serialize "" (VArr xs).

(** What is left of a value after serialization. *)
Fixpoint clean (v : value) : value :=
  match v with
  | VUndefined => VNull
  | VArr items => VArr (map clean items)
  | VObj props =>
      VObj ((fix members (ps : list (string * value)) : list (string * value) :=
               match ps with
               | [] => []
               | (k, VUndefined) :: rest => members rest
               | (k, p) :: rest => (k, clean p) :: members rest
               end) props)
  | _ => v
  end.

(** *** [JSON.parse] *)

Definition is_ws (c : ascii) : bool :=
  Ascii.eqb c " " || Ascii.eqb c "009" || Ascii.eqb c "010" || Ascii.eqb c "013".

Fixpoint skip_ws (s : string) : string :=
  match s with
  | String c rest => if is_ws c then skip_ws rest else s
  | EmptyString => s
  end.

Definition hex_val (c : ascii) : option nat :=
  let n := nat_of_ascii c in
  if Nat.leb 48 n && Nat.leb n 57 then Some (n - 48)
  else if Nat.leb 97 n && Nat.leb n 102 then Some (n - 87)
  else if Nat.leb 65 n && Nat.leb n 70 then Some (n - 55)
  else None.

(** A [\uXXXX] escape names a 16-bit code unit; strings here hold 8-bit
    characters, so a unit of 256 or more is not representable. *)
Definition code_unit (h1 h2 h3 h4 : ascii) : option ascii :=
  match hex_val h1, hex_val h2, hex_val h3, hex_val h4 with
  | Some a, Some b, Some c, Some d =>
      let n := ((a * 16 + b) * 16 + c) * 16 + d in
      if Nat.ltb n 256 then Some (ascii_of_nat n) else None
  | _, _, _, _ => None
  end.

(** The characters of a string literal after its opening quote, up to
    the closing quote; the text after it is returned as well. *)
Fixpoint parse_string_body (s : string) : option (string * string) :=
  match s with
  | EmptyString => None
  | String c rest =>
      if Ascii.eqb c DQUOTE then Some (EmptyString, rest)
      else if Ascii.eqb c BACKSLASH then
        match rest with
        | String e rest' =>
            let simple (x : ascii) :=
              match parse_string_body rest' with
              | Some (body, after) => Some (String x body, after)
              | None => None
              end in
            if Ascii.eqb e DQUOTE then simple DQUOTE
            else if Ascii.eqb e BACKSLASH then simple BACKSLASH
            else if Ascii.eqb e "/" then simple "/"%char
            else if Ascii.eqb e "b" then simple "008"%char
            else if Ascii.eqb e "f" then simple "012"%char
            else if Ascii.eqb e "n" then simple "010"%char
            else if Ascii.eqb e "r" then simple "013"%char
            else if Ascii.eqb e "t" then simple "009"%char
            else if Ascii.eqb e "u" then
              match rest' with
              | String h1 (String h2 (String h3 (String h4 rest''))) =>
                  match code_unit h1 h2 h3 h4, parse_string_body rest'' with
                  | Some x, Some (body, after) => Some (String x body, after)
                  | _, _ => None
                  end
              | _ => None
              end
            else None
        | EmptyString => None
        end
      else if Nat.ltb (nat_of_ascii c) 32 then None
      else
        match parse_string_body rest with
        | Some (body, after) => Some (String c body, after)
        | None => None
        end
  end.

Definition digit_of (c : ascii) : option (Decimal.uint -> Decimal.uint) :=
  match c with
  | "0" => Some Decimal.D0 | "1" => Some Decimal.D1 | "2" => Some Decimal.D2
  | "3" => Some Decimal.D3 | "4" => Some Decimal.D4 | "5" => Some Decimal.D5
  | "6" => Some Decimal.D6 | "7" => Some Decimal.D7 | "8" => Some Decimal.D8
  | "9" => Some Decimal.D9
  | _ => None
  end%char.

(** The longest run of decimal digits at the head of a text. *)
Fixpoint read_digits (s : string) : Decimal.uint * string :=
  match s with
  | EmptyString => (Decimal.Nil, s)
  | String c rest =>
      match digit_of c with
      | Some d => let (ds, after) := read_digits rest in (d ds, after)
      | None => (Decimal.Nil, s)
      end
  end.

(** A fraction or an exponent follows: not a whole number. *)
Definition fraction_follows (s : string) : bool :=
  match s with
  | String c _ => Ascii.eqb c "." || Ascii.eqb c "e" || Ascii.eqb c "E"
  | EmptyString => false
  end.

(** The digits of a JSON number: at least one, no leading zero.  Only
    whole numbers are read; a fraction or an exponent is refused. *)
Definition parse_digits (s : string) : option (Decimal.uint * string) :=
  let (ds, after) := read_digits s in
  match ds with
  | Decimal.Nil => None
  | _ =>
      if Decimal.uint_beq (Decimal.unorm ds) ds && negb (fraction_follows after)
      then Some (ds, after) else None
  end.

(** [read_char c s]: the text after the character [c] at the head of
    [s]. *)
Definition read_char (c : ascii) (s : string) : option string :=
  match s with
  | String c' rest => if Ascii.eqb c' c then Some rest else None
  | EmptyString => None
  end.

Definition parse_number (s : string) : option (value * string) :=
  match read_char "-" s with
  | Some rest =>
      match parse_digits rest with
      | Some (ds, after) => Some (VNum (Z.of_int (Decimal.Neg ds)), after)
      | None => None
      end
  | None =>
      match parse_digits s with
      | Some (ds, after) => Some (VNum (Z.of_int (Decimal.Pos ds)), after)
      | None => None
      end
  end.

(** [expect lit s]: the text after the literal [lit] at the head of [s]. *)
Fixpoint expect (lit s : string) : option string :=
  match lit, s with
  | EmptyString, _ => Some s
  | String a lit', String b s' => if Ascii.eqb a b then expect lit' s' else None
  | String _ _, EmptyString => None
  end.

(** The recursive descent over values, elements and members.  [fuel]
    bounds the depth of the descent. *)
Fixpoint parse_value (fuel : nat) (s : string) : option (value * string) :=
  match fuel with
  | O => None
  | S fuel =>
      match skip_ws s with
      | EmptyString => None
      | String c rest =>
          if Ascii.eqb c "[" then
            match read_char "]" (skip_ws rest) with
            | Some after => Some (VArr [], after)
            | None =>
                match parse_elements fuel rest with
                | Some (items, after) => Some (VArr items, after)
                | None => None
                end
            end
          else if Ascii.eqb c "{" then
            match read_char "}" (skip_ws rest) with
            | Some after => Some (VObj [], after)
            | None =>
                match parse_members fuel [] rest with
                | Some (props, after) => Some (VObj props, after)
                | None => None
                end
            end
          else if Ascii.eqb c DQUOTE then
            match parse_string_body rest with
            | Some (body, after) => Some (VStr body, after)
            | None => None
            end
          else if Ascii.eqb c "n" then
            option_map (pair VNull) (expect "ull" rest)
          else if Ascii.eqb c "t" then
            option_map (pair (VBool true)) (expect "rue" rest)
          else if Ascii.eqb c "f" then
            option_map (pair (VBool false)) (expect "alse" rest)
          else parse_number (String c rest)
      end
  end

with parse_elements (fuel : nat) (s : string) : option (list value * string) :=
  match fuel with
  | O => None
  | S fuel =>
      match parse_value fuel s with
      | None => None
      | Some (v, rest) =>
          match read_char "," (skip_ws rest) with
          | Some after =>
              match parse_elements fuel after with
              | Some (vs, after') => Some (v :: vs, after')
              | None => None
              end
          | None =>
              match read_char "]" (skip_ws rest) with
              | Some after => Some ([v], after)
              | None => None
              end
          end
      end
  end

with parse_members (fuel : nat) (acc : list (string * value)) (s : string)
  : option (list (string * value) * string) :=
  match fuel with
  | O => None
  | S fuel =>
      match read_char DQUOTE (skip_ws s) with
      | None => None
      | Some rest =>
          match parse_string_body rest with
          | None => None
          | Some (k, rest1) =>
              match read_char ":" (skip_ws rest1) with
              | None => None
              | Some rest2 =>
                  match parse_value fuel rest2 with
                  | None => None
                  | Some (v, rest3) =>
                      let acc := set_prop k v acc in
                      match read_char "," (skip_ws rest3) with
                      | Some after => parse_members fuel acc after
                      | None =>
                          match read_char "}" (skip_ws rest3) with
                          | Some after => Some (acc, after)
                          | None => None
                          end
                      end
                  end
              end
          end
      end
  end.

(** [JSON.parse(text)]: one value, then only white space.  [None] is a
    SyntaxError.  The length of the text is fuel enough. *)
Definition parse (text : string) : option value :=
  match parse_value (S (String.length text)) text with
  | Some (v, rest) =>
      match skip_ws rest with
      | EmptyString => Some v
      | String _ _ => None
      end
  | None => None
  end.

(** *** Serialization, member by member *)

(** The members an object serializes: those whose value is defined. *)
Fixpoint members_text (indent : string) (ps : list (string * value)) : list string :=
  match ps with
  | [] => []
  | (k, VUndefined) :: rest => members_text indent rest
  | (k, p) :: rest => (quote k ++ ": " ++ serialize indent p) :: members_text indent rest
  end.

Fixpoint clean_members (ps : list (string * value)) : list (string * value) :=
  match ps with
  | [] => []
  | (k, VUndefined) :: rest => clean_members rest
  | (k, p) :: rest => (k, clean p) :: clean_members rest
  end.

Fixpoint distinct (ks : list string) : bool :=
  match ks with
  | [] => true
  | k :: rest => negb (existsb (String.eqb k) rest) && distinct rest
  end.

(** A value as JavaScript builds it: no object has a key twice. *)
Fixpoint wf (v : value) : bool :=
  match v with
  | VArr items => forallb wf items
  | VObj props =>
      distinct (map fst props)
      && (fix all (ps : list (string * value)) : bool :=
            match ps with
            | [] => true
            | (_, p) :: rest => wf p && all rest
            end) props
  | _ => true
  end.

Fixpoint wf_members (ps : list (string * value)) : bool :=
  match ps with
  | [] => true
  | (_, p) :: rest => wf p && wf_members rest
  end.

(** Fuel that parsing the text of a value takes. *)
Fixpoint size (v : value) : nat :=
  match v with
  | VArr items => S (list_sum (map (fun x => S (size x)) items))
  | VObj props =>
      S ((fix sizes (ps : list (string * value)) : nat :=
            match ps with
            | [] => 0
            | (_, VUndefined) :: rest => sizes rest
            | (_, p) :: rest => S (size p) + sizes rest
            end) props)
  | _ => 1
  end.

Fixpoint sizes (ps : list (string * value)) : nat :=
  match ps with
  | [] => 0
  | (_, VUndefined) :: rest => sizes rest
  | (_, p) :: rest => S (size p) + sizes rest
  end.

Fixpoint ws_only (s : string) : bool :=
  match s with
  | EmptyString => true
  | String c rest => is_ws c && ws_only rest
  end.

(** The text after a number: not a digit, not the start of a fraction. *)
Definition ends_number (rest : string) : bool :=
  match rest with
  | EmptyString => true
  | String c _ =>
      match digit_of c with
      | Some _ => false
      | None => negb (Ascii.eqb c "." || Ascii.eqb c "e" || Ascii.eqb c "E")
      end
  end.

(** The first character of the text of a value: not white space, not a
    closing bracket or brace. *)
Definition opens_value (c : ascii) : bool :=
  negb (is_ws c) && negb (Ascii.eqb c "]") && negb (Ascii.eqb c "}").

(** What the round trip says of one value. *)
Definition parses_back (v : value) : Prop :=
  forall fuel indent rest,
    wf v = true -> size v <= fuel -> ws_only indent = true ->
    ends_number rest = true ->
    parse_value fuel (serialize indent v ++ rest) = Some (clean v, rest).

End JSON.

(** ** [src/utils/structuredData.ts] *)

Module StructuredData.
Import JS JSON.

(** [...(x && { props })]: spreading a falsy operand adds nothing. *)
Definition spread_if_string (x : option string)
    (props : string -> list (string * value)) : list (string * value) :=
  match x with
  | Some (String a t) => props (String a t)
  | _ => []
  end.

Definition spread_if_object {A : Type} (x : option A)
    (props : A -> list (string * value)) : list (string * value) :=
  match x with
  | Some a => props a
  | None => []
  end.

(** A property read that may be [undefined], as a value. *)
Definition VStr_opt (x : option string) : value :=
  match x with
  | Some s => VStr s
  | None => VUndefined
  end.

(** [Object.values(o).filter(Boolean)]. *)
Fixpoint values_filter_Boolean (o : list (string * option string)) : list string :=
  match o with
  | [] => []
  | (_, Some (String a t)) :: rest => String a t :: values_filter_Boolean rest
  | (_, _) :: rest => values_filter_Boolean rest
  end.

(** [xs.map((x, index) => f x index)], counting from [index]. *)
Fixpoint map_index {A B : Type} (f : A -> nat -> B) (index : nat) (xs : list A)
  : list B :=
  match xs with
  | [] => []
  | x :: rest => f x index :: map_index f (S index) rest
  end.

Definition generateWebsiteSchema (baseUrl : string) (siteSettings : SiteSettings.t)
  : value :=
  VObj [
    ("@context", VStr "https://schema.org");
    ("@type", VStr "WebSite");
    ("name", VStr (or_default (SiteSettings.siteName siteSettings) "Website"));
    ("description",
      VStr (or_default (SiteSettings.siteDescription siteSettings) "A modern website"));
    ("url", VStr baseUrl);
    ("publisher", VObj (
      [ ("@type", VStr "Organization");
        ("name", VStr (or_default (SiteSettings.siteName siteSettings) "Website"));
        ("description",
          VStr (or_default (SiteSettings.siteDescription siteSettings) "A modern website"));
        ("url", VStr baseUrl) ]
      ++ spread_if_object (SiteSettings.logo siteSettings) (fun logo =>
           [ ("logo", VObj [ ("@type", VStr "ImageObject");
                             ("url", VStr (Media.url logo)) ]) ])
      ++ spread_if_object (SiteSettings.socialMedia siteSettings) (fun socialMedia =>
           [ ("sameAs", VArr (map VStr (values_filter_Boolean socialMedia))) ])
      ++ spread_if_object (SiteSettings.contactInfo siteSettings) (fun contactInfo =>
           [ ("contactPoint", VObj (
               [ ("@type", VStr "ContactPoint") ]
               ++ spread_if_string (ContactInfo.email contactInfo) (fun email =>
                    [ ("email", VStr email) ])
               ++ spread_if_string (ContactInfo.phone contactInfo) (fun phone =>
                    [ ("telephone", VStr phone) ]))%list) ]))%list);
    ("potentialAction", VObj [
      ("@type", VStr "SearchAction");
      ("target", VObj [
        ("@type", VStr "EntryPoint");
        ("urlTemplate", VStr (baseUrl ++ "/search?q={search_term_string}")) ]);
      ("query-input", VStr "required name=search_term_string") ])
  ].

Definition generateArticleSchema (baseUrl : string) (siteSettings : SiteSettings.t)
    (page : Data.t) : value :=
  let pageUrl := baseUrl ++ "/pages/" ++ interpolate (Data.slug page) in
  let publishedDate := or_else (Data.publishedDate page) (Data.createdAt page) in
  let modifiedDate := Data.updatedAt page in
  VObj (
    [ ("@context", VStr "https://schema.org");
      ("@type", VStr "Article");
      ("headline", VStr_opt (Data.title page));
      ("description",
        VStr (or_default
                (or_else
                   (or_else (opt_chain (Data.seo page) SEOFields.description)
                            (Data.excerpt page))
                   (SiteSettings.siteDescription siteSettings))
                "A modern website"));
      ("url", VStr pageUrl);
      ("datePublished", VStr_opt publishedDate);
      ("dateModified", VStr_opt modifiedDate);
      ("author", VObj [
        ("@type", VStr "Organization");
        ("name", VStr (or_default (SiteSettings.siteName siteSettings) "Website"));
        ("url", VStr baseUrl) ]);
      ("publisher", VObj (
        [ ("@type", VStr "Organization");
          ("name", VStr (or_default (SiteSettings.siteName siteSettings) "Website"));
          ("url", VStr baseUrl) ]
        ++ spread_if_object (SiteSettings.logo siteSettings) (fun logo =>
             [ ("logo", VObj [ ("@type", VStr "ImageObject");
                               ("url", VStr (Media.url logo)) ]) ]))%list);
      ("mainEntityOfPage", VObj [
        ("@type", VStr "WebPage");
        ("@id", VStr pageUrl) ]) ]
    ++ spread_if_object (Data.featuredImage page) (fun featuredImage =>
         [ ("image", VObj (
             [ ("@type", VStr "ImageObject");
               ("url", VStr (Media.url featuredImage)) ]
             ++ spread_if_string (Media.alt featuredImage) (fun alt =>
                  [ ("caption", VStr alt) ]))%list) ])
    ++ spread_if_string (opt_chain (Data.seo page) SEOFields.keywords) (fun keywords =>
         [ ("keywords", VStr keywords) ]))%list.

(** [crumb.url.startsWith('http') ? crumb.url : `${baseUrl}${crumb.url}`]. *)
Definition breadcrumb_item (baseUrl : string) (crumb : Breadcrumb.t) : string :=
  if startsWith (Breadcrumb.url crumb) "http" then Breadcrumb.url crumb
  else baseUrl ++ Breadcrumb.url crumb.

Definition generateBreadcrumbSchema (baseUrl : string) (breadcrumbs : list Breadcrumb.t)
  : value :=
  VObj [
    ("@context", VStr "https://schema.org");
    ("@type", VStr "BreadcrumbList");
    ("itemListElement", VArr (map_index (fun crumb index =>
       VObj [
         ("@type", VStr "ListItem");
         ("position", VNum (Z.of_nat index + 1));
         ("name", VStr (Breadcrumb.name crumb));
         ("item", VStr (breadcrumb_item baseUrl crumb)) ]) 0 breadcrumbs))
  ].

(** The list item of one crumb, at a 0-based index. *)
Definition list_item (baseUrl : string) (crumb : Breadcrumb.t) (index : nat) : value :=
  VObj [
    ("@type", VStr "ListItem");
    ("position", VNum (Z.of_nat index + 1));
    ("name", VStr (Breadcrumb.name crumb));
    ("item", VStr (if startsWith (Breadcrumb.url crumb) "http"
                   then Breadcrumb.url crumb
                   else baseUrl ++ Breadcrumb.url crumb)) ].

(** The local array [structuredData] when [JSON.stringify] is reached. *)
Definition structuredData_array (config : StructuredDataConfig.t) : list value :=
  let baseUrl := StructuredDataConfig.baseUrl config in
  let siteSettings := StructuredDataConfig.siteSettings config in
  let structuredData := [] in
  let structuredData :=
    push structuredData [generateWebsiteSchema baseUrl siteSettings] in
  let structuredData :=
    match StructuredDataConfig.page config with
    | Some page =>
        push structuredData [generateArticleSchema baseUrl siteSettings page]
    | None => structuredData
    end in
  let structuredData :=
    match StructuredDataConfig.breadcrumbs config with
    | Some (crumb :: rest) =>
        push structuredData [generateBreadcrumbSchema baseUrl (crumb :: rest)]
    | _ => structuredData
    end in
  structuredData.

Definition generateStructuredData (config : StructuredDataConfig.t) : string :=
  stringify_array (structuredData_array config).

(** The object [generateProductSchema] returns.  Its [price] is any
    number, so it is kept as a record of its own rather than a [value]. *)
Module Offer.
Record t : Type := mk {
  at_type : string;
  price : number;
  priceCurrency : string;
  availability : string
}.
End Offer.

Module ProductSchema.
Record t : Type := mk {
  at_context : string;
  at_type : string;
  name : string;
  description : string;
  url : string;
  image : option string;
  offers : option Offer.t
}.
End ProductSchema.

Definition generateProductSchema (baseUrl : string) (product : ProductData.t)
  : ProductSchema.t :=
  {| ProductSchema.at_context := "https://schema.org";
     ProductSchema.at_type := "Product";
     ProductSchema.name := ProductData.name product;
     ProductSchema.description := ProductData.description product;
     ProductSchema.url := baseUrl;
     ProductSchema.image :=
       match ProductData.image product with
       | Some (String a t) => Some (String a t)
       | _ => None
       end;
     ProductSchema.offers :=
       match ProductData.price product, ProductData.currency product with
       | Some price, Some (String a t) =>
           if Number_truthy price then
             Some {| Offer.at_type := "Offer";
                     Offer.price := price;
                     Offer.priceCurrency := String a t;
                     Offer.availability :=
                       or_default (ProductData.availability product)
                                  "https://schema.org/InStock" |}
           else None
       | _, _ => None
       end |}.

End StructuredData.

(** ** [src/utils/seo.ts] *)

Inductive Kind : Type := kind_page | kind_home.

Definition Kind_eqb (a b : Kind) : bool :=
  match a, b with
  | kind_page, kind_page => true
  | kind_home, kind_home => true
  | _, _ => false
  end.

Module Seo.
Import JS Escaping.

Definition generateSEO (data : Data.t) (siteSettings : SiteSettings.t)
    (type : option Kind) (baseUrl : option string)
    (breadcrumbs : option (list Breadcrumb.t)) : SEOData.t :=
  let type := match type with Some k => k | None => kind_home end in
  let baseTitle := or_default (SiteSettings.siteName siteSettings) "Website" in
  let baseDescription :=
    or_default (SiteSettings.siteDescription siteSettings) "A modern website" in
  let '(title, description, keywords, image) :=
    if Kind_eqb type kind_page && Data.has_title data then
      let page := data in
      ( or_default (opt_chain (Data.seo page) SEOFields.title)
                   (interpolate (Data.title page) ++ " | " ++ baseTitle),
        or_default (or_else (opt_chain (Data.seo page) SEOFields.description)
                            (Data.excerpt page))
                   baseDescription,
        opt_chain (Data.seo page) SEOFields.keywords,
        or_else (opt_chain (opt_chain (Data.seo page) SEOFields.image)
                           (fun m => Some (Media.url m)))
                (opt_chain (Data.featuredImage page)
                           (fun m => Some (Media.url m))) )
    else (baseTitle, baseDescription, None, None) in
  {| SEOData.title := or_default (Some title) "Website";
     SEOData.description := or_default (Some description) "A modern website";
     SEOData.keywords := keywords;
     SEOData.image := image;
     SEOData.url :=
       if Kind_eqb type kind_page && Data.has_slug data
       then Some (interpolate baseUrl ++ "/pages/" ++ interpolate (Data.slug data))
       else baseUrl;
     SEOData.type :=
       Some (if Kind_eqb type kind_home then "website" else "article");
     SEOData.structuredData :=
       match baseUrl with
       | Some (String a t) =>
           Some (StructuredData.generateStructuredData
                   {| StructuredDataConfig.baseUrl := String a t;
                      StructuredDataConfig.siteSettings := siteSettings;
                      StructuredDataConfig.page :=
                        if Kind_eqb type kind_page then Some data else None;
                      StructuredDataConfig.breadcrumbs := breadcrumbs |})
       | _ => None
       end |}.

(** The tags of [generateMetaTags], one definition per template. *)
Definition meta_name (name content : string) : string :=
  "<meta name=" ++ quoted name ++ " content=" ++ quoted content ++ " />".
Definition meta_property (property content : string) : string :=
  "<meta property=" ++ quoted property ++ " content=" ++ quoted content ++ " />".
Definition title_tag (seo : SEOData.t) : string :=
  "<title>" ++ escapeHtml (SEOData.title seo) ++ "</title>".

(** The array [tags] when [join] is reached. *)
Definition tags_array (seo : SEOData.t) : list string :=
  let tags :=
    [ title_tag seo;
      meta_name "description" (escapeHtml (SEOData.description seo)) ] in
  let tags :=
    match SEOData.keywords seo with
    | Some (String a t) =>
        push tags [ meta_name "keywords" (escapeHtml (String a t)) ]
    | _ => tags
    end in
  let tags :=
    push tags
      [ meta_property "og:title" (escapeHtml (SEOData.title seo));
        meta_property "og:description" (escapeHtml (SEOData.description seo));
        meta_property "og:type" (or_default (SEOData.type seo) "website") ] in
  let tags :=
    match SEOData.url seo with
    | Some (String a t) =>
        push tags [ meta_property "og:url" (escapeHtml (String a t)) ]
    | _ => tags
    end in
  let tags :=
    match SEOData.image seo with
    | Some (String a t) =>
        push tags
          [ meta_property "og:image" (escapeHtml (String a t));
            meta_name "twitter:card" "summary_large_image";
            meta_name "twitter:image" (escapeHtml (String a t)) ]
    | _ => tags
    end in
  let tags :=
    push tags
      [ meta_name "twitter:title" (escapeHtml (SEOData.title seo));
        meta_name "twitter:description" (escapeHtml (SEOData.description seo)) ] in
  tags.

Definition generateMetaTags (seo : SEOData.t) : string :=
  join (nl ++ "    ") (tags_array seo).

End Seo.

(** ** [src/utils/sitemap.ts] *)

(** How a statement ends: normally with a value, or abruptly with a
    thrown error. *)
Inductive Error : Type :=
| RangeError (message : string).

Inductive completion (A : Type) : Type :=
| Normal (a : A)
| Throw (e : Error).
Arguments Normal {A} a.
Arguments Throw {A} e.

Definition bind {A B : Type} (c : completion A) (k : A -> completion B)
  : completion B :=
  match c with
  | Normal a => k a
  | Throw e => Throw e
  end.

Notation "x <- c ;; k" := (bind c (fun x => k))
  (at level 61, c at next level, right associativity).

(** [xs.forEach(body)] over a state threaded through the callback; a
    throw in the callback ends the loop. *)
Fixpoint forEach {A S : Type} (xs : list A) (body : A -> S -> completion S) (s : S)
  : completion S :=
  match xs with
  | [] => Normal s
  | x :: rest => s' <- body x s ;; forEach rest body s'
  end.

(** [traverse f xs]: the results of [f] on [xs] in order, or the first
    throw. *)
Fixpoint traverse {A B : Type} (f : A -> completion B) (xs : list A)
  : completion (list B) :=
  match xs with
  | [] => Normal []
  | x :: rest => y <- f x ;; ys <- traverse f rest ;; Normal (y :: ys)
  end.

Module Sitemap.
Import JS.

(** [escapeXml]: the same five replacements as [escapeHtml]. *)
Definition escapeXml (text : string) : string :=
  replaceAll "'" "&#39;"
    (replaceAll DQUOTE "&quot;"
       (replaceAll ">" "&gt;"
          (replaceAll "<" "&lt;"
             (replaceAll "&" "&amp;" text)))).

Definition shouldIncludePage (page : Page.t) : bool :=
  if negb (truthy (Some (Page.slug page))) then false
  else if negb (Status_eqb (Page.status page) published) then false
  else if truthy_bool (opt_chain (Page.seo page) SEOFields.noIndex) then false
  else true.

Definition Changefreq_toString (c : Changefreq) : string :=
  match c with
  | always => "always"
  | hourly => "hourly"
  | daily => "daily"
  | weekly => "weekly"
  | monthly => "monthly"
  | yearly => "yearly"
  | never => "never"
  end.

Definition generateRobotsTxt (baseUrl : string) : string :=
  let robots := "# Robots.txt" ++ nl in
  let robots := robots ++ "# Generated automatically" ++ nl ++ nl in
  let robots := robots ++ "User-agent: *" ++ nl in
  let robots := robots ++ "Allow: /" ++ nl ++ nl in
  let robots := robots ++ "# Disallow admin and API routes" ++ nl in
  let robots := robots ++ "Disallow: /admin/" ++ nl in
  let robots := robots ++ "Disallow: /api/" ++ nl in
  let robots := robots ++ "Disallow: /_next/" ++ nl in
  let robots := robots ++ "Disallow: /build/" ++ nl in
  let robots := robots ++ "Disallow: /uploads/" ++ nl ++ nl in
  let robots := robots ++ "# Sitemap" ++ nl in
  let robots := robots ++ "Sitemap: " ++ baseUrl ++ "/sitemap.xml" ++ nl in
  robots.

Section Builtins.

(** The [Date] built-in, as far as the code uses it.
    [Date_parse s] is the time value of [new Date(s)], in milliseconds
    since the epoch, and [None] when it is [NaN] (an Invalid Date).
    [Date_format t] is the ISO text of a finite time value [t].
    Both are the host's: [new Date(s)] reads a date-time text without
    offset in the time zone of the host, and texts outside the standard
    format by the rules of the engine. *)
Variable Date_parse : string -> option Z.
Variable Date_format : Z -> string.

(** Number::toString, for [`${url.priority}`]. *)
Variable Number_toString : number -> string.

(** [new Date(s).toISOString()]: a RangeError on an Invalid Date. *)
Definition Date_toISOString (s : string) : completion string :=
  match Date_parse s with
  | Some t => Normal (Date_format t)
  | None => Throw (RangeError "Invalid time value")
  end.

(** [clock] is the time value that [new Date()] reads. *)
Definition generateSitemapUrls (clock : Z) (pages : list Page.t)
    (siteSettings : SiteSettings.t) (config : option SitemapConfig.t)
  : completion (list SitemapUrl.t) :=
  let config := match config with Some c => c | None => SitemapConfig.empty end in
  let baseUrl :=
    match SitemapConfig.baseUrl config with Some b => b | None => "" end in
  let includeHomepage :=
    match SitemapConfig.includeHomepage config with Some b => b | None => true end in
  let homepagePriority :=
    match SitemapConfig.homepagePriority config with
    | Some p => p | None => Number_1_0 end in
  let pagePriority :=
    match SitemapConfig.pagePriority config with
    | Some p => p | None => Number_0_8 end in
  let defaultChangefreq :=
    match SitemapConfig.defaultChangefreq config with
    | Some c => c | None => weekly end in
  let urls : list SitemapUrl.t := [] in
  let now := Date_format clock in
  let urls :=
    if includeHomepage then
      push urls [ {| SitemapUrl.loc := baseUrl;
                     SitemapUrl.lastmod := now;
                     SitemapUrl.changefreq := daily;
                     SitemapUrl.priority := homepagePriority |} ]
    else urls in
  forEach pages (fun page urls =>
    if shouldIncludePage page then
      let url := baseUrl ++ "/pages/" ++ Page.slug page in
      let lastmod :=
        or_default (or_else (Some (Page.updatedAt page)) (Page.publishedDate page))
                   now in
      iso <- Date_toISOString lastmod ;;
      Normal (push urls [ {| SitemapUrl.loc := url;
                             SitemapUrl.lastmod := iso;
                             SitemapUrl.changefreq := defaultChangefreq;
                             SitemapUrl.priority := pagePriority |} ])
    else Normal urls) urls.

Definition generateSitemapXML (urls : list SitemapUrl.t) : string :=
  let xml := "<?xml version=" ++ quoted "1.0" ++ " encoding=" ++ quoted "UTF-8"
             ++ "?>" ++ nl in
  let xml := xml ++ "<urlset xmlns="
             ++ quoted "http://www.sitemaps.org/schemas/sitemap/0.9" ++ ">" ++ nl in
  let xml :=
    fold_left (fun xml url =>
      let xml := xml ++ "  <url>" ++ nl in
      let xml := xml ++ "    <loc>" ++ escapeXml (SitemapUrl.loc url) ++ "</loc>" ++ nl in
      let xml := xml ++ "    <lastmod>" ++ SitemapUrl.lastmod url ++ "</lastmod>" ++ nl in
      let xml := xml ++ "    <changefreq>"
                 ++ Changefreq_toString (SitemapUrl.changefreq url)
                 ++ "</changefreq>" ++ nl in
      let xml := xml ++ "    <priority>" ++ Number_toString (SitemapUrl.priority url)
                 ++ "</priority>" ++ nl in
      let xml := xml ++ "  </url>" ++ nl in
      xml) urls xml in
  let xml := xml ++ "</urlset>" in
  xml.

(** The entry the loop pushes for an eligible page whose date reads as
    the ISO text [iso]. *)
Definition page_entry (config : option SitemapConfig.t) (page : Page.t) (iso : string)
  : SitemapUrl.t :=
  let config := match config with Some c => c | None => SitemapConfig.empty end in
  {| SitemapUrl.loc :=
       match SitemapConfig.baseUrl config with Some b => b | None => "" end
       ++ "/pages/" ++ Page.slug page;
     SitemapUrl.lastmod := iso;
     SitemapUrl.changefreq :=
       match SitemapConfig.defaultChangefreq config with
       | Some c => c | None => weekly end;
     SitemapUrl.priority :=
       match SitemapConfig.pagePriority config with
       | Some p => p | None => Number_0_8 end |}.

(** The homepage entry, present unless [includeHomepage] is [false]. *)
Definition homepage_entries (clock : Z) (config : option SitemapConfig.t)
  : list SitemapUrl.t :=
  let config := match config with Some c => c | None => SitemapConfig.empty end in
  match SitemapConfig.includeHomepage config with
  | Some false => []
  | _ =>
      [ {| SitemapUrl.loc :=
             match SitemapConfig.baseUrl config with Some b => b | None => "" end;
           SitemapUrl.lastmod := Date_format clock;
           SitemapUrl.changefreq := daily;
           SitemapUrl.priority :=
             match SitemapConfig.homepagePriority config with
             | Some p => p | None => Number_1_0 end |} ]
  end.

(** The date text a page's [lastmod] is computed from. *)
Definition page_lastmod_source (clock : Z) (page : Page.t) : string :=
  or_default (or_else (Some (Page.updatedAt page)) (Page.publishedDate page))
             (Date_format clock).

(** What the loop body does for an eligible page: one entry, or the
    RangeError of [toISOString]. *)
Definition eligible_entry (clock : Z) (config : option SitemapConfig.t) (page : Page.t)
  : completion SitemapUrl.t :=
  iso <- Date_toISOString (page_lastmod_source clock page) ;;
  Normal (page_entry config page iso).

(** The date text of every eligible page is a valid date. *)
Definition dates_valid (clock : Z) (pages : list Page.t) : Prop :=
  forall page, In page pages -> shouldIncludePage page = true ->
    Date_parse (page_lastmod_source clock page) <> None.

End Builtins.

End Sitemap.

(** ** A reference instance of the [Date] built-in

    ECMAScript fixes [Date.parse] on the Date Time String Format,
    [YYYY-MM-DDTHH:mm:ss.sssZ] and its shorter forms, and leaves other
    texts to the engine.  This instance reads that format as V8, the
    engine of Node.js, does: a year ([YYYY], or the expanded [+YYYYYY]
    and [-YYYYYY]), then optionally [-MM], and after it optionally
    [-DD]; then either the end of the text (a date-only form, read as
    UTC) or [T] and [HH:mm], optionally [:ss] and after it a fraction of
    one to nine digits, and optionally [Z] or an offset [+HH:mm] or
    [-HH:mm].  A date-time form without offset is local time: it is read
    in the time zone of the host, given by its offset from UTC in
    minutes.  A day up to 31 is taken in every month and runs over into
    the next month, and [24:00:00] is the end of the day.  Every other
    text is an Invalid Date here; an engine reads some of them by rules
    of its own, and the examples below use none of those.  [format] is
    [Date.prototype.toISOString] on a time value. *)

Module IsoDate.
Local Open Scope Z_scope.

Definition days_from_civil (y m d : Z) : Z :=
  let y := if m <=? 2 then y - 1 else y in
  let era := y / 400 in
  let yoe := y - era * 400 in
  let doy := (153 * (if 2 <? m then m - 3 else m + 9) + 2) / 5 + d - 1 in
  let doe := yoe * 365 + yoe / 4 - yoe / 100 + doy in
  era * 146097 + doe - 719468.

Definition civil_from_days (z : Z) : Z * Z * Z :=
  let z := z + 719468 in
  let era := z / 146097 in
  let doe := z - era * 146097 in
  let yoe := (doe - doe / 1460 + doe / 36524 - doe / 146096) / 365 in
  let y := yoe + era * 400 in
  let doy := doe - (365 * yoe + yoe / 4 - yoe / 100) in
  let mp := (5 * doy + 2) / 153 in
  let d := doy - (153 * mp + 2) / 5 + 1 in
  let m := if mp <? 10 then mp + 3 else mp - 9 in
  (if m <=? 2 then y + 1 else y, m, d).

Definition msPerDay : Z := 86400000.
Definition maxTime : Z := 8640000000000000.

(** [TimeClip]: a time value out of range is [NaN]. *)
Definition time_clip (t : Z) : option Z :=
  if Z.abs t <=? maxTime then Some t else None.

(** [MakeDate(MakeDay(y, m - 1, d), MakeTime(h, mi, s, ms))] on fields
    in the ranges of the format. *)
Definition make_time (y m d h mi s ms : Z) : option Z :=
  if (1 <=? m) && (m <=? 12) && (1 <=? d) && (d <=? 31)
     && ((h <=? 23) || ((h =? 24) && (mi =? 0) && (s =? 0) && (ms =? 0)))
     && (mi <=? 59) && (s <=? 59)
  then Some (days_from_civil y m d * msPerDay
             + ((h * 60 + mi) * 60 + s) * 1000 + ms)
  else None.

Definition digit_val (c : ascii) : option Z :=
  let n := Z.of_nat (nat_of_ascii c) in
  if (48 <=? n) && (n <=? 57) then Some (n - 48) else None.

(** Exactly [k] decimal digits at the head of a text. *)
Fixpoint read_fixed (k : nat) (acc : Z) (s : string) : option (Z * string) :=
  match k with
  | O => Some (acc, s)
  | S k' =>
      match s with
      | String c rest =>
          match digit_val c with
          | Some d => read_fixed k' (acc * 10 + d) rest
          | None => None
          end
      | EmptyString => None
      end
  end.

Definition read_char (c : ascii) (s : string) : option string :=
  match s with
  | String c' rest => if Ascii.eqb c c' then Some rest else None
  | EmptyString => None
  end.

Definition read_year (s : string) : option (Z * string) :=
  match s with
  | String "+" rest => read_fixed 6 0 rest
  | String "-" rest =>
      match read_fixed 6 0 rest with
      | Some (0, _) => None
      | Some (y, rest') => Some (- y, rest')
      | None => None
      end
  | _ => read_fixed 4 0 s
  end.

Definition obind {A B : Type} (o : option A) (k : A -> option B) : option B :=
  match o with Some a => k a | None => None end.

(** An optional [-MM] or [-DD]. *)
Definition read_dash_field (s : string) : option (option Z * string) :=
  match s with
  | String "-" rest =>
      obind (read_fixed 2 0 rest) (fun '(n, rest') => Some (Some n, rest'))
  | _ => Some (None, s)
  end.

(** The decimal digits at the head of a text. *)
Fixpoint read_digits (s : string) : list Z * string :=
  match s with
  | String c rest =>
      match digit_val c with
      | Some d => let '(ds, rest') := read_digits rest in (d :: ds, rest')
      | None => ([], s)
      end
  | EmptyString => ([], s)
  end.

(** An optional [:ss], and after it an optional fraction, of which the
    first three digits are the milliseconds. *)
Definition read_seconds (s : string) : option (Z * Z * string) :=
  match s with
  | String ":" rest =>
      obind (read_fixed 2 0 rest) (fun '(sec, rest') =>
      match rest' with
      | String "." fraction =>
          let '(ds, rest'') := read_digits fraction in
          if (1 <=? length ds)%nat && (length ds <=? 9)%nat
          then Some (sec, nth 0 ds 0 * 100 + nth 1 ds 0 * 10 + nth 2 ds 0, rest'')
          else None
      | _ => Some (sec, 0, rest')
      end)
  | _ => Some (0, 0, s)
  end.

(** The end of a date-time form: the offset from UTC, in minutes, that
    the text gives, or the one of the host when it gives none. *)
Definition read_offset (zone : Z) (s : string) : option Z :=
  match s with
  | EmptyString => Some zone
  | String "Z" EmptyString => Some 0
  | String c rest =>
      if Ascii.eqb c "+" || Ascii.eqb c "-" then
        obind (read_fixed 2 0 rest) (fun '(h, s) =>
        obind (read_char ":" s) (fun s =>
        obind (read_fixed 2 0 s) (fun '(mi, s) =>
        match s with
        | EmptyString =>
            if (h <=? 23) && (mi <=? 59)
            then Some ((if Ascii.eqb c "-" then -1 else 1) * (h * 60 + mi))
            else None
        | _ => None
        end)))
      else None
  end.

(** [Date.parse] on a host whose local time is [zone] minutes ahead of
    UTC. *)
Definition parse_in (zone : Z) (s : string) : option Z :=
  obind (read_year s) (fun '(y, s) =>
  obind (read_dash_field s) (fun '(month, s) =>
  obind (match month with
         | Some _ => read_dash_field s
         | None => Some (None, s)
         end) (fun '(day, s) =>
  let m := match month with Some m => m | None => 1 end in
  let d := match day with Some d => d | None => 1 end in
  match s with
  | EmptyString => obind (make_time y m d 0 0 0 0) time_clip
  | String "T" s =>
      obind (read_fixed 2 0 s) (fun '(h, s) =>
      obind (read_char ":" s) (fun s =>
      obind (read_fixed 2 0 s) (fun '(mi, s) =>
      obind (read_seconds s) (fun '(sec, ms, s) =>
      obind (read_offset zone s) (fun offset =>
      obind (make_time y m d h mi sec ms) (fun t =>
      time_clip (t - offset * 60000)))))))
  | _ => None
  end))).

(** [Date.parse] on a host in UTC. *)
Definition parse (s : string) : option Z := parse_in 0 s.

(** [n] in [k] decimal digits, zero padded. *)
Fixpoint pad (k : nat) (n : Z) : string :=
  match k with
  | O => EmptyString
  | S k' =>
      (pad k' (n / 10)
       ++ String (ascii_of_nat (Z.to_nat (48 + n mod 10))) EmptyString)%string
  end.

Definition format (t : Z) : string :=
  let day := t / msPerDay in
  let tod := t mod msPerDay in
  let '(y, m, d) := civil_from_days day in
  let year :=
    if (0 <=? y) && (y <=? 9999) then pad 4 y
    else if y <? 0 then ("-" ++ pad 6 (- y))%string
    else ("+" ++ pad 6 y)%string in
  (year ++ "-" ++ pad 2 m ++ "-" ++ pad 2 d ++ "T"
   ++ pad 2 (tod / 3600000) ++ ":" ++ pad 2 (tod / 60000 mod 60) ++ ":"
   ++ pad 2 (tod / 1000 mod 60) ++ "." ++ pad 3 (tod mod 1000) ++ "Z")%string.

End IsoDate.

(** ** Inputs used in the examples below *)

Module Examples.

Definition page_about : Page.t :=
  {| Page.id := "1";
     Page.title := "About";
     Page.slug := "about";
     Page.status := published;
     Page.excerpt := Some "desc";
     Page.featuredImage := None;
     Page.seo := None;
     Page.publishedDate := None;
     Page.createdAt := "2024-01-15T10:30:00.000Z";
     Page.updatedAt := "2024-02-01T08:00:00.000Z" |}.

Definition site_acme : SiteSettings.t :=
  {| SiteSettings.siteName := Some "Acme";
     SiteSettings.siteDescription := None;
     SiteSettings.logo := None;
     SiteSettings.socialMedia := None;
     SiteSettings.contactInfo := None |}.

(** A site with no optional field set. *)
Definition site_empty : SiteSettings.t :=
  {| SiteSettings.siteName := None;
     SiteSettings.siteDescription := None;
     SiteSettings.logo := None;
     SiteSettings.socialMedia := None;
     SiteSettings.contactInfo := None |}.

(** A site whose name is set to the empty string. *)
Definition site_blank_name : SiteSettings.t :=
  {| SiteSettings.siteName := Some "";
     SiteSettings.siteDescription := None;
     SiteSettings.logo := None;
     SiteSettings.socialMedia := None;
     SiteSettings.contactInfo := None |}.

(** Pages that are not eligible for the sitemap. *)
Definition page_draft : Page.t :=
  {| Page.id := "2";
     Page.title := "Draft";
     Page.slug := "draft";
     Page.status := draft;
     Page.excerpt := None;
     Page.featuredImage := None;
     Page.seo := None;
     Page.publishedDate := None;
     Page.createdAt := "2024-01-15T10:30:00.000Z";
     Page.updatedAt := "not-a-date" |}.

Definition page_noindex : Page.t :=
  {| Page.id := "3";
     Page.title := "Hidden";
     Page.slug := "hidden";
     Page.status := published;
     Page.excerpt := None;
     Page.featuredImage := None;
     Page.seo := Some (SEOFields.mk None None None None (Some true) None);
     Page.publishedDate := None;
     Page.createdAt := "2024-01-15T10:30:00.000Z";
     Page.updatedAt := "2024-02-01T08:00:00.000Z" |}.

(** An eligible page whose [updatedAt] is not a date. *)
Definition page_bad_date : Page.t :=
  {| Page.id := "4";
     Page.title := "News";
     Page.slug := "news";
     Page.status := published;
     Page.excerpt := None;
     Page.featuredImage := None;
     Page.seo := None;
     Page.publishedDate := None;
     Page.createdAt := "2024-01-15T10:30:00.000Z";
     Page.updatedAt := "not-a-date" |}.

(** An eligible page with an empty [updatedAt] and a [publishedDate]
    that is not a date. *)
Definition page_bad_published : Page.t :=
  {| Page.id := "5";
     Page.title := "Blog";
     Page.slug := "blog";
     Page.status := published;
     Page.excerpt := None;
     Page.featuredImage := None;
     Page.seo := None;
     Page.publishedDate := Some "yesterday";
     Page.createdAt := "2024-01-15T10:30:00.000Z";
     Page.updatedAt := "" |}.

(** A configuration without the homepage entry. *)
Definition config_no_homepage : SitemapConfig.t :=
  {| SitemapConfig.baseUrl := Some "https://acme.test";
     SitemapConfig.includeHomepage := Some false;
     SitemapConfig.homepagePriority := None;
     SitemapConfig.pagePriority := None;
     SitemapConfig.defaultChangefreq := None |}.

(** An eligible page whose [updatedAt] is a date-time text without
    offset, which [Date] reads as local time. *)
Definition page_local_time : Page.t :=
  {| Page.id := "7";
     Page.title := "Team";
     Page.slug := "team";
     Page.status := published;
     Page.excerpt := None;
     Page.featuredImage := None;
     Page.seo := None;
     Page.publishedDate := None;
     Page.createdAt := "2024-01-15T10:30:00.000";
     Page.updatedAt := "2024-02-01T08:00:00.000" |}.

Definition clock_2024 : Z := 1705314600000.

(** The free product: a price of zero, in dollars. *)
Definition product_free : ProductData.t :=
  {| ProductData.name := "Sticker";
     ProductData.description := "A free sticker";
     ProductData.price := Some (S754_zero false);
     ProductData.currency := Some "USD";
     ProductData.image := None;
     ProductData.availability := None |}.

(** A product priced 20 (that is 5629499534213120 * 2^-48), in dollars. *)
Definition product_priced : ProductData.t :=
  {| ProductData.name := "Mug";
     ProductData.description := "A mug";
     ProductData.price := Some (S754_finite false 5629499534213120 (-48));
     ProductData.currency := Some "USD";
     ProductData.image := None;
     ProductData.availability := None |}.

(** A breadcrumb trail: a relative and an absolute link. *)
Definition crumb_home : Breadcrumb.t :=
  {| Breadcrumb.name := "Home"; Breadcrumb.url := "/" |}.
Definition crumb_about : Breadcrumb.t :=
  {| Breadcrumb.name := "About"; Breadcrumb.url := "https://acme.test/pages/about" |}.

Definition config_crumbs : StructuredDataConfig.t :=
  {| StructuredDataConfig.baseUrl := "https://acme.test";
     StructuredDataConfig.siteSettings := site_acme;
     StructuredDataConfig.page := Some (Data.OfPage page_about);
     StructuredDataConfig.breadcrumbs := Some [crumb_home; crumb_about] |}.

End Examples.

(** ** Texts: counting, lines, and reading entities back *)

Module Text.
Import JS Escaping.

(** The number of occurrences of a character in a text. *)
Fixpoint count_char (c : ascii) (s : string) : nat :=
  match s with
  | EmptyString => 0
  | String a rest => (if Ascii.eqb a c then 1 else 0) + count_char c rest
  end.

(** [text.split('\n')]: the lines of a text; a text that ends with a
    line feed has an empty last line. *)
Fixpoint lines (s : string) : list string :=
  match s with
  | EmptyString => [EmptyString]
  | String a rest =>
      if Ascii.eqb a LF then EmptyString :: lines rest
      else match lines rest with
           | l :: ls => String a l :: ls
           | [] => [String a EmptyString]
           end
  end.

(** [strip lit s]: the text after the literal [lit] at the head of [s]. *)
Fixpoint strip (lit s : string) : option string :=
  match lit, s with
  | EmptyString, _ => Some s
  | String a lit', String b s' => if Ascii.eqb a b then strip lit' s' else None
  | String _ _, EmptyString => None
  end.

(** A decoder for [escapeHtml], used to show that escaping loses
    nothing: each of the five entities is read back as its character. *)
Fixpoint unescapeHtml (s : string) : string :=
  match s with
  | EmptyString => EmptyString
  | String c rest =>
      let r := unescapeHtml rest in
      if Ascii.eqb c "&" then
        match strip "amp;" r with
        | Some r' => String "&" r'
        | None =>
        match strip "lt;" r with
        | Some r' => String "<" r'
        | None =>
        match strip "gt;" r with
        | Some r' => String ">" r'
        | None =>
        match strip "quot;" r with
        | Some r' => String DQUOTE r'
        | None =>
        match strip "#39;" r with
        | Some r' => String "'" r'
        | None => String c r
        end end end end end
      else String c r
  end.

End Text.

(** ** [src/utils/sitemap.ts]: the text of one entry *)

Module SitemapText.
Import JS Sitemap.

(** The two lines every sitemap opens with. *)
Definition xml_header : string :=
  "<?xml version=" ++ quoted "1.0" ++ " encoding=" ++ quoted "UTF-8" ++ "?>" ++ nl
  ++ "<urlset xmlns=" ++ quoted "http://www.sitemaps.org/schemas/sitemap/0.9"
  ++ ">" ++ nl.

(** The six lines [generateSitemapXML] appends for one entry. *)
Definition url_block (Number_toString : number -> string) (url : SitemapUrl.t) : string :=
  "  <url>" ++ nl
  ++ "    <loc>" ++ escapeXml (SitemapUrl.loc url) ++ "</loc>" ++ nl
  ++ "    <lastmod>" ++ SitemapUrl.lastmod url ++ "</lastmod>" ++ nl
  ++ "    <changefreq>" ++ Changefreq_toString (SitemapUrl.changefreq url)
  ++ "</changefreq>" ++ nl
  ++ "    <priority>" ++ Number_toString (SitemapUrl.priority url) ++ "</priority>" ++ nl
  ++ "  </url>" ++ nl.

(** The lines of [robots.txt] before the sitemap reference. *)
Definition robots_fixed_lines : list string :=
  [ "# Robots.txt";
    "# Generated automatically";
    "";
    "User-agent: *";
    "Allow: /";
    "";
    "# Disallow admin and API routes";
    "Disallow: /admin/";
    "Disallow: /api/";
    "Disallow: /_next/";
    "Disallow: /build/";
    "Disallow: /uploads/";
    "";
    "# Sitemap" ].

End SitemapText.

(** ** [src/utils/structuredData.ts]: the standalone builders *)

Module FAQItem.
Record t : Type := mk {
  question : string;
  answer : string
}.
End FAQItem.

Module Schemas.
Import JS JSON StructuredData.

Definition generateFAQSchema (faqs : list FAQItem.t) : value :=
  VObj [
    ("@context", VStr "https://schema.org");
    ("@type", VStr "FAQPage");
    ("mainEntity", VArr (map (fun faq =>
       VObj [
         ("@type", VStr "Question");
         ("name", VStr (FAQItem.question faq));
         ("acceptedAnswer", VObj [
           ("@type", VStr "Answer");
           ("text", VStr (FAQItem.answer faq)) ]) ]) faqs))
  ].

(** [siteSettings.contactInfo?.address]. *)
Definition address_of (siteSettings : SiteSettings.t) : option string :=
  opt_chain (SiteSettings.contactInfo siteSettings) ContactInfo.address.

(** [null] is [None]. *)
Definition generateLocalBusinessSchema (baseUrl : string) (siteSettings : SiteSettings.t)
  : option value :=
  match SiteSettings.contactInfo siteSettings with
  | None => None
  | Some contactInfo =>
      match ContactInfo.address contactInfo with
      | Some (String a t) =>
          Some (VObj (
            [ ("@context", VStr "https://schema.org");
              ("@type", VStr "LocalBusiness");
              ("name", VStr (or_default (SiteSettings.siteName siteSettings) "Website"));
              ("description",
                VStr (or_default (SiteSettings.siteDescription siteSettings)
                                 "A modern website"));
              ("url", VStr baseUrl) ]
            ++ spread_if_object (SiteSettings.logo siteSettings) (fun logo =>
                 [ ("image", VStr (Media.url logo)) ])
            ++ [ ("address", VObj [
                   ("@type", VStr "PostalAddress");
                   ("streetAddress", VStr (String a t)) ]) ]
            ++ spread_if_string (ContactInfo.phone contactInfo) (fun phone =>
                 [ ("telephone", VStr phone) ])
            ++ spread_if_string (ContactInfo.email contactInfo) (fun email =>
                 [ ("email", VStr email) ]))%list)
      | _ => None
      end
  end.

End Schemas.

(** ** The framework adapters

    [src/hooks/useSEO.ts], [src/frameworks/sveltekit.ts] and
    [src/frameworks/nextjs.ts] share one options shape.  An optional
    property is absent or holds a value of its type; the five optional
    fields of [SEOData] are declared [string | undefined], so in a
    [Partial<SEOData>] they may be present and [undefined]. *)

Module SEOOverrides.
(** [Partial<SEOData>]: [None] is an absent key. *)
Record t : Type := mk {
  title : option string;
  description : option string;
  keywords : option (option string);
  image : option (option string);
  url : option (option string);
  type : option (option string);
  structuredData : option (option string)
}.
(** [{}]. *)
Definition empty : t := mk None None None None None None None.
End SEOOverrides.

Module SEOOptions.
Record t : Type := mk {
  siteSettings : SiteSettings.t;
  page : option Page.t;
  baseUrl : option string;
  breadcrumbs : option (list Breadcrumb.t);
  type : option Kind;
  overrides : option SEOOverrides.t
}.
End SEOOptions.

Module Adapters.
Import JS Seo.

(** A key of the right operand of a spread, when present, replaces the
    value of the left. *)
Definition over {A : Type} (right : option A) (left : A) : A :=
  match right with
  | Some a => a
  | None => left
  end.

(** [{ ...seo, ...overrides }]. *)
Definition spread (seo : SEOData.t) (overrides : SEOOverrides.t) : SEOData.t :=
  {| SEOData.title := over (SEOOverrides.title overrides) (SEOData.title seo);
     SEOData.description :=
       over (SEOOverrides.description overrides) (SEOData.description seo);
     SEOData.keywords := over (SEOOverrides.keywords overrides) (SEOData.keywords seo);
     SEOData.image := over (SEOOverrides.image overrides) (SEOData.image seo);
     SEOData.url := over (SEOOverrides.url overrides) (SEOData.url seo);
     SEOData.type := over (SEOOverrides.type overrides) (SEOData.type seo);
     SEOData.structuredData :=
       over (SEOOverrides.structuredData overrides) (SEOData.structuredData seo) |}.

(** [{ ...prev, ...updates }] on two partial records. *)
Definition spread_partial (prev updates : SEOOverrides.t) : SEOOverrides.t :=
  {| SEOOverrides.title :=
       over (option_map Some (SEOOverrides.title updates)) (SEOOverrides.title prev);
     SEOOverrides.description :=
       over (option_map Some (SEOOverrides.description updates))
            (SEOOverrides.description prev);
     SEOOverrides.keywords :=
       over (option_map Some (SEOOverrides.keywords updates)) (SEOOverrides.keywords prev);
     SEOOverrides.image :=
       over (option_map Some (SEOOverrides.image updates)) (SEOOverrides.image prev);
     SEOOverrides.url :=
       over (option_map Some (SEOOverrides.url updates)) (SEOOverrides.url prev);
     SEOOverrides.type :=
       over (option_map Some (SEOOverrides.type updates)) (SEOOverrides.type prev);
     SEOOverrides.structuredData :=
       over (option_map Some (SEOOverrides.structuredData updates))
            (SEOOverrides.structuredData prev) |}.

(** [page || siteSettings]. *)
Definition page_or_siteSettings (page : option Page.t) (siteSettings : SiteSettings.t)
  : Data.t :=
  match page with
  | Some p => Data.OfPage p
  | None => Data.OfSiteSettings siteSettings
  end.

(** *** [src/frameworks/sveltekit.ts] *)

Definition generateSEOData (options : SEOOptions.t) : SEOData.t :=
  let siteSettings := SEOOptions.siteSettings options in
  let page := SEOOptions.page options in
  let baseUrl := SEOOptions.baseUrl options in
  let breadcrumbs := SEOOptions.breadcrumbs options in
  let type := match SEOOptions.type options with Some k => k | None => kind_home end in
  let overrides :=
    match SEOOptions.overrides options with
    | Some o => o | None => SEOOverrides.empty end in
  let data := page_or_siteSettings page siteSettings in
  let seo := generateSEO data siteSettings (Some type) baseUrl breadcrumbs in
  spread seo overrides.

Definition generateSvelteKitMetaTags (seo : SEOData.t) : string :=
  generateMetaTags seo.

(** [createSEOStore]: the variable [seo] of the closure is the state;
    the getters read it, [set] and [update] write it. *)
Module SEOStore.
Definition state : Type := SEOData.t.
Definition title (seo : state) : string := SEOData.title seo.
Definition description (seo : state) : string := SEOData.description seo.
Definition keywords (seo : state) : option string := SEOData.keywords seo.
Definition image (seo : state) : option string := SEOData.image seo.
Definition url (seo : state) : option string := SEOData.url seo.
Definition type (seo : state) : option string := SEOData.type seo.
Definition structuredData (seo : state) : option string := SEOData.structuredData seo.
Definition set (newSEO : SEOData.t) (seo : state) : state := newSEO.
End SEOStore.

(** *** [src/hooks/useSEO.ts] *)

Module UseSEOReturn.
Record t : Type := mk {
  seo : SEOData.t;
  metaTags : string;
  title : string;
  description : string;
  keywords : option string;
  image : option string;
  url : option string;
  type : string;
  structuredData : option string;
  updateSEO : SEOOverrides.t -> SEOData.t
}.
End UseSEOReturn.

(** [useMemo] recomputes its value when a dependency changes; what is
    returned is the value of the callback on the current options. *)
Definition useSEO (options : SEOOptions.t) : UseSEOReturn.t :=
  let siteSettings := SEOOptions.siteSettings options in
  let page := SEOOptions.page options in
  let baseUrl := SEOOptions.baseUrl options in
  let breadcrumbs := SEOOptions.breadcrumbs options in
  let type := match SEOOptions.type options with Some k => k | None => kind_home end in
  let overrides :=
    match SEOOptions.overrides options with
    | Some o => o | None => SEOOverrides.empty end in
  let seo :=
    let data := page_or_siteSettings page siteSettings in
    let generatedSEO := generateSEO data siteSettings (Some type) baseUrl breadcrumbs in
    spread generatedSEO overrides in
  let metaTags := generateMetaTags seo in
  let updateSEO := fun updates => spread seo updates in
  {| UseSEOReturn.seo := seo;
     UseSEOReturn.metaTags := metaTags;
     UseSEOReturn.title := SEOData.title seo;
     UseSEOReturn.description := SEOData.description seo;
     UseSEOReturn.keywords := SEOData.keywords seo;
     UseSEOReturn.image := SEOData.image seo;
     UseSEOReturn.url := SEOData.url seo;
     UseSEOReturn.type := or_default (SEOData.type seo) "website";
     UseSEOReturn.structuredData := SEOData.structuredData seo;
     UseSEOReturn.updateSEO := updateSEO |}.

(** [Partial<UseSEOOptions>]. *)
Module PartialSEOOptions.
Record t : Type := mk {
  siteSettings : option SiteSettings.t;
  page : option Page.t;
  baseUrl : option string;
  breadcrumbs : option (list Breadcrumb.t);
  type : option Kind;
  overrides : option SEOOverrides.t
}.
End PartialSEOOptions.

(** [useSEOManager]: the two [useState] cells are the state, a render
    reads them, [updateSEO] writes the first and [updateOptions] the
    second.  (The object returned spreads the result of [useSEO] and
    then sets these two writers.)  [initialOptions] is declared without
    [page]; the options of the state can hold one once [updateOptions]
    has set it. *)
Module SEOManager.
Record state : Type := mk {
  seoData : option SEOOverrides.t;
  options : SEOOptions.t
}.

Definition init (initialOptions : SEOOptions.t) : state :=
  {| seoData := None; options := initialOptions |}.

(** [{ ...options, ...(seoData && { overrides: seoData }) }]. *)
Definition render_options (st : state) : SEOOptions.t :=
  match seoData st with
  | Some o =>
      {| SEOOptions.siteSettings := SEOOptions.siteSettings (options st);
         SEOOptions.page := SEOOptions.page (options st);
         SEOOptions.baseUrl := SEOOptions.baseUrl (options st);
         SEOOptions.breadcrumbs := SEOOptions.breadcrumbs (options st);
         SEOOptions.type := SEOOptions.type (options st);
         SEOOptions.overrides := Some o |}
  | None => options st
  end.

Definition render (st : state) : UseSEOReturn.t := useSEO (render_options st).

(** [setSeoData(prev => ({ ...prev, ...updates }))]; spreading [null]
    adds nothing. *)
Definition updateSEO (updates : SEOOverrides.t) (st : state) : state :=
  {| seoData :=
       Some (spread_partial
               (match seoData st with Some p => p | None => SEOOverrides.empty end)
               updates);
     options := options st |}.

(** [setOptions(prev => ({ ...prev, ...newOptions }))]. *)
Definition updateOptions (newOptions : PartialSEOOptions.t) (st : state) : state :=
  {| seoData := seoData st;
     options :=
       {| SEOOptions.siteSettings :=
            over (PartialSEOOptions.siteSettings newOptions)
                 (SEOOptions.siteSettings (options st));
          SEOOptions.page :=
            over (option_map Some (PartialSEOOptions.page newOptions))
                 (SEOOptions.page (options st));
          SEOOptions.baseUrl :=
            over (option_map Some (PartialSEOOptions.baseUrl newOptions))
                 (SEOOptions.baseUrl (options st));
          SEOOptions.breadcrumbs :=
            over (option_map Some (PartialSEOOptions.breadcrumbs newOptions))
                 (SEOOptions.breadcrumbs (options st));
          SEOOptions.type :=
            over (option_map Some (PartialSEOOptions.type newOptions))
                 (SEOOptions.type (options st));
          SEOOptions.overrides :=
            over (option_map Some (PartialSEOOptions.overrides newOptions))
                 (SEOOptions.overrides (options st)) |} |}.
End SEOManager.

(** *** [src/frameworks/nextjs.ts] *)

Module NextJSMetadataOptions.
(** [overrides] is a [Partial<Record<string, unknown>>]: an object of
    any values, in insertion order. *)
Record t : Type := mk {
  siteSettings : SiteSettings.t;
  page : option Page.t;
  baseUrl : option string;
  breadcrumbs : option (list Breadcrumb.t);
  type : option Kind;
  overrides : option (list (string * JSON.value))
}.
End NextJSMetadataOptions.

(** [{ ...object, ...overrides }] on objects of values: each property of
    [overrides], in order, is set on the object. *)
Definition spread_props (object overrides : list (string * JSON.value))
  : list (string * JSON.value) :=
  fold_left (fun acc kv => JSON.set_prop (fst kv) (snd kv) acc) overrides object.

Definition generateMetadata (options : NextJSMetadataOptions.t) : JSON.value :=
  let siteSettings := NextJSMetadataOptions.siteSettings options in
  let page := NextJSMetadataOptions.page options in
  let baseUrl := NextJSMetadataOptions.baseUrl options in
  let breadcrumbs := NextJSMetadataOptions.breadcrumbs options in
  let type :=
    match NextJSMetadataOptions.type options with Some k => k | None => kind_home end in
  let overrides :=
    match NextJSMetadataOptions.overrides options with Some o => o | None => [] end in
  let data := page_or_siteSettings page siteSettings in
  let seo := generateSEO data siteSettings (Some type) baseUrl breadcrumbs in
  JSON.VObj (spread_props
    [ ("title", JSON.VStr (SEOData.title seo));
      ("description", JSON.VStr (SEOData.description seo));
      ("keywords", StructuredData.VStr_opt (SEOData.keywords seo));
      ("openGraph", JSON.VObj [
        ("title", JSON.VStr (SEOData.title seo));
        ("description", JSON.VStr (SEOData.description seo));
        ("type", StructuredData.VStr_opt (SEOData.type seo));
        ("url", StructuredData.VStr_opt (SEOData.url seo));
        ("images",
          match SEOData.image seo with
          | Some (String a t) =>
              JSON.VArr [ JSON.VObj [ ("url", JSON.VStr (String a t)) ] ]
          | _ => JSON.VUndefined
          end) ]);
      ("twitter", JSON.VObj [
        ("card", JSON.VStr "summary_large_image");
        ("title", JSON.VStr (SEOData.title seo));
        ("description", JSON.VStr (SEOData.description seo));
        ("images",
          match SEOData.image seo with
          | Some (String a t) => JSON.VArr [ JSON.VStr (String a t) ]
          | _ => JSON.VUndefined
          end) ]);
      ("alternates", JSON.VObj [
        ("canonical", StructuredData.VStr_opt (SEOData.url seo)) ]) ]
    overrides).

Definition generateStructuredDataScript (options : NextJSMetadataOptions.t) : string :=
  let siteSettings := NextJSMetadataOptions.siteSettings options in
  let page := NextJSMetadataOptions.page options in
  let baseUrl := NextJSMetadataOptions.baseUrl options in
  let breadcrumbs := NextJSMetadataOptions.breadcrumbs options in
  let type :=
    match NextJSMetadataOptions.type options with Some k => k | None => kind_home end in
  let data := page_or_siteSettings page siteSettings in
  let seo := generateSEO data siteSettings (Some type) baseUrl breadcrumbs in
  or_default (SEOData.structuredData seo) "".

(** [o.a.b]: a chain of property reads. *)
Fixpoint get_in (path : list string) (v : JSON.value) : option JSON.value :=
  match path with
  | [] => Some v
  | k :: rest =>
      match JSON.get k v with
      | Some w => get_in rest w
      | None => None
      end
  end.

End Adapters.

(** ** The Payload CMS hooks and the admin score

    [src/payload/hooks.ts], [src/payload/admin.ts].  The hooks take
    [data: any]; the document is read here at the type of the collection
    they are written for, a [Page] with its [seo] group.  A property the
    hooks test for truthiness only is absent or empty alike. *)

Module Payload.
Import JS.
Local Open Scope nat_scope.

(** [s.toLowerCase()], character by character on the code units below
    256: the letters [A-Z] and the upper-case letters of Latin-1. *)
Definition toLowerCase_char (c : ascii) : ascii :=
  let n := nat_of_ascii c in
  if (65 <=? n) && (n <=? 90) then ascii_of_nat (n + 32)
  else if (192 <=? n) && (n <=? 222) && negb (n =? 215) then ascii_of_nat (n + 32)
  else c.

Fixpoint toLowerCase (s : string) : string :=
  match s with
  | EmptyString => EmptyString
  | String c rest => String (toLowerCase_char c) (toLowerCase rest)
  end.

(** The class [\s] of a regular expression, below 256: TAB, LF, VT, FF,
    CR, space and the no-break space. *)
Definition is_space (c : ascii) : bool :=
  let n := nat_of_ascii c in
  ((9 <=? n) && (n <=? 13)) || (n =? 32) || (n =? 160).

(** The class [a-z0-9]. *)
Definition is_lower_or_digit (c : ascii) : bool :=
  let n := nat_of_ascii c in
  ((97 <=? n) && (n <=? 122)) || ((48 <=? n) && (n <=? 57)).

(** [s.replace(/[^a-z0-9\s]/g, '')]. *)
Fixpoint remove_other_chars (s : string) : string :=
  match s with
  | EmptyString => EmptyString
  | String c rest =>
      if is_lower_or_digit c || is_space c
      then String c (remove_other_chars rest)
      else remove_other_chars rest
  end.

(** [s.split(/\s+/)]: the pieces between the maximal runs of white
    space; a run at the start or at the end leaves an empty piece there,
    and the empty string gives one empty piece.  [in_run] tells that the
    character before was white space. *)
Fixpoint split_from (in_run : bool) (s : string) : list string :=
  match s with
  | EmptyString => [EmptyString]
  | String c rest =>
      if is_space c then
        if in_run then split_from true rest
        else EmptyString :: split_from true rest
      else
        match split_from false rest with
        | w :: ws => String c w :: ws
        | [] => [String c EmptyString]
        end
  end.

Definition split_white_space (s : string) : list string := split_from false s.

(** Every character of [s] passes [p]. *)
Fixpoint string_forallb (p : ascii -> bool) (s : string) : bool :=
  match s with
  | EmptyString => true
  | String c rest => p c && string_forallb p rest
  end.

(** The [keywords] the hook derives from a title. *)
Definition keywords_of_title (title : string) : string :=
  join ", "
    (firstn 5
       (filter (fun word => 3 <? String.length word)
          (split_white_space (remove_other_chars (toLowerCase title))))).

(** [{ ...data.seo, title }] and the like: the group with one property
    set, the others as they were, or absent when there was no group. *)
Definition seo_or_empty (seo : option SEOFields.t) : SEOFields.t :=
  match seo with
  | Some s => s
  | None => SEOFields.mk None None None None None None
  end.

Definition with_title (seo : option SEOFields.t) (title : string) : SEOFields.t :=
  let s := seo_or_empty seo in
  {| SEOFields.title := Some title;
     SEOFields.description := SEOFields.description s;
     SEOFields.keywords := SEOFields.keywords s;
     SEOFields.image := SEOFields.image s;
     SEOFields.noIndex := SEOFields.noIndex s;
     SEOFields.noFollow := SEOFields.noFollow s |}.

Definition with_description (seo : option SEOFields.t) (description : string)
  : SEOFields.t :=
  let s := seo_or_empty seo in
  {| SEOFields.title := SEOFields.title s;
     SEOFields.description := Some description;
     SEOFields.keywords := SEOFields.keywords s;
     SEOFields.image := SEOFields.image s;
     SEOFields.noIndex := SEOFields.noIndex s;
     SEOFields.noFollow := SEOFields.noFollow s |}.

Definition with_keywords (seo : option SEOFields.t) (keywords : string) : SEOFields.t :=
  let s := seo_or_empty seo in
  {| SEOFields.title := SEOFields.title s;
     SEOFields.description := SEOFields.description s;
     SEOFields.keywords := Some keywords;
     SEOFields.image := SEOFields.image s;
     SEOFields.noIndex := SEOFields.noIndex s;
     SEOFields.noFollow := SEOFields.noFollow s |}.

(** [data.seo = seo] on the document. *)
Definition set_seo (data : Page.t) (seo : SEOFields.t) : Page.t :=
  {| Page.id := Page.id data;
     Page.title := Page.title data;
     Page.slug := Page.slug data;
     Page.status := Page.status data;
     Page.excerpt := Page.excerpt data;
     Page.featuredImage := Page.featuredImage data;
     Page.seo := Some seo;
     Page.publishedDate := Page.publishedDate data;
     Page.createdAt := Page.createdAt data;
     Page.updatedAt := Page.updatedAt data |}.

(** [seoHooks.beforeChange[0]], one definition per [if] statement of
    its body; each takes the document and returns it as the statement
    leaves it.  [site_title] is
    [req.payload?.config?.globals?.site?.title]. *)

(* Auto-generate SEO title if not provided *)
Definition auto_title (site_title : option string) (data : Page.t) : Page.t :=
  if truthy (Some (Page.title data))
     && negb (truthy (opt_chain (Page.seo data) SEOFields.title))
  then set_seo data
         (with_title (Page.seo data)
            (Page.title data ++ " | " ++ or_default site_title "Site"))
  else data.

(* Auto-generate SEO description from excerpt if not provided *)
Definition auto_description (data : Page.t) : Page.t :=
  match Page.excerpt data with
  | Some (String a t) =>
      if negb (truthy (opt_chain (Page.seo data) SEOFields.description))
      then set_seo data
             (with_description (Page.seo data) (substring 0 160 (String a t)))
      else data
  | _ => data
  end.

(* Validate SEO data *)
Definition truncate_description (data : Page.t) : Page.t :=
  match opt_chain (Page.seo data) SEOFields.description with
  | Some (String a t) =>
      if 160 <? String.length (String a t)
      then set_seo data
             (with_description (Page.seo data) (substring 0 160 (String a t)))
      else data
  | _ => data
  end.

(* Auto-generate keywords from title if not provided *)
Definition auto_keywords (data : Page.t) : Page.t :=
  if truthy (Some (Page.title data))
     && negb (truthy (opt_chain (Page.seo data) SEOFields.keywords))
  then
    let keywords := keywords_of_title (Page.title data) in
    if truthy (Some keywords)
    then set_seo data (with_keywords (Page.seo data) keywords)
    else data
  else data.

Definition beforeChange (site_title : option string) (data : Page.t) : Page.t :=
  auto_keywords (truncate_description (auto_description (auto_title site_title data))).

(** Two documents that differ at most in the three texts of the [seo]
    group. *)
Definition same_outside_seo_texts (d d' : Page.t) : Prop :=
  Page.id d' = Page.id d /\ Page.title d' = Page.title d
  /\ Page.slug d' = Page.slug d /\ Page.status d' = Page.status d
  /\ Page.excerpt d' = Page.excerpt d
  /\ Page.featuredImage d' = Page.featuredImage d
  /\ Page.publishedDate d' = Page.publishedDate d
  /\ Page.createdAt d' = Page.createdAt d /\ Page.updatedAt d' = Page.updatedAt d
  /\ opt_chain (Page.seo d') SEOFields.image = opt_chain (Page.seo d) SEOFields.image
  /\ opt_chain (Page.seo d') SEOFields.noIndex = opt_chain (Page.seo d) SEOFields.noIndex
  /\ opt_chain (Page.seo d') SEOFields.noFollow
     = opt_chain (Page.seo d) SEOFields.noFollow.

(** [req.payload], as far as the hooks read it: the title and the
    description of [config.globals.site], each absent when a link of the
    chain [req.payload?.config?.globals?.site] is. *)
Module PayloadRequest.
Record t : Type := mk {
  site_title : option string;
  site_description : option string
}.
End PayloadRequest.

(** The body of the [try] block of [seoHooks.afterRead[0]]: the value of
    [seoData].  [SITE_URL] is the variable of the environment. *)
Definition computedSEO (payload : PayloadRequest.t) (SITE_URL : option string)
    (doc : Page.t) : SEOData.t :=
  let siteSettings :=
    {| SiteSettings.siteName :=
         Some (or_default (PayloadRequest.site_title payload) "Site");
       SiteSettings.siteDescription :=
         Some (or_default (PayloadRequest.site_description payload) "A website");
       SiteSettings.logo := None;
       SiteSettings.socialMedia := None;
       SiteSettings.contactInfo := None |} in
  let seoData :=
    Seo.generateSEO (Data.OfPage doc) siteSettings (Some kind_page)
      (Some (or_default SITE_URL "https://example.com")) None in
  seoData.

(** [seoHooks.afterRead[0]]: what the hook stores in [doc.computedSEO],
    and [None] when it stores nothing.  [doc] and [payload] are [doc]
    and [req.payload], absent when they are [null] or [undefined]: the
    hook does nothing unless both are there.  [generateSEO] throws
    nothing on a [Page], so the [catch] branch, which writes a warning
    and stores nothing, is not taken. *)
Definition afterRead (payload : option PayloadRequest.t) (SITE_URL : option string)
    (doc : option Page.t) : option SEOData.t :=
  match doc, payload with
  | Some doc, Some payload => Some (computedSEO payload SITE_URL doc)
  | _, _ => None
  end.

(** The [seo] group of the site settings global, and the global. *)
Module SiteSeoFields.
Record t : Type := mk {
  defaultTitle : option string;
  defaultDescription : option string;
  defaultImage : option Media.t;
  twitterHandle : option string;
  facebookAppId : option string
}.
End SiteSeoFields.

Module SiteDoc.
Record t : Type := mk {
  title : option string;
  seo : option SiteSeoFields.t
}.
End SiteDoc.

(** [siteSeoHooks.beforeChange[0]]. *)
Definition site_beforeChange (data : SiteDoc.t) : SiteDoc.t :=
  (* Validate default SEO data *)
  let data :=
    match SiteDoc.seo data with
    | Some seo =>
        match SiteSeoFields.defaultDescription seo with
        | Some (String a t) =>
            if 160 <? String.length (String a t)
            then {| SiteDoc.title := SiteDoc.title data;
                    SiteDoc.seo := Some
                      {| SiteSeoFields.defaultTitle := SiteSeoFields.defaultTitle seo;
                         SiteSeoFields.defaultDescription :=
                           Some (substring 0 160 (String a t));
                         SiteSeoFields.defaultImage := SiteSeoFields.defaultImage seo;
                         SiteSeoFields.twitterHandle := SiteSeoFields.twitterHandle seo;
                         SiteSeoFields.facebookAppId := SiteSeoFields.facebookAppId seo |} |}
            else data
        | _ => data
        end
    | None => data
    end in
  (* Auto-generate default title if not provided *)
  let data :=
    match SiteDoc.title data with
    | Some (String a t) =>
        if negb (truthy (opt_chain (SiteDoc.seo data) SiteSeoFields.defaultTitle))
        then
          let seo :=
            match SiteDoc.seo data with
            | Some s => s
            | None => SiteSeoFields.mk None None None None None
            end in
          {| SiteDoc.title := SiteDoc.title data;
             SiteDoc.seo := Some
               {| SiteSeoFields.defaultTitle := Some (String a t);
                  SiteSeoFields.defaultDescription := SiteSeoFields.defaultDescription seo;
                  SiteSeoFields.defaultImage := SiteSeoFields.defaultImage seo;
                  SiteSeoFields.twitterHandle := SiteSeoFields.twitterHandle seo;
                  SiteSeoFields.facebookAppId := SiteSeoFields.facebookAppId seo |} |}
        else data
    | _ => data
    end in
  data.

(** *** [SEOScoreComponent] of [src/payload/admin.ts] *)

Module Score.
Record t : Type := mk {
  score : Z;
  issues : list string;
  suggestions : list string
}.
End Score.

(** [calculateScore(seoData)]; [seoData] may be [undefined]. *)
Definition calculateScore (seoData : option SEOFields.t) : Score.t :=
  let score := 0%Z in
  let issues : list string := [] in
  let suggestions : list string := [] in
  (* Check title *)
  let '(score, issues) :=
    match opt_chain seoData SEOFields.title with
    | Some (String a t) =>
        let n := String.length (String a t) in
        if (30 <=? n) && (n <=? 60) then ((score + 25)%Z, issues)
        else (score, push issues ["Title length should be 30-60 characters"])
    | _ => (score, push issues ["Missing SEO title"])
    end in
  (* Check description *)
  let '(score, issues) :=
    match opt_chain seoData SEOFields.description with
    | Some (String a t) =>
        let n := String.length (String a t) in
        if (120 <=? n) && (n <=? 160) then ((score + 25)%Z, issues)
        else (score, push issues ["Description length should be 120-160 characters"])
    | _ => (score, push issues ["Missing meta description"])
    end in
  (* Check keywords *)
  let '(score, suggestions) :=
    if truthy (opt_chain seoData SEOFields.keywords)
    then ((score + 15)%Z, suggestions)
    else (score, push suggestions ["Consider adding relevant keywords"]) in
  (* Check image *)
  let '(score, suggestions) :=
    match opt_chain seoData SEOFields.image with
    | Some _ => ((score + 20)%Z, suggestions)
    | None => (score, push suggestions ["Consider adding a social sharing image"])
    end in
  (* Check noIndex *)
  let score :=
    if negb (truthy_bool (opt_chain seoData SEOFields.noIndex))
    then (score + 15)%Z else score in
  {| Score.score := score; Score.issues := issues; Score.suggestions := suggestions |}.

Definition getScoreColor (score : Z) : string :=
  if (80 <=? score)%Z then "#28a745"
  else if (60 <=? score)%Z then "#ffc107"
  else "#dc3545".

(** The label shown beside the score. *)
Definition score_label (score : Z) : string :=
  if (80 <=? score)%Z then "Excellent!"
  else if (60 <=? score)%Z then "Good"
  else "Needs Improvement".

End Payload.

(** ** The command line tool: [auditSEOData], [validateStructuredData] *)

Module Cli.
Import JS JSON.
Local Open Scope nat_scope.

(** [Boolean(v)] for a value read from a parsed JSON text. *)
Definition to_boolean (v : value) : bool :=
  match v with
  | VUndefined => false
  | VNull => false
  | VBool b => b
  | VNum n => negb (n =? 0)%Z
  | VStr EmptyString => false
  | VStr (String _ _) => true
  | VArr _ => true
  | VObj _ => true
  end.

(** [o[k]] as a value: [undefined] when [o] has no such property. *)
Definition read (k : string) (o : value) : value :=
  match get k o with
  | Some v => v
  | None => VUndefined
  end.

(** How the promise of an [async] function settles. *)
Inductive settled (A : Type) : Type :=
| Resolved (a : A)
| Rejected_TypeError.
Arguments Resolved {A} a.
Arguments Rejected_TypeError {A}.

(** A number as a comparison with an integer sees it: [NaN], an
    infinity, or the exact value of a finite double, a fraction. *)
Inductive num : Type :=
| NaN
| NegInfinity
| PosInfinity
| Finite (numerator : Z) (denominator : positive).

(** [x < c] and [x > c] for an integer [c]; both are false of [NaN]. *)
Definition num_ltb (x : num) (c : Z) : bool :=
  match x with
  | NaN => false
  | NegInfinity => true
  | PosInfinity => false
  | Finite n d => (n <? c * Z.pos d)%Z
  end.

Definition num_gtb (x : num) (c : Z) : bool :=
  match x with
  | NaN => false
  | NegInfinity => false
  | PosInfinity => true
  | Finite n d => (c * Z.pos d <? n)%Z
  end.

Module Audit.
Record t : Type := mk {
  score : Z;
  issues : list string;
  suggestions : list string;
  timestamp : string
}.
End Audit.

(** A throw inside an [async] function rejects its promise: the steps
    of the body in sequence. *)
Definition and_then {A B : Type} (c : settled A) (k : A -> settled B) : settled B :=
  match c with
  | Resolved a => k a
  | Rejected_TypeError => Rejected_TypeError
  end.

Section Conversions.

(** [ToNumber] of ECMAScript on a string, an array or an object, as the
    operators [<] and [>] apply it to an operand compared with a number:
    the number a string reads as; for an array or an object the number
    its primitive value reads as, or a TypeError when it has none. *)
Variable ToNumber : value -> settled num.

Definition to_number (v : value) : settled num :=
  match v with
  | VUndefined => Resolved NaN
  | VNull => Resolved (Finite 0 1)
  | VBool b => Resolved (Finite (if b then 1 else 0) 1)
  | VNum n => Resolved (Finite n 1)
  | VStr _ | VArr _ | VObj _ => ToNumber v
  end.

(** [v.length]: the length of a string or of an array, the property of
    an object, [undefined] on a number or a boolean, a TypeError on
    [null] and [undefined]. *)
Definition length_of (v : value) : settled value :=
  match v with
  | VUndefined | VNull => Rejected_TypeError
  | VStr s => Resolved (VNum (Z.of_nat (String.length s)))
  | VArr items => Resolved (VNum (Z.of_nat (length items)))
  | VObj _ => Resolved (read "length" v)
  | VBool _ | VNum _ => Resolved VUndefined
  end.

(** [!v || v.length < c]. *)
Definition too_short (c : Z) (v : value) : settled bool :=
  if negb (to_boolean v) then Resolved true
  else and_then (length_of v) (fun len =>
       and_then (to_number len) (fun x => Resolved (num_ltb x c))).

(** [v && v.length > c], as the [if] reads it. *)
Definition too_long (c : Z) (v : value) : settled bool :=
  if to_boolean v
  then and_then (length_of v) (fun len =>
       and_then (to_number len) (fun x => Resolved (num_gtb x c)))
  else Resolved false.

(** [auditSEOData]: how its promise settles.  [seoData] is what
    [JSON.parse] gave; [timestamp] is the text of
    [new Date().toISOString()]. *)
Definition auditSEOData (timestamp : string) (seoData : value) : settled Audit.t :=
  match seoData with
  | VNull | VUndefined => Rejected_TypeError
  | _ =>
      let issues : list string := [] in
      let suggestions : list string := [] in
      (* Check title *)
      let title := read "title" seoData in
      and_then (too_short 30 title) (fun short =>
      let issues :=
        if short
        then push issues ["Title is too short (minimum 30 characters recommended)"]
        else issues in
      and_then (too_long 60 title) (fun long =>
      let issues :=
        if long
        then push issues ["Title is too long (maximum 60 characters recommended)"]
        else issues in
      (* Check description *)
      let description := read "description" seoData in
      and_then (too_short 120 description) (fun short =>
      let issues :=
        if short
        then push issues
               ["Description is too short (minimum 120 characters recommended)"]
        else issues in
      and_then (too_long 160 description) (fun long =>
      let issues :=
        if long
        then push issues
               ["Description is too long (maximum 160 characters recommended)"]
        else issues in
      (* Check keywords *)
      let suggestions :=
        if negb (to_boolean (read "keywords" seoData))
        then push suggestions ["Consider adding relevant keywords"]
        else suggestions in
      (* Check image *)
      let suggestions :=
        if negb (to_boolean (read "image" seoData))
        then push suggestions ["Consider adding an Open Graph image"]
        else suggestions in
      Resolved
        {| Audit.score :=
             Z.max 0 (100 - Z.of_nat (length issues) * 20
                          - Z.of_nat (length suggestions) * 5);
           Audit.issues := issues;
           Audit.suggestions := suggestions;
           Audit.timestamp := timestamp |}))))
  end.

End Conversions.

(** A title or a description that raises no issue, when it is not an
    object: a string or an array of a length in the range, a number
    other than 0, or [true]. *)
Definition passes (lo hi : Z) (v : value) : bool :=
  match v with
  | VStr s => (lo <=? Z.of_nat (String.length s))%Z && (Z.of_nat (String.length s) <=? hi)%Z
  | VArr items => (lo <=? Z.of_nat (length items))%Z && (Z.of_nat (length items) <=? hi)%Z
  | VNum n => negb (n =? 0)%Z
  | VBool b => b
  | _ => false
  end.

Definition is_object (v : value) : bool :=
  match v with VObj _ => true | _ => false end.

Module Validation.
Record t : Type := mk {
  valid : bool;
  errors : list string;
  warnings : list string;
  timestamp : string
}.
End Validation.

(** [validateStructuredData]: the argument is what [JSON.parse] gave.
    A property read on [null] throws a [TypeError]; on a string, a
    number, a boolean or an array the properties read here are
    [undefined]. *)
Definition validateStructuredData (timestamp : string) (structuredData : value)
  : settled Validation.t :=
  match structuredData with
  | VNull | VUndefined => Rejected_TypeError
  | _ =>
      let errors : list string := [] in
      let warnings : list string := [] in
      (* Basic JSON-LD validation *)
      let errors :=
        if negb (to_boolean (read "@context" structuredData))
        then push errors ["Missing @context property"] else errors in
      let errors :=
        if negb (to_boolean (read "@type" structuredData))
        then push errors ["Missing @type property"] else errors in
      (* Check for required properties based on type *)
      let type := read "@type" structuredData in
      let '(errors, warnings) :=
        match type with
        | VStr "Article" =>
            let errors :=
              if negb (to_boolean (read "headline" structuredData))
              then push errors ["Article missing headline"] else errors in
            let warnings :=
              if negb (to_boolean (read "author" structuredData))
              then push warnings ["Article missing author information"]
              else warnings in
            (errors, warnings)
        | _ => (errors, warnings)
        end in
      Resolved
        {| Validation.valid := Nat.eqb (length errors) 0;
           Validation.errors := errors;
           Validation.warnings := warnings;
           Validation.timestamp := timestamp |}
  end.

End Cli.

(** ** Further inputs for the examples *)

Module Examples2.

(** An eligible page that carries no date. *)
Definition page_undated : Page.t :=
  {| Page.id := "6";
     Page.title := "Contact";
     Page.slug := "contact";
     Page.status := published;
     Page.excerpt := None;
     Page.featuredImage := None;
     Page.seo := None;
     Page.publishedDate := None;
     Page.createdAt := "2024-01-15T10:30:00.000Z";
     Page.updatedAt := "" |}.

(** A site settings global whose default description has 200
    characters. *)
Definition text_200 : string :=
  String.concat "" (repeat "0123456789" 20).

Definition site_doc_long : Payload.SiteDoc.t :=
  {| Payload.SiteDoc.title := Some "Acme";
     Payload.SiteDoc.seo := Some
       {| Payload.SiteSeoFields.defaultTitle := None;
          Payload.SiteSeoFields.defaultDescription := Some text_200;
          Payload.SiteSeoFields.defaultImage := None;
          Payload.SiteSeoFields.twitterHandle := None;
          Payload.SiteSeoFields.facebookAppId := None |} |}.

End Examples2.

(** ** Statements in the words of the specification *)

Module AsStated.
Import JS Escaping Seo.

(** The title of a page, as the claim C2 words it: the override when it
    is set and non-empty, and the page title, a bar and [site.siteName]
    (as a template literal renders it) when the override is unset. *)
Definition C2_title_as_stated (page : Page.t) (site : SiteSettings.t) : string :=
  match opt_chain (Page.seo page) SEOFields.title with
  | Some (String a t) => String a t
  | _ => Page.title page ++ " | " ++ interpolate (SiteSettings.siteName site)
  end.

(** The tag sequence as the specification lists it. *)
Definition C3_tag_sequence (seo : SEOData.t) : list string :=
  ([ ("<title>" ++ escapeHtml (SEOData.title seo) ++ "</title>")%string;
     meta_name "description" (escapeHtml (SEOData.description seo)) ]
   ++ (if truthy (SEOData.keywords seo)
       then [ meta_name "keywords" (escapeHtml (interpolate (SEOData.keywords seo))) ]
       else [])
   ++ [ meta_property "og:title" (escapeHtml (SEOData.title seo));
        meta_property "og:description" (escapeHtml (SEOData.description seo));
        meta_property "og:type"
          (if truthy (SEOData.type seo) then interpolate (SEOData.type seo)
           else "website") ]
   ++ (if truthy (SEOData.url seo)
       then [ meta_property "og:url" (escapeHtml (interpolate (SEOData.url seo))) ]
       else [])
   ++ (if truthy (SEOData.image seo)
       then [ meta_property "og:image" (escapeHtml (interpolate (SEOData.image seo)));
              meta_name "twitter:card" "summary_large_image";
              meta_name "twitter:image" (escapeHtml (interpolate (SEOData.image seo))) ]
       else [])
   ++ [ meta_name "twitter:title" (escapeHtml (SEOData.title seo));
        meta_name "twitter:description" (escapeHtml (SEOData.description seo)) ])%list.

End AsStated.

(** * Properties *)

(** ** Strings *)

Lemma string_app_assoc (a b c : string) : (a ++ b) ++ c = a ++ (b ++ c).
Proof.
  induction a as [|x a IH]; simpl; [reflexivity | now rewrite IH].
Qed.

Lemma string_app_nil_r (a : string) : a ++ "" = a.
Proof.
  induction a as [|x a IH]; simpl; [reflexivity | now rewrite IH].
Qed.

Lemma string_length_app (a b : string) :
  String.length (a ++ b) = String.length a + String.length b.
Proof.
  induction a as [|x a IH]; simpl; [reflexivity | now rewrite IH].
Qed.

(** ** The reference [Date] on examples *)

Example IsoDate_parse_example :
  IsoDate.parse "2024-01-15T10:30:00.000Z" = Some 1705314600000%Z.
Proof. vm_compute. reflexivity. Qed.
Example IsoDate_format_example :
  IsoDate.format 1705314600000 = "2024-01-15T10:30:00.000Z".
Proof. vm_compute. reflexivity. Qed.
Example IsoDate_parse_bad : IsoDate.parse "not-a-date" = None.
Proof. vm_compute. reflexivity. Qed.
Example IsoDate_parse_shorter_forms :
  IsoDate.parse "2024" = Some 1704067200000%Z
  /\ IsoDate.parse "2024-01-15" = Some 1705276800000%Z
  /\ IsoDate.parse "2024-01-15T10:30" = Some 1705314600000%Z
  /\ IsoDate.parse "2024-01-15T10:30:00Z" = Some 1705314600000%Z
  /\ IsoDate.parse "2024-01-15T11:30:00+01:00" = Some 1705314600000%Z.
Proof. vm_compute. repeat split. Qed.
Example IsoDate_parse_day_runs_over :
  option_map IsoDate.format (IsoDate.parse "2024-02-30")
  = Some "2024-03-01T00:00:00.000Z".
Proof. vm_compute. reflexivity. Qed.
Example IsoDate_parse_local_time :
  IsoDate.parse_in 60 "2024-01-15T11:30:00.000" = Some 1705314600000%Z
  /\ IsoDate.parse_in 60 "2024-01-15T10:30:00.000Z" = Some 1705314600000%Z.
Proof. vm_compute. split; reflexivity. Qed.

(** ** Escaping *)

Section EscapingFacts.
Import JS Escaping.

Lemma flat_map_string_app (f : ascii -> string) (s t : string) :
  flat_map_string f (s ++ t) = flat_map_string f s ++ flat_map_string f t.
Proof.
  induction s as [|a s IH]; simpl; [reflexivity|].
  rewrite IH. 
  generalize (f a) as x. intro x.
  induction x as [|b x IHx]; simpl; [reflexivity| now rewrite IHx].
Qed.

Lemma flat_map_string_ext (f g : ascii -> string) (s : string) :
  (forall a, f a = g a) -> flat_map_string f s = flat_map_string g s.
Proof.
  intros E. induction s as [|a s IH]; simpl; [reflexivity|].
  now rewrite E, IH.
Qed.

Lemma flat_map_string_compose (f g : ascii -> string) (s : string) :
  flat_map_string g (flat_map_string f s)
  = flat_map_string (fun a => flat_map_string g (f a)) s.
Proof.
  induction s as [|a s IH]; simpl; [reflexivity|].
  now rewrite flat_map_string_app, IH.
Qed.

(** One global replacement is a character-wise substitution. *)
Lemma replaceAll_flat_map (c : ascii) (by_ : string) (s : string) :
  replaceAll c by_ s
  = flat_map_string (fun a => if Ascii.eqb a c then by_ else String a "") s.
Proof.
  induction s as [|a s IH]; simpl; [reflexivity|].
  rewrite IH. destruct (Ascii.eqb a c); reflexivity.
Qed.

Lemma escapeHtml_flat_map (s : string) :
  escapeHtml s = flat_map_string html_entity s.
Proof.
  unfold escapeHtml.
  rewrite !replaceAll_flat_map, !flat_map_string_compose.
  apply flat_map_string_ext.
  (* no entity contains a character that a later pass replaces *)
  intros a. destruct a as [[] [] [] [] [] [] [] []]; vm_compute; reflexivity.
Qed.

Lemma html_entity_plain (a : ascii) :
  is_special a = false -> html_entity a = String a "".
Proof.
  unfold is_special, html_entity. intros H.
  repeat (apply orb_false_elim in H; destruct H as [H ?]).
  repeat match goal with E : Ascii.eqb _ _ = false |- _ => rewrite E; clear E end.
  reflexivity.
Qed.

Lemma flat_map_entity_free (s : string) :
  free_of_specials s = true -> flat_map_string html_entity s = s.
Proof.
  induction s as [|a s IH]; simpl; [reflexivity|].
  intros H. apply andb_prop in H. destruct H as [Ha Hs].
  apply negb_true_iff in Ha.
  rewrite (html_entity_plain a Ha), (IH Hs). reflexivity.
Qed.

(** C6.  [escapeHtml] replaces each character by its entity, where the
    characters that have one are exactly five: ampersand, less-than,
    greater-than, double quote and apostrophe (with the entities
    [&amp; &lt; &gt; &quot; &#39;]); a string with none of the five
    comes back unchanged; and [A & B] becomes [A &amp; B]. *)
Theorem C6_escapeHtml_five_entities (s : string) :
  escapeHtml s = flat_map_string html_entity s
  /\ (forall c : ascii,
        html_entity c <> String c "" <-> In c ["&"; "<"; ">"; DQUOTE; "'"]%char)
  /\ html_entity "&" = "&amp;" /\ html_entity "<" = "&lt;"
  /\ html_entity ">" = "&gt;" /\ html_entity DQUOTE = "&quot;"
  /\ html_entity "'" = "&#39;"
  /\ (free_of_specials s = true -> escapeHtml s = s)
  /\ escapeHtml "A & B" = "A &amp; B".
Proof.
  split; [apply escapeHtml_flat_map|].
  split.
  { intros c. destruct c as [[] [] [] [] [] [] [] []]; vm_compute;
      (split; [intros H; try (exfalso; apply H; reflexivity); tauto
              | intros H; try discriminate;
                repeat (destruct H as [H|H]; [discriminate H|]); destruct H]). }
  repeat (split; [reflexivity|]).
  split; [|reflexivity].
  intros H. rewrite escapeHtml_flat_map. apply flat_map_entity_free, H.
Qed.

Lemma C6_escapeHtml_witness :
  free_of_specials "Hello, world" = true /\ escapeHtml "Hello, world" = "Hello, world".
Proof.
  split; [reflexivity|].
  apply (proj1 (proj2 (proj2 (proj2 (proj2 (proj2 (proj2 (proj2
           (C6_escapeHtml_five_entities "Hello, world"))))))))).
  reflexivity.
Defined.

End EscapingFacts.

(** ** The SEO-data deriver *)

Section SeoFacts.
Import JS Escaping Seo Examples AsStated.

Lemma or_default_nonempty (x : option string) (d : string) :
  d <> "" -> or_default x d <> "".
Proof.
  intros Hd. destruct x as [[|a t]|]; simpl; try exact Hd. discriminate.
Qed.

(** The title and the description of [generateSEO], before the record
    is built. *)
Lemma generateSEO_title data site type baseUrl breadcrumbs :
  SEOData.title (generateSEO data site type baseUrl breadcrumbs)
  = or_default
      (Some (if Kind_eqb (match type with Some k => k | None => kind_home end) kind_page
                && Data.has_title data
             then or_default (opt_chain (Data.seo data) SEOFields.title)
                    (interpolate (Data.title data) ++ " | "
                     ++ or_default (SiteSettings.siteName site) "Website")
             else or_default (SiteSettings.siteName site) "Website"))
      "Website".
Proof.
  unfold generateSEO.
  destruct (Kind_eqb _ kind_page && Data.has_title data); reflexivity.
Qed.

Lemma generateSEO_description data site type baseUrl breadcrumbs :
  SEOData.description (generateSEO data site type baseUrl breadcrumbs)
  = or_default
      (Some (if Kind_eqb (match type with Some k => k | None => kind_home end) kind_page
                && Data.has_title data
             then or_default
                    (or_else (opt_chain (Data.seo data) SEOFields.description)
                             (Data.excerpt data))
                    (or_default (SiteSettings.siteDescription site) "A modern website")
             else or_default (SiteSettings.siteDescription site) "A modern website"))
      "A modern website".
Proof.
  unfold generateSEO.
  destruct (Kind_eqb _ kind_page && Data.has_title data); reflexivity.
Qed.

(** C1.  Whatever the inputs, the title and the description of the
    result of [generateSEO] are non-empty strings; with every optional
    input absent they are the literals [Website] and [A modern website]
    (for a page of type [page], the title is the page title, a bar and
    [Website]). *)
Theorem C1_generateSEO_title_description_nonempty
    (data : Data.t) (siteSettings : SiteSettings.t) (type : option Kind)
    (baseUrl : option string) (breadcrumbs : option (list Breadcrumb.t)) :
  SEOData.title (generateSEO data siteSettings type baseUrl breadcrumbs) <> ""
  /\ SEOData.description (generateSEO data siteSettings type baseUrl breadcrumbs) <> ""
  /\ SEOData.title (generateSEO (Data.OfSiteSettings site_empty) site_empty None None None)
     = "Website"
  /\ SEOData.description
       (generateSEO (Data.OfSiteSettings site_empty) site_empty None None None)
     = "A modern website"
  /\ (forall id title slug status createdAt updatedAt,
        let page := Page.mk id title slug status None None None None createdAt updatedAt in
        SEOData.title (generateSEO (Data.OfPage page) site_empty (Some kind_page) None None)
        = title ++ " | Website"
        /\ SEOData.description
             (generateSEO (Data.OfPage page) site_empty (Some kind_page) None None)
           = "A modern website"
        /\ SEOData.title (generateSEO (Data.OfPage page) site_empty None None None)
           = "Website").
Proof.
  split; [|split].
  - rewrite generateSEO_title. apply or_default_nonempty. discriminate.
  - rewrite generateSEO_description. apply or_default_nonempty. discriminate.
  - repeat split; try reflexivity.
    rewrite generateSEO_title. simpl.
    destruct title; reflexivity.
Qed.

(** C2 as stated fails: with [site.siteName] absent, or set to the empty
    string, the code puts the literal [Website] after the bar. *)
Lemma C2_counterexample_siteName_absent :
  opt_chain (Page.seo page_about) SEOFields.title = None
  /\ SEOData.title
       (generateSEO (Data.OfPage page_about) site_empty (Some kind_page)
                    (Some "https://acme.test") None)
     = "About | Website"
  /\ SEOData.title
       (generateSEO (Data.OfPage page_about) site_empty (Some kind_page)
                    (Some "https://acme.test") None)
     <> C2_title_as_stated page_about site_empty
  /\ SEOData.title
       (generateSEO (Data.OfPage page_about) site_blank_name (Some kind_page)
                    (Some "https://acme.test") None)
     = "About | Website"
  /\ SEOData.title
       (generateSEO (Data.OfPage page_about) site_blank_name (Some kind_page)
                    (Some "https://acme.test") None)
     <> C2_title_as_stated page_about site_blank_name.
Proof.
  repeat split; try reflexivity; vm_compute; discriminate.
Qed.

(** C2, amended.  For type [page]: the title is [page.seo.title]
    verbatim when that field is set and non-empty; when it is unset (or
    empty) the title is the page title, a bar, and [site.siteName] if
    that is set and non-empty, the literal [Website] otherwise. *)
Theorem C2_generateSEO_page_title
    (page : Page.t) (site : SiteSettings.t) (baseUrl : option string)
    (breadcrumbs : option (list Breadcrumb.t)) :
  let title :=
    SEOData.title (generateSEO (Data.OfPage page) site (Some kind_page) baseUrl breadcrumbs) in
  (forall t, opt_chain (Page.seo page) SEOFields.title = Some t -> t <> "" -> title = t)
  /\ (truthy (opt_chain (Page.seo page) SEOFields.title) = false ->
      (forall name, SiteSettings.siteName site = Some name -> name <> "" ->
         title = Page.title page ++ " | " ++ name)
      /\ (truthy (SiteSettings.siteName site) = false ->
          title = Page.title page ++ " | Website")).
Proof.
  cbv zeta. rewrite generateSEO_title. simpl.
  split.
  - intros t Ht Hne. rewrite Ht. destruct t; [contradiction|reflexivity].
  - intros Hseo.
    assert (E : forall d, or_default (opt_chain (Page.seo page) SEOFields.title) d = d).
    { intros d. destruct (opt_chain (Page.seo page) SEOFields.title) as [[|a t]|];
        simpl in *; try reflexivity; discriminate. }
    rewrite E. split.
    + intros name Hn Hne. rewrite Hn.
      destruct name; [contradiction|]. simpl.
      destruct (Page.title page); reflexivity.
    + intros Hn.
      destruct (SiteSettings.siteName site) as [[|a t]|]; simpl in *;
        try discriminate; destruct (Page.title page); reflexivity.
Qed.

Lemma C2_generateSEO_page_title_witness :
  SEOData.title
    (generateSEO (Data.OfPage page_about) site_acme (Some kind_page)
                 (Some "https://acme.test") None)
  = "About | Acme".
Proof.
  apply (proj1 (proj2 (C2_generateSEO_page_title page_about site_acme
                         (Some "https://acme.test") None) eq_refl) "Acme").
  - reflexivity.
  - discriminate.
Defined.

(** C10.  For a page, with type [page] and no [baseUrl], the [url] of
    the result is set, to the text [undefined/pages/] followed by the
    slug: the missing base is interpolated as [undefined]. *)
Theorem C10_generateSEO_url_without_baseUrl
    (page : Page.t) (site : SiteSettings.t) (breadcrumbs : option (list Breadcrumb.t)) :
  SEOData.url (generateSEO (Data.OfPage page) site (Some kind_page) None breadcrumbs)
  = Some ("undefined/pages/" ++ Page.slug page).
Proof.
  unfold generateSEO. simpl. reflexivity.
Qed.

End SeoFacts.

(** ** The meta-tag renderer *)

Section MetaTagFacts.
Import JS Escaping Seo AsStated.

(** C3.  The text [generateMetaTags] returns is the tags of the fixed
    sequence joined by a line feed and four spaces: the title, the
    description, the keywords tag iff [seo.keywords] is truthy, og:title,
    og:description, og:type (content [website] when [seo.type] is
    absent), og:url iff [seo.url] is truthy, the three tags og:image,
    twitter:card and twitter:image iff [seo.image] is truthy, then
    twitter:title and twitter:description. *)
Theorem C3_generateMetaTags_fixed_order (seo : SEOData.t) :
  generateMetaTags seo = join (nl ++ "    ") (C3_tag_sequence seo)
  /\ tags_array seo = C3_tag_sequence seo
  /\ (exists rest,
        generateMetaTags seo
        = "<title>" ++ escapeHtml (SEOData.title seo) ++ "</title>"
          ++ (nl ++ "    ")
          ++ meta_name "description" (escapeHtml (SEOData.description seo))
          ++ (nl ++ "    ") ++ rest)
  /\ length (tags_array seo)
     = 7 + (if truthy (SEOData.keywords seo) then 1 else 0)
         + (if truthy (SEOData.url seo) then 1 else 0)
         + (if truthy (SEOData.image seo) then 3 else 0)
  /\ (forall name content,
        meta_name name content
        = "<meta name=" ++ dq ++ name ++ dq ++ " content=" ++ dq ++ content ++ dq ++ " />")
  /\ (forall property content,
        meta_property property content
        = "<meta property=" ++ dq ++ property ++ dq
          ++ " content=" ++ dq ++ content ++ dq ++ " />").
Proof.
  assert (E : tags_array seo = C3_tag_sequence seo).
  { unfold tags_array, C3_tag_sequence, title_tag, push.
    destruct (SEOData.keywords seo) as [[|k ks]|];
      destruct (SEOData.url seo) as [[|u us]|];
      destruct (SEOData.image seo) as [[|i is_]|];
      destruct (SEOData.type seo) as [[|t ts]|]; reflexivity. }
  split; [unfold generateMetaTags; now rewrite E|].
  split; [exact E|].
  split.
  { unfold generateMetaTags. rewrite E. unfold C3_tag_sequence, join.
    destruct (truthy (SEOData.keywords seo)); cbn [app String.concat];
      rewrite ?string_app_assoc; eexists; reflexivity. }
  split.
  { rewrite E. unfold C3_tag_sequence.
    destruct (truthy (SEOData.keywords seo)), (truthy (SEOData.url seo)),
      (truthy (SEOData.image seo)); reflexivity. }
  split; intros; unfold meta_name, meta_property, quoted;
    rewrite ?string_app_assoc; reflexivity.
Qed.

End MetaTagFacts.

(** ** The product schema *)

Section ProductFacts.
Import JS StructuredData Examples.

(** C7 as stated fails: a price of [0] and a currency are both present,
    and the result has no [offers] block. *)
Lemma C7_counterexample_price_zero :
  ProductData.price product_free <> None
  /\ ProductData.currency product_free <> None
  /\ ProductSchema.offers (generateProductSchema "https://acme.test" product_free) = None.
Proof.
  repeat split; discriminate.
Qed.

(** C7, amended.  The result has an [offers] block exactly when [price]
    and [currency] are both truthy: the price present and neither zero
    nor NaN, the currency present and not empty.  The block then is an
    [Offer] with that price and currency, whose [availability] is
    [product.availability] when that is set and non-empty and
    [https://schema.org/InStock] otherwise. *)
Theorem C7_generateProductSchema_offers (baseUrl : string) (product : ProductData.t) :
  (ProductSchema.offers (generateProductSchema baseUrl product) <> None
   <-> (exists price, ProductData.price product = Some price
                      /\ Number_truthy price = true)
       /\ truthy (ProductData.currency product) = true)
  /\ (forall offer,
        ProductSchema.offers (generateProductSchema baseUrl product) = Some offer ->
        Offer.at_type offer = "Offer"
        /\ ProductData.price product = Some (Offer.price offer)
        /\ ProductData.currency product = Some (Offer.priceCurrency offer)
        /\ Offer.availability offer
           = (if truthy (ProductData.availability product)
              then interpolate (ProductData.availability product)
              else "https://schema.org/InStock")).
Proof.
  unfold generateProductSchema; simpl.
  destruct (ProductData.price product) as [price|];
    destruct (ProductData.currency product) as [[|c cs]|]; simpl.
  all: try (split;
            [ split; [intros H; exfalso; apply H; reflexivity
                     | intros [[p [Hp Ht]] Hc]; discriminate]
            | intros offer H; discriminate ]).
  destruct (Number_truthy price) eqn:Hp.
  - split.
    + split; [intros _; split; [exists price; auto|reflexivity] | intros _; discriminate].
    + intros offer H. injection H as <-. simpl.
      repeat split.
      destruct (ProductData.availability product) as [[|a t]|]; reflexivity.
  - split.
    + split; [intros H; exfalso; apply H; reflexivity|].
      intros [[p [Hq Ht]] _]. injection Hq as <-. congruence.
    + intros offer H; discriminate.
Qed.

Lemma C7_generateProductSchema_offers_witness :
  exists offer,
    ProductSchema.offers (generateProductSchema "https://acme.test" product_priced)
    = Some offer
    /\ Offer.availability offer = "https://schema.org/InStock".
Proof.
  eexists. split; [reflexivity|].
  apply (proj2 (C7_generateProductSchema_offers "https://acme.test" product_priced)).
  reflexivity.
Defined.

End ProductFacts.

(** ** JSON: parsing what was serialized *)

Section JsonFacts.
Import JS JSON.

Lemma parse_string_body_quote (s rest : string) :
  parse_string_body (flat_map_string escape_char s ++ String DQUOTE rest) = Some (s, rest).
Proof.
  induction s as [|a s IH].
  - reflexivity.
  - cbn [flat_map_string]. rewrite string_app_assoc.
    destruct a as [[] [] [] [] [] [] [] []]; simpl; rewrite IH; reflexivity.
Qed.

Lemma read_digits_end (rest : string) :
  ends_number rest = true -> read_digits rest = (Decimal.Nil, rest).
Proof.
  destruct rest as [|c rest]; [reflexivity|]. simpl.
  destruct (digit_of c); [discriminate | reflexivity].
Qed.

Lemma read_digits_string_of_uint (d : Decimal.uint) (rest : string) :
  ends_number rest = true ->
  read_digits (NilEmpty.string_of_uint d ++ rest) = (d, rest).
Proof.
  intros H. induction d; simpl; try rewrite IHd; try reflexivity.
  now apply read_digits_end.
Qed.

Lemma ends_number_no_fraction (rest : string) :
  ends_number rest = true -> fraction_follows rest = false.
Proof.
  destruct rest as [|c rest]; [reflexivity|]. simpl.
  destruct (digit_of c); [discriminate|]. intros H. now apply negb_true_iff in H.
Qed.

Lemma uint_beq_refl (d : Decimal.uint) : Decimal.uint_beq d d = true.
Proof. induction d; simpl; auto. Qed.

Lemma parse_digits_string_of_uint (d : Decimal.uint) (rest : string) :
  d <> Decimal.Nil -> Decimal.unorm d = d -> ends_number rest = true ->
  parse_digits (NilEmpty.string_of_uint d ++ rest) = Some (d, rest).
Proof.
  intros Hn Hu He. unfold parse_digits.
  rewrite (read_digits_string_of_uint d rest He).
  rewrite Hu, uint_beq_refl, (ends_number_no_fraction rest He). simpl.
  destruct d; try reflexivity. contradiction.
Qed.

Lemma to_int_norm (n : Z) : Decimal.norm (Z.to_int n) = Z.to_int n.
Proof.
  rewrite <- (DecimalZ.of_to n) at 2. symmetry. apply DecimalZ.to_of.
Qed.

(** The digits of a whole number: some, without a leading zero. *)
Lemma to_int_digits (n : Z) :
  exists d, d <> Decimal.Nil /\ Decimal.unorm d = d
            /\ (Z.to_int n = Decimal.Pos d \/ Z.to_int n = Decimal.Neg d).
Proof.
  pose proof (to_int_norm n) as Hnorm.
  destruct (Z.to_int n) as [d|d]; exists d; simpl in Hnorm.
  - injection Hnorm as Hu. repeat split; auto.
    rewrite <- Hu. apply unorm_nonnil.
  - assert (Hz : Decimal.nzhead d = d /\ d <> Decimal.Nil).
    { destruct (Decimal.nzhead d) eqn:E; try discriminate;
        injection Hnorm as <-; split; try reflexivity; discriminate. }
    destruct Hz as [Hz Hn]. repeat split; auto.
    rewrite unorm_nzhead; rewrite Hz; auto.
Qed.

Lemma string_of_uint_nonnil (d : Decimal.uint) :
  d <> Decimal.Nil -> NilZero.string_of_uint d = NilEmpty.string_of_uint d.
Proof. destruct d; try reflexivity. contradiction. Qed.

Lemma parse_number_toString (n : Z) (rest : string) :
  ends_number rest = true ->
  parse_number (Number_toString n ++ rest) = Some (VNum n, rest).
Proof.
  intros He. unfold Number_toString.
  pose proof (DecimalZ.of_to n) as Hof.
  destruct (to_int_digits n) as (d & Hn & Hu & [E|E]); rewrite E in *.
  - unfold NilZero.string_of_int. rewrite (string_of_uint_nonnil d Hn).
    unfold parse_number.
    assert (R : read_char "-" (NilEmpty.string_of_uint d ++ rest) = None)
      by (destruct d; try reflexivity; contradiction).
    rewrite R, (parse_digits_string_of_uint d rest Hn Hu He), Hof. reflexivity.
  - unfold NilZero.string_of_int. rewrite (string_of_uint_nonnil d Hn).
    unfold parse_number. cbn [append read_char]. simpl (Ascii.eqb _ _).
    cbv iota.
    rewrite (parse_digits_string_of_uint d rest Hn Hu He), Hof. reflexivity.
Qed.

(** The text of a number opens with a minus sign or a digit. *)
Lemma Number_toString_head (n : Z) :
  exists c tl, Number_toString n = String c tl
               /\ In c ["-"; "0"; "1"; "2"; "3"; "4"; "5"; "6"; "7"; "8"; "9"]%char.
Proof.
  unfold Number_toString.
  destruct (to_int_digits n) as (d & Hn & _ & [E|E]); rewrite E.
  - unfold NilZero.string_of_int. rewrite (string_of_uint_nonnil d Hn).
    destruct d; try contradiction; simpl; do 2 eexists; (split; [reflexivity|]);
      simpl; tauto.
  - simpl. do 2 eexists. split; [reflexivity|]. simpl; tauto.
Qed.

(** Induction on values, with the hypothesis on every element and on
    every member. *)
Lemma value_induction (P : value -> Prop)
    (HU : P VUndefined) (HN : P VNull) (HB : forall b, P (VBool b))
    (HZ : forall n, P (VNum n)) (HS : forall s, P (VStr s))
    (HA : forall items, Forall P items -> P (VArr items))
    (HO : forall props, Forall (fun kv => P (snd kv)) props -> P (VObj props)) :
  forall v, P v.
Proof.
  fix IH 1. intros v. destruct v as [| |b|n|s|items|props].
  - exact HU.
  - exact HN.
  - apply HB.
  - apply HZ.
  - apply HS.
  - apply HA. induction items as [|x items IHitems]; constructor; [apply IH | exact IHitems].
  - apply HO. induction props as [|[k p] props IHprops]; constructor;
      [apply IH | exact IHprops].
Qed.

Lemma serialize_VObj indent props :
  serialize indent (VObj props)
  = match members_text (indent ++ gap) props with
    | [] => "{}"
    | _ :: _ => "{" ++ nl ++ (indent ++ gap)
                ++ join ("," ++ nl ++ (indent ++ gap)) (members_text (indent ++ gap) props)
                ++ nl ++ indent ++ "}"
    end.
Proof.
  cbn [serialize].
  assert (E : forall ind ps, (fix members (ps : list (string * value)) : list string :=
                 match ps with
                 | [] => []
                 | (k, VUndefined) :: rest => members rest
                 | (k, p) :: rest => (quote k ++ ": " ++ serialize ind p) :: members rest
                 end) ps = members_text ind ps).
  { intros ind ps. induction ps as [|[k p] ps IH]; [reflexivity|].
    destruct p; cbn [members_text]; rewrite <- IH; reflexivity. }
  rewrite E. reflexivity.
Qed.

Lemma clean_VObj props : clean (VObj props) = VObj (clean_members props).
Proof. reflexivity. Qed.

Lemma wf_VObj props : wf (VObj props) = distinct (map fst props) && wf_members props.
Proof. reflexivity. Qed.

Lemma size_VObj props : size (VObj props) = S (sizes props).
Proof. reflexivity. Qed.

Lemma skip_ws_app (w s : string) : ws_only w = true -> skip_ws (w ++ s) = skip_ws s.
Proof.
  induction w as [|c w IH]; simpl; [reflexivity|].
  intros H. apply andb_prop in H. destruct H as [Hc Hw]. rewrite Hc. auto.
Qed.

Lemma skip_ws_head (c : ascii) (s : string) :
  is_ws c = false -> skip_ws (String c s) = String c s.
Proof. intros H. simpl. now rewrite H. Qed.

Lemma ws_only_app (a b : string) :
  ws_only a = true -> ws_only b = true -> ws_only (a ++ b) = true.
Proof.
  induction a as [|c a IH]; simpl; [auto|].
  intros H Hb. apply andb_prop in H. destruct H as [Hc Ha].
  rewrite Hc. simpl. auto.
Qed.

Lemma parse_value_S fuel s :
  parse_value (S fuel) s
  = match skip_ws s with
      | EmptyString => None
      | String c rest =>
          if Ascii.eqb c "[" then
            match read_char "]" (skip_ws rest) with
            | Some after => Some (VArr [], after)
            | None =>
                match parse_elements fuel rest with
                | Some (items, after) => Some (VArr items, after)
                | None => None
                end
            end
          else if Ascii.eqb c "{" then
            match read_char "}" (skip_ws rest) with
            | Some after => Some (VObj [], after)
            | None =>
                match parse_members fuel [] rest with
                | Some (props, after) => Some (VObj props, after)
                | None => None
                end
            end
          else if Ascii.eqb c DQUOTE then
            match parse_string_body rest with
            | Some (body, after) => Some (VStr body, after)
            | None => None
            end
          else if Ascii.eqb c "n" then
            option_map (pair VNull) (expect "ull" rest)
          else if Ascii.eqb c "t" then
            option_map (pair (VBool true)) (expect "rue" rest)
          else if Ascii.eqb c "f" then
            option_map (pair (VBool false)) (expect "alse" rest)
          else parse_number (String c rest)
      end.
Proof. reflexivity. Qed.

Lemma parse_elements_S fuel s :
  parse_elements (S fuel) s
  = match parse_value fuel s with
      | None => None
      | Some (v, rest) =>
          match read_char "," (skip_ws rest) with
          | Some after =>
              match parse_elements fuel after with
              | Some (vs, after') => Some (v :: vs, after')
              | None => None
              end
          | None =>
              match read_char "]" (skip_ws rest) with
              | Some after => Some ([v], after)
              | None => None
              end
          end
      end.
Proof. reflexivity. Qed.

Lemma parse_members_S fuel acc s :
  parse_members (S fuel) acc s
  = match read_char DQUOTE (skip_ws s) with
      | None => None
      | Some rest =>
          match parse_string_body rest with
          | None => None
          | Some (k, rest1) =>
              match read_char ":" (skip_ws rest1) with
              | None => None
              | Some rest2 =>
                  match parse_value fuel rest2 with
                  | None => None
                  | Some (v, rest3) =>
                      match read_char "," (skip_ws rest3) with
                      | Some after => parse_members fuel (set_prop k v acc) after
                      | None =>
                          match read_char "}" (skip_ws rest3) with
                          | Some after => Some (set_prop k v acc, after)
                          | None => None
                          end
                      end
                  end
              end
          end
      end.
Proof. reflexivity. Qed.

Lemma parse_value_ws fuel w s :
  ws_only w = true -> parse_value fuel (w ++ s) = parse_value fuel s.
Proof.
  intros H. destruct fuel; [reflexivity|].
  rewrite !parse_value_S, (skip_ws_app w s H). reflexivity.
Qed.

Lemma parse_elements_ws fuel w s :
  ws_only w = true -> parse_elements fuel (w ++ s) = parse_elements fuel s.
Proof.
  intros H. destruct fuel; [reflexivity|].
  rewrite !parse_elements_S, (parse_value_ws fuel w s H). reflexivity.
Qed.

Lemma parse_members_ws fuel acc w s :
  ws_only w = true -> parse_members fuel acc (w ++ s) = parse_members fuel acc s.
Proof.
  intros H. destruct fuel; [reflexivity|].
  rewrite !parse_members_S, (skip_ws_app w s H). reflexivity.
Qed.

(** The text of a value opens with a character that is neither white
    space nor a closing bracket. *)
Lemma serialize_head (indent : string) (v : value) :
  exists c tl, serialize indent v = String c tl /\ opens_value c = true.
Proof.
  destruct v as [| |[]|n|s|[|x items]|props]; try (do 2 eexists; split; [reflexivity|reflexivity]).
  - destruct (Number_toString_head n) as (c & tl & E & Hin).
    exists c, tl. split; [exact E|].
    simpl in Hin. repeat (destruct Hin as [<-|Hin]; [reflexivity|]). destruct Hin.
  - rewrite serialize_VObj.
    destruct (members_text _ _); do 2 eexists; split; reflexivity.
Qed.

Lemma members_text_head (indent : string) (ps : list (string * value)) :
  forall m ms, members_text indent ps = m :: ms ->
  exists tl, m = String DQUOTE tl.
Proof.
  induction ps as [|[k p] ps IH]; intros m ms; [discriminate|].
  destruct p; cbn [members_text]; try apply IH;
    intros E; injection E as <- _; eexists; reflexivity.
Qed.

Lemma join_cons (sep x : string) (xs : list string) :
  join sep (x :: xs) = match xs with [] => x | _ :: _ => x ++ sep ++ join sep xs end.
Proof. reflexivity. Qed.

Lemma set_prop_fresh (k : string) (v : value) (acc : list (string * value)) :
  existsb (String.eqb k) (map fst acc) = false ->
  set_prop k v acc = (acc ++ [(k, v)])%list.
Proof.
  induction acc as [|[k' v'] acc IH]; simpl; [reflexivity|].
  intros H. apply orb_false_elim in H. destruct H as [Hk Hacc].
  rewrite Hk, (IH Hacc). reflexivity.
Qed.

Lemma members_text_defined indent k p ps :
  is_undefined p = false ->
  members_text indent ((k, p) :: ps)
  = (quote k ++ ": " ++ serialize indent p) :: members_text indent ps.
Proof. destruct p; try discriminate; reflexivity. Qed.

Lemma clean_members_defined k p ps :
  is_undefined p = false ->
  clean_members ((k, p) :: ps) = (k, clean p) :: clean_members ps.
Proof. destruct p; try discriminate; reflexivity. Qed.

Lemma sizes_defined k p ps :
  is_undefined p = false -> sizes ((k, p) :: ps) = S (size p) + sizes ps.
Proof. destruct p; try discriminate; reflexivity. Qed.

Lemma members_text_nil indent ps :
  members_text indent ps = [] -> clean_members ps = [].
Proof.
  induction ps as [|[k p] ps IH]; [reflexivity|].
  destruct p; cbn [members_text clean_members]; try discriminate. exact IH.
Qed.

Lemma read_char_hit (c : ascii) (s : string) : read_char c (String c s) = Some s.
Proof. simpl. now rewrite Ascii.eqb_refl. Qed.

Lemma read_char_miss (c c' : ascii) (s : string) :
  Ascii.eqb c' c = false -> read_char c (String c' s) = None.
Proof. intros H. simpl. now rewrite H. Qed.

Lemma parse_elements_join (items : list value) :
  Forall parses_back items ->
  forall fuel indent stepback rest,
    items <> [] -> forallb wf items = true ->
    list_sum (map (fun x => S (size x)) items) <= fuel ->
    ws_only indent = true -> ws_only stepback = true ->
    parse_elements fuel
      (join ("," ++ nl ++ indent) (map (serialize indent) items)
       ++ nl ++ stepback ++ "]" ++ rest)
    = Some (map clean items, rest).
Proof.
  induction 1 as [|x items Hx Hitems IH]; intros fuel indent stepback rest Hne Hwf Hf Hi Hs;
    [contradiction|].
  cbn [map forallb] in *.
  assert (Hf' : S (size x) + list_sum (map (fun x => S (size x)) items) <= fuel)
    by exact Hf.
  clear Hf.
  apply andb_prop in Hwf. destruct Hwf as [Hwx Hwi].
  destruct fuel as [|fuel]; [lia|].
  rewrite parse_elements_S, join_cons.
  destruct items as [|y items].
  - cbn [map].
    rewrite (Hx fuel indent (nl ++ stepback ++ "]" ++ rest) Hwx ltac:(simpl in Hf'; lia)
               Hi eq_refl).
    rewrite <- (string_app_assoc nl stepback).
    rewrite (skip_ws_app (nl ++ stepback))
      by (apply ws_only_app; [reflexivity | exact Hs]).
    cbn [append]. rewrite skip_ws_head by reflexivity.
    rewrite read_char_miss by reflexivity. rewrite read_char_hit. reflexivity.
  - remember (y :: items) as tl eqn:Etl.
    assert (Hmap : map (serialize indent) tl <> []) by (subst tl; discriminate).
    destruct (map (serialize indent) tl) as [|m ms] eqn:Em; [contradiction|].
    rewrite <- Em. clear Em Hmap.
    rewrite !string_app_assoc.
    match goal with
    | |- context [parse_value fuel (serialize indent x ++ ?r)] =>
        rewrite (Hx fuel indent r Hwx ltac:(lia) Hi eq_refl)
    end.
    cbn [append]. rewrite skip_ws_head by reflexivity.
    rewrite read_char_hit.
    rewrite <- (string_app_assoc nl indent).
    rewrite (parse_elements_ws fuel (nl ++ indent))
      by (apply ws_only_app; [reflexivity | exact Hi]).
    assert (E := IH fuel indent stepback rest ltac:(subst tl; discriminate)
                   Hwi ltac:(lia) Hi Hs).
    cbn [append] in E. rewrite E. reflexivity.
Qed.

Lemma existsb_app_false (k k' : string) (ks : list string) :
  existsb (String.eqb k') ks = false -> String.eqb k' k = false ->
  existsb (String.eqb k') (ks ++ [k])%list = false.
Proof.
  intros H1 H2. rewrite existsb_app, H1. simpl. now rewrite H2.
Qed.

Lemma parse_members_join (ps : list (string * value)) :
  Forall (fun kv => parses_back (snd kv)) ps ->
  forall fuel indent stepback acc rest,
    members_text indent ps <> [] -> wf_members ps = true ->
    distinct (map fst ps) = true ->
    (forall k, In k (map fst ps) -> existsb (String.eqb k) (map fst acc) = false) ->
    sizes ps <= fuel ->
    ws_only indent = true -> ws_only stepback = true ->
    parse_members fuel acc
      (join ("," ++ nl ++ indent) (members_text indent ps)
       ++ nl ++ stepback ++ "}" ++ rest)
    = Some ((acc ++ clean_members ps)%list, rest).
Proof.
  induction 1 as [|[k p] ps Hp Hps IH];
    intros fuel indent stepback acc rest Hne Hwf Hd Hfresh Hf Hi Hs; [contradiction|].
  cbn [snd] in Hp. cbn [wf_members map fst distinct] in Hwf, Hd, Hfresh.
  apply andb_prop in Hwf. destruct Hwf as [Hwp Hwps].
  apply andb_prop in Hd. destruct Hd as [Hk Hd]. apply negb_true_iff in Hk.
  assert (Hfresh' : forall k', In k' (map fst ps) ->
                               existsb (String.eqb k') (map fst acc) = false)
    by (intros k' Hin; apply Hfresh; now right).
  destruct (is_undefined p) eqn:Hu.
  { destruct p; try discriminate.
    cbn [members_text clean_members sizes] in *. now apply IH. }
  rewrite (members_text_defined indent k p ps Hu) in *.
  rewrite (clean_members_defined k p ps Hu).
  rewrite (sizes_defined k p ps Hu) in Hf.
  destruct fuel as [|fuel]; [lia|].
  assert (Hset : set_prop k (clean p) acc = (acc ++ [(k, clean p)])%list)
    by (apply set_prop_fresh, Hfresh; now left).
  rewrite parse_members_S, join_cons.
  destruct (members_text indent ps) as [|m ms] eqn:Em.
  - unfold quote, dq. rewrite !string_app_assoc.
    cbn [append]. rewrite skip_ws_head by reflexivity. rewrite read_char_hit.
    rewrite parse_string_body_quote.
    rewrite skip_ws_head by reflexivity. rewrite read_char_hit.
    change (String " " (serialize indent p ++ ?x))
      with (" " ++ serialize indent p ++ x).
    rewrite (parse_value_ws fuel " ") by reflexivity.
    match goal with
    | |- context [parse_value fuel (serialize indent p ++ ?r)] =>
        rewrite (Hp fuel indent r Hwp ltac:(lia) Hi eq_refl)
    end.
    rewrite <- (string_app_assoc nl stepback).
    rewrite (skip_ws_app (nl ++ stepback))
      by (apply ws_only_app; [reflexivity | exact Hs]).
    rewrite skip_ws_head by reflexivity.
    rewrite read_char_miss by reflexivity. rewrite read_char_hit.
    rewrite Hset, (members_text_nil indent ps Em). reflexivity.
  - unfold quote, dq. rewrite !string_app_assoc.
    cbn [append]. rewrite skip_ws_head by reflexivity. rewrite read_char_hit.
    rewrite parse_string_body_quote.
    rewrite skip_ws_head by reflexivity. rewrite read_char_hit.
    change (String " " (serialize indent p ++ ?x))
      with (" " ++ serialize indent p ++ x).
    rewrite (parse_value_ws fuel " ") by reflexivity.
    match goal with
    | |- context [parse_value fuel (serialize indent p ++ ?r)] =>
        rewrite (Hp fuel indent r Hwp ltac:(lia) Hi eq_refl)
    end.
    rewrite skip_ws_head by reflexivity. rewrite read_char_hit.
    rewrite <- (string_app_assoc nl indent).
    rewrite (parse_members_ws fuel _ (nl ++ indent))
      by (apply ws_only_app; [reflexivity | exact Hi]).
    rewrite Hset.
    assert (E := IH fuel indent stepback (acc ++ [(k, clean p)])%list rest
                   ltac:(rewrite Em; discriminate) Hwps Hd).
    rewrite Em in E. cbn [append] in E. rewrite E.
    + now rewrite <- List.app_assoc.
    + intros k' Hin. rewrite map_app. apply existsb_app_false; [now apply Hfresh'|].
      cbn [map fst].
      destruct (String.eqb k' k) eqn:Ek; [|reflexivity].
      apply String.eqb_eq in Ek. subst k'.
      exfalso. clear - Hk Hin.
      induction (map fst ps) as [|a l IHl]; [destruct Hin|].
      simpl in Hk. apply orb_false_elim in Hk. destruct Hk as [Ha Hl].
      destruct Hin as [->|Hin]; [now rewrite String.eqb_refl in Ha | auto].
    + lia.
    + exact Hi.
    + exact Hs.
Qed.

(** Parsing the text of a value gives the value back, as far as it was
    serialized, and leaves the text that followed. *)
Theorem parse_value_serialize (v : value) : parses_back v.
Proof.
  induction v as [| |b|n|s|items IH|props IH] using value_induction;
    intros fuel indent rest Hwf Hf Hi Hr;
    (destruct fuel as [|fuel]; [simpl in Hf; lia|]); rewrite parse_value_S.
  - reflexivity.
  - reflexivity.
  - destruct b; reflexivity.
  - destruct (Number_toString_head n) as (c & tl & E & Hin).
    pose proof (parse_number_toString n rest Hr) as Hp.
    cbn [serialize clean]. rewrite E in *. cbn [append] in *.
    simpl in Hin.
    repeat (destruct Hin as [<-|Hin]; [exact Hp|]). destruct Hin.
  - cbn [serialize clean]. unfold quote, dq. rewrite !string_app_assoc. cbn [append].
    rewrite skip_ws_head by reflexivity.
    change (Ascii.eqb DQUOTE "[") with false.
    change (Ascii.eqb DQUOTE "{") with false.
    change (Ascii.eqb DQUOTE DQUOTE) with true. cbv iota.
    rewrite parse_string_body_quote. reflexivity.
  - destruct items as [|x items]; [reflexivity|].
    remember (x :: items) as xs eqn:Exs.
    assert (Hne : xs <> []) by (subst xs; discriminate).
    set (ind := indent ++ gap).
    set (J := join ("," ++ nl ++ ind) (map (serialize ind) xs)).
    assert (S1 : serialize indent (VArr xs) ++ rest
                 = String "[" ((nl ++ ind) ++ J ++ nl ++ indent ++ "]" ++ rest)).
    { subst xs. cbn [serialize]. fold ind. fold J.
      cbn [append]. rewrite !string_app_assoc. reflexivity. }
    rewrite S1. clear S1.
    rewrite skip_ws_head by reflexivity.
    change (Ascii.eqb "[" "[") with true. cbv iota.
    assert (Hi' : ws_only ind = true)
      by (apply ws_only_app; [exact Hi | reflexivity]).
    assert (Hi2 : ws_only (nl ++ ind) = true)
      by (apply ws_only_app; [reflexivity | exact Hi']).
    assert (E : parse_elements fuel (J ++ nl ++ indent ++ "]" ++ rest)
                = Some (map clean xs, rest))
      by (apply parse_elements_join; auto; simpl in Hf; lia).
    (* the text after the bracket opens with a value, not with a bracket *)
    assert (Hopen : exists c tl, J = String c tl /\ opens_value c = true).
    { subst J xs. cbn [map]. rewrite join_cons.
      destruct (serialize_head ind x) as (c & tl & Ec & Ho).
      rewrite Ec. destruct (map _ items); do 2 eexists; (split; [reflexivity|exact Ho]). }
    destruct Hopen as (c & tl & Ec & Ho).
    unfold opens_value in Ho.
    apply andb_prop in Ho. destruct Ho as [Ho Hbrace].
    apply andb_prop in Ho. destruct Ho as [Hws Hbracket].
    apply negb_true_iff in Hws, Hbracket.
    rewrite (skip_ws_app (nl ++ ind)) by exact Hi2.
    rewrite (parse_elements_ws fuel (nl ++ ind)) by exact Hi2.
    rewrite E. rewrite Ec. cbn [append].
    rewrite skip_ws_head by exact Hws.
    rewrite read_char_miss by exact Hbracket.
    reflexivity.
  - rewrite clean_VObj.
    rewrite wf_VObj in Hwf. apply andb_prop in Hwf. destruct Hwf as [Hd Hwf].
    rewrite size_VObj in Hf.
    set (ind := indent ++ gap).
    set (J := join ("," ++ nl ++ ind) (members_text ind props)).
    destruct (members_text ind props) as [|m ms] eqn:Em.
    { rewrite serialize_VObj. fold ind. rewrite Em.
      rewrite (members_text_nil _ _ Em). reflexivity. }
    assert (S1 : serialize indent (VObj props) ++ rest
                 = String "{" ((nl ++ ind) ++ J ++ nl ++ indent ++ "}" ++ rest)).
    { rewrite serialize_VObj. fold ind. rewrite Em. subst J.
      cbn [append]. rewrite !string_app_assoc. reflexivity. }
    rewrite S1. clear S1.
    rewrite skip_ws_head by reflexivity.
    change (Ascii.eqb "{" "[") with false.
    change (Ascii.eqb "{" "{") with true. cbv iota.
    assert (Hi' : ws_only ind = true)
      by (apply ws_only_app; [exact Hi | reflexivity]).
    assert (Hi2 : ws_only (nl ++ ind) = true)
      by (apply ws_only_app; [reflexivity | exact Hi']).
    assert (E : parse_members fuel [] (J ++ nl ++ indent ++ "}" ++ rest)
                = Some (clean_members props, rest)).
    { subst J. rewrite <- Em.
      apply (parse_members_join props IH fuel ind indent [] rest); auto.
      - rewrite Em; discriminate.
      - lia. }
    assert (Hopen : exists tl, J = String DQUOTE tl).
    { destruct (members_text_head _ _ _ _ Em) as [tl ->].
      subst J. rewrite join_cons. destruct ms; eexists; reflexivity. }
    destruct Hopen as (tl & Ec).
    rewrite (skip_ws_app (nl ++ ind)) by exact Hi2.
    rewrite (parse_members_ws fuel _ (nl ++ ind)) by exact Hi2.
    rewrite E. rewrite Ec. cbn [append].
    rewrite skip_ws_head by reflexivity.
    rewrite read_char_miss by reflexivity.
    reflexivity.
Qed.

Lemma join_cons_more (sep x : string) (xs : list string) :
  xs <> [] -> join sep (x :: xs) = x ++ sep ++ join sep xs.
Proof. destruct xs; [contradiction | reflexivity]. Qed.

Lemma length_join_elements (sep ind : string) (items : list value) :
  Forall (fun x => forall indent, size x <= String.length (serialize indent x)) items ->
  1 <= String.length sep ->
  list_sum (map (fun x => S (size x)) items)
  <= String.length (join sep (map (serialize ind) items)) + 1.
Proof.
  intros H Hsep. induction H as [|x items Hx Hitems IH]; [simpl; lia|].
  cbn [map].
  change (list_sum (S (size x) :: ?l)) with (S (size x) + list_sum l).
  specialize (Hx ind).
  destruct items as [|y items]; [simpl; lia|].
  rewrite join_cons_more by discriminate.
  rewrite !string_length_app. lia.
Qed.

Lemma length_join_members (sep ind : string) (ps : list (string * value)) :
  Forall (fun kv => forall indent, size (snd kv) <= String.length (serialize indent (snd kv))) ps ->
  1 <= String.length sep ->
  sizes ps <= String.length (join sep (members_text ind ps)) + 1.
Proof.
  intros H Hsep. induction H as [|[k p] ps Hp Hps IH]; [simpl; lia|].
  cbn [snd] in Hp. specialize (Hp ind).
  destruct (is_undefined p) eqn:Hu.
  { destruct p; try discriminate. exact IH. }
  rewrite (members_text_defined ind k p ps Hu), (sizes_defined k p ps Hu).
  destruct (members_text ind ps) as [|m ms] eqn:Em.
  - assert (sizes ps = 0).
    { clear - Em. induction ps as [|[k' p'] ps IH]; [reflexivity|].
      destruct p'; cbn [members_text sizes] in *; try discriminate. auto. }
    rewrite join_cons. rewrite !string_length_app. lia.
  - rewrite join_cons_more by discriminate.
    rewrite !string_length_app. lia.
Qed.

Lemma size_le_length (v : value) :
  forall indent, size v <= String.length (serialize indent v).
Proof.
  induction v as [| |b|n|s|items IH|props IH] using value_induction; intros indent.
  - simpl; lia.
  - simpl; lia.
  - destruct b; simpl; lia.
  - destruct (Number_toString_head n) as (c & tl & E & _).
    cbn [serialize size]. rewrite E. simpl. lia.
  - cbn [serialize size]. unfold quote. rewrite !string_length_app. simpl. lia.
  - destruct items as [|x items]; [simpl; lia|].
    remember (x :: items) as xs.
    assert (S1 : serialize indent (VArr xs)
                 = "[" ++ nl ++ (indent ++ gap)
                   ++ join ("," ++ nl ++ (indent ++ gap)) (map (serialize (indent ++ gap)) xs)
                   ++ nl ++ indent ++ "]")
      by (subst xs; reflexivity).
    rewrite S1.
    pose proof (length_join_elements ("," ++ nl ++ (indent ++ gap)) (indent ++ gap) xs IH
                  ltac:(simpl; lia)) as L.
    cbn [size]. rewrite !string_length_app. simpl String.length at 1 2.
    lia.
  - rewrite serialize_VObj, size_VObj.
    pose proof (length_join_members ("," ++ nl ++ (indent ++ gap)) (indent ++ gap) props IH
                  ltac:(simpl; lia)) as L.
    destruct (members_text (indent ++ gap) props) as [|m ms] eqn:Em.
    + simpl in *. lia.
    + rewrite !string_length_app. simpl String.length at 1 2. lia.
Qed.

(** [JSON.parse(JSON.stringify(v, null, 2))] is [v] as far as it was
    serialized. *)
Theorem parse_serialize (v : value) :
  wf v = true -> parse (serialize "" v) = Some (clean v).
Proof.
  intros Hwf. unfold parse.
  pose proof (parse_value_serialize v (S (String.length (serialize "" v))) "" ""
                Hwf ltac:(pose proof (size_le_length v ""); lia) eq_refl eq_refl) as E.
  rewrite string_app_nil_r in E. rewrite E. reflexivity.
Qed.

End JsonFacts.

(** ** The structured-data builder *)

Section StructuredDataFacts.
Import JS JSON StructuredData Examples.

Lemma wf_strings (xs : list string) : forallb wf (map VStr xs) = true.
Proof. induction xs; simpl; auto. Qed.

Lemma clean_strings (xs : list string) : map clean (map VStr xs) = map VStr xs.
Proof. induction xs as [|x xs IH]; simpl; [reflexivity | now rewrite IH]. Qed.

Lemma wf_VStr_opt (x : option string) : wf (VStr_opt x) = true.
Proof. destruct x; reflexivity. Qed.

Lemma wf_list_items baseUrl index crumbs :
  forallb wf (map_index (list_item baseUrl) index crumbs) = true.
Proof.
  revert index. induction crumbs as [|c cs IH]; intros index; [reflexivity|].
  cbn [map_index forallb]. rewrite IH. reflexivity.
Qed.

Lemma clean_list_items baseUrl index crumbs :
  map clean (map_index (list_item baseUrl) index crumbs)
  = map_index (list_item baseUrl) index crumbs.
Proof.
  revert index. induction crumbs as [|c cs IH]; intros index; [reflexivity|].
  cbn [map_index map]. rewrite IH. reflexivity.
Qed.

Lemma nth_error_map_index {A B : Type} (f : A -> nat -> B) (start i : nat) (xs : list A) :
  nth_error (map_index f start xs) i
  = option_map (fun x => f x (start + i)) (nth_error xs i).
Proof.
  revert start i. induction xs as [|x xs IH]; intros start i.
  - destruct i; reflexivity.
  - destruct i as [|i]; cbn [map_index nth_error option_map].
    + now rewrite Nat.add_0_r.
    + rewrite IH. now rewrite Nat.add_succ_comm.
Qed.

Lemma length_map_index {A B : Type} (f : A -> nat -> B) (start : nat) (xs : list A) :
  length (map_index f start xs) = length xs.
Proof.
  revert start. induction xs as [|x xs IH]; intros start; simpl; auto.
Qed.

Lemma generateBreadcrumbSchema_eq baseUrl crumbs :
  generateBreadcrumbSchema baseUrl crumbs
  = VObj [ ("@context", VStr "https://schema.org");
           ("@type", VStr "BreadcrumbList");
           ("itemListElement", VArr (map_index (list_item baseUrl) 0 crumbs)) ].
Proof. reflexivity. Qed.

Lemma wf_generateBreadcrumbSchema baseUrl crumbs :
  wf (generateBreadcrumbSchema baseUrl crumbs) = true.
Proof.
  rewrite generateBreadcrumbSchema_eq. cbn [wf map fst distinct existsb].
  rewrite wf_list_items. reflexivity.
Qed.

Lemma clean_generateBreadcrumbSchema baseUrl crumbs :
  clean (generateBreadcrumbSchema baseUrl crumbs) = generateBreadcrumbSchema baseUrl crumbs.
Proof.
  rewrite generateBreadcrumbSchema_eq. cbn [clean]. rewrite clean_list_items. reflexivity.
Qed.

Lemma wf_generateWebsiteSchema baseUrl site :
  wf (generateWebsiteSchema baseUrl site) = true.
Proof.
  destruct site as [name desc logo social contact].
  unfold generateWebsiteSchema; cbn [SiteSettings.siteName SiteSettings.siteDescription
    SiteSettings.logo SiteSettings.socialMedia SiteSettings.contactInfo].
  destruct logo as [logo|], social as [social|],
    contact as [[[[|e es]|] [[|p ps]|] addr]|];
    cbn -[or_default String.eqb]; rewrite ?wf_strings; reflexivity.
Qed.

Lemma wf_generateArticleSchema baseUrl site page :
  wf (generateArticleSchema baseUrl site page) = true.
Proof.
  destruct site as [name desc logo social contact].
  unfold generateArticleSchema.
  cbn [SiteSettings.siteName SiteSettings.siteDescription SiteSettings.logo].
  destruct page as [[id title slug status excerpt image seo published created updated]|s];
    cbn [Data.title Data.slug Data.excerpt Data.featuredImage Data.seo
         Data.publishedDate Data.createdAt Data.updatedAt].
  - destruct logo as [logo|],
      image as [[iid iurl [[|a al]|] fn mt fs w h ic iu]|],
      seo as [[st sd [[|k ks]|] si sn sf]|];
      cbn -[or_default or_else String.eqb interpolate];
      rewrite ?wf_VStr_opt; reflexivity.
  - destruct logo as [logo|];
      cbn -[or_default or_else String.eqb interpolate]; reflexivity.
Qed.

Lemma wf_structuredData_array config :
  forallb wf (structuredData_array config) = true.
Proof.
  unfold structuredData_array, push.
  destruct (StructuredDataConfig.page config) as [page|],
    (StructuredDataConfig.breadcrumbs config) as [[|c cs]|];
    cbn [app forallb];
    rewrite ?wf_generateWebsiteSchema, ?wf_generateArticleSchema,
      ?wf_generateBreadcrumbSchema; reflexivity.
Qed.

Lemma structuredData_array_eq config :
  structuredData_array config
  = (generateWebsiteSchema (StructuredDataConfig.baseUrl config)
                           (StructuredDataConfig.siteSettings config)
     :: match StructuredDataConfig.page config with
        | Some page =>
            [generateArticleSchema (StructuredDataConfig.baseUrl config)
                                   (StructuredDataConfig.siteSettings config) page]
        | None => []
        end
     ++ match StructuredDataConfig.breadcrumbs config with
        | Some (crumb :: crumbs) =>
            [generateBreadcrumbSchema (StructuredDataConfig.baseUrl config)
                                      (crumb :: crumbs)]
        | _ => []
        end)%list.
Proof.
  unfold structuredData_array, push.
  destruct (StructuredDataConfig.page config),
    (StructuredDataConfig.breadcrumbs config) as [[|c cs]|]; reflexivity.
Qed.

(** [generateStructuredData] returns a text that [JSON.parse] reads as
    the array it serialized. *)
Lemma parse_generateStructuredData config :
  parse (generateStructuredData config)
  = Some (VArr (map clean (structuredData_array config))).
Proof.
  unfold generateStructuredData, stringify_array.
  apply (parse_serialize (VArr (structuredData_array config))).
  apply wf_structuredData_array.
Qed.

(** C5.  The text [generateStructuredData] returns parses as JSON to an
    array whose first element has [@type] [WebSite].  With a non-empty
    [breadcrumbs], the array ends with a [BreadcrumbList] object whose
    [itemListElement] has one [ListItem] per crumb, in the given order,
    with [position] the index counted from 1, the name of the crumb, and
    as [item] the url of the crumb when it starts with [http] and
    [baseUrl] followed by that url otherwise. *)
Theorem C5_generateStructuredData_parses_to_array (config : StructuredDataConfig.t) :
  exists website rest,
    parse (generateStructuredData config) = Some (VArr (website :: rest))
    /\ get "@type" website = Some (VStr "WebSite")
    /\ (forall crumb crumbs,
          StructuredDataConfig.breadcrumbs config = Some (crumb :: crumbs) ->
          exists front items,
            rest = (front
                    ++ [ VObj [ ("@context", VStr "https://schema.org");
                                ("@type", VStr "BreadcrumbList");
                                ("itemListElement", VArr items) ] ])%list
            /\ length items = length (crumb :: crumbs)
            /\ forall index c,
                 nth_error (crumb :: crumbs) index = Some c ->
                 nth_error items index
                 = Some (VObj [
                     ("@type", VStr "ListItem");
                     ("position", VNum (Z.of_nat index + 1));
                     ("name", VStr (Breadcrumb.name c));
                     ("item",
                       VStr (if startsWith (Breadcrumb.url c) "http"
                             then Breadcrumb.url c
                             else StructuredDataConfig.baseUrl config
                                  ++ Breadcrumb.url c)) ])).
Proof.
  rewrite parse_generateStructuredData, structuredData_array_eq.
  cbn [map]. do 2 eexists. split; [reflexivity|]. split; [reflexivity|].
  intros crumb crumbs Hb. rewrite Hb. rewrite map_app. cbn [map].
  rewrite clean_generateBreadcrumbSchema, generateBreadcrumbSchema_eq.
  do 2 eexists. split; [reflexivity|]. split; [apply length_map_index|].
  intros index c Hc. rewrite nth_error_map_index, Hc. reflexivity.
Qed.

Lemma C5_generateStructuredData_parses_to_array_witness :
  exists website rest front items,
    parse (generateStructuredData config_crumbs) = Some (VArr (website :: rest))
    /\ get "@type" website = Some (VStr "WebSite")
    /\ rest = (front
               ++ [ VObj [ ("@context", VStr "https://schema.org");
                           ("@type", VStr "BreadcrumbList");
                           ("itemListElement", VArr items) ] ])%list
    /\ nth_error items 0
       = Some (VObj [ ("@type", VStr "ListItem");
                      ("position", VNum 1);
                      ("name", VStr "Home");
                      ("item", VStr "https://acme.test/") ])
    /\ nth_error items 1
       = Some (VObj [ ("@type", VStr "ListItem");
                      ("position", VNum 2);
                      ("name", VStr "About");
                      ("item", VStr "https://acme.test/pages/about") ]).
Proof.
  destruct (C5_generateStructuredData_parses_to_array config_crumbs)
    as (website & rest & Hp & Ht & Hb).
  destruct (Hb crumb_home [crumb_about] eq_refl) as (front & items & Hr & _ & Hn).
  exists website, rest, front, items.
  repeat split; try assumption.
  - exact (Hn 0 crumb_home eq_refl).
  - exact (Hn 1 crumb_about eq_refl).
Defined.

(** The layout of [JSON.stringify(_, null, 2)] on a small array: one
    element or member per line, two more spaces at each level, an absent
    member left out. *)
Example stringify_array_layout :
  stringify_array [ VObj [ ("a", VNum 1); ("b", VUndefined);
                           ("c", VArr [VStr "x"; VStr "y"]) ];
                    VObj [] ]
  = "[" ++ nl
    ++ "  {" ++ nl
    ++ "    " ++ quoted "a" ++ ": 1," ++ nl
    ++ "    " ++ quoted "c" ++ ": [" ++ nl
    ++ "      " ++ quoted "x" ++ "," ++ nl
    ++ "      " ++ quoted "y" ++ nl
    ++ "    ]" ++ nl
    ++ "  }," ++ nl
    ++ "  {}" ++ nl
    ++ "]".
Proof. vm_compute. reflexivity. Qed.

End StructuredDataFacts.

(** ** The sitemap builder *)

Section SitemapFacts.
Import JS Sitemap.

Variable Date_parse : string -> option Z.
Variable Date_format : Z -> string.

Local Abbreviation generateSitemapUrls := (Sitemap.generateSitemapUrls Date_parse Date_format).
Local Abbreviation Date_toISOString := (Sitemap.Date_toISOString Date_parse Date_format).
Local Abbreviation homepage_entries := (Sitemap.homepage_entries Date_format).
Local Abbreviation page_lastmod_source := (Sitemap.page_lastmod_source Date_format).
Local Abbreviation eligible_entry := (Sitemap.eligible_entry Date_parse Date_format).
Local Abbreviation dates_valid := (Sitemap.dates_valid Date_parse Date_format).

Lemma shouldIncludePage_spec (page : Page.t) :
  shouldIncludePage page = true
  <-> Page.slug page <> ""
      /\ Page.status page = published
      /\ opt_chain (Page.seo page) SEOFields.noIndex <> Some true.
Proof.
  unfold shouldIncludePage.
  destruct (Page.slug page) as [|a t]; simpl.
  { split; [discriminate | intros [H _]; contradiction]. }
  destruct (Page.status page); simpl.
  { split; [discriminate | intros (_ & H & _); discriminate]. }
  destruct (opt_chain (Page.seo page) SEOFields.noIndex) as [[|]|]; simpl.
  - split; [discriminate | intros (_ & _ & H); contradiction].
  - split; [intros _; repeat split; discriminate | reflexivity].
  - split; [intros _; repeat split; discriminate | reflexivity].
Qed.

(** The loop, whatever the array it starts from: it appends the entries
    of the eligible pages, in order, and stops at the first throw. *)
Lemma forEach_pages (clock : Z) (config : option SitemapConfig.t)
    (pages : list Page.t) (urls : list SitemapUrl.t) :
  forEach pages (fun page urls =>
    if shouldIncludePage page then
      iso <- Date_toISOString (page_lastmod_source clock page) ;;
      Normal (push urls [page_entry config page iso])
    else Normal urls) urls
  = (entries <- traverse (eligible_entry clock config) (filter shouldIncludePage pages) ;;
     Normal (urls ++ entries)%list).
Proof.
  revert urls. induction pages as [|page pages IH]; intros urls; simpl.
  - now rewrite List.app_nil_r.
  - destruct (shouldIncludePage page); simpl; [|apply IH].
    unfold eligible_entry.
    destruct (Date_toISOString (page_lastmod_source clock page)) as [iso|e]; simpl;
      [|reflexivity].
    rewrite IH. unfold push.
    destruct (traverse _ _) as [entries|e]; simpl; [|reflexivity].
    now rewrite <- List.app_assoc.
Qed.

(** [generateSitemapUrls] in one equation. *)
Lemma generateSitemapUrls_eq (clock : Z) (pages : list Page.t)
    (site : SiteSettings.t) (config : option SitemapConfig.t) :
  generateSitemapUrls clock pages site config
  = (entries <- traverse (eligible_entry clock config) (filter shouldIncludePage pages) ;;
     Normal (homepage_entries clock config ++ entries)%list).
Proof.
  rewrite <- forEach_pages.
  unfold Sitemap.generateSitemapUrls, Sitemap.homepage_entries, page_entry,
    Sitemap.page_lastmod_source, push.
  destruct config as [[b [[|]|] hp pp cf]|]; reflexivity.
Qed.

Lemma traverse_normal (clock : Z) (config : option SitemapConfig.t) (pages : list Page.t) :
  (forall page, In page pages -> Date_parse (page_lastmod_source clock page) <> None) ->
  exists entries,
    traverse (eligible_entry clock config) pages = Normal entries
    /\ Forall2 (fun page entry =>
                  exists t, Date_parse (page_lastmod_source clock page) = Some t
                            /\ entry = page_entry config page (Date_format t))
               pages entries.
Proof.
  induction pages as [|page pages IH]; intros H; simpl.
  - exists []. split; [reflexivity | constructor].
  - destruct IH as (entries & E & F); [intros p Hp; apply H; now right|].
    unfold eligible_entry at 1, Sitemap.Date_toISOString.
    destruct (Date_parse (page_lastmod_source clock page)) as [t|] eqn:Ht.
    + simpl. rewrite E. simpl. eexists. split; [reflexivity|].
      constructor; [exists t; split; [exact Ht | reflexivity] | exact F].
    + exfalso. apply (H page); [now left | exact Ht].
Qed.

Lemma traverse_normal_or_throw (clock : Z) (config : option SitemapConfig.t)
    (pages : list Page.t) :
  (exists entries, traverse (eligible_entry clock config) pages = Normal entries)
  \/ traverse (eligible_entry clock config) pages
     = Throw (RangeError "Invalid time value").
Proof.
  induction pages as [|page pages IH]; simpl.
  - left. eexists. reflexivity.
  - unfold eligible_entry at 1 3, Sitemap.Date_toISOString.
    destruct (Date_parse (page_lastmod_source clock page)); simpl; [|now right].
    destruct IH as [[entries ->]| ->]; simpl; [left; eexists; reflexivity | now right].
Qed.

Lemma traverse_throw (clock : Z) (config : option SitemapConfig.t) (pages : list Page.t) :
  (exists page, In page pages /\ Date_parse (page_lastmod_source clock page) = None)
  <-> traverse (eligible_entry clock config) pages
      = Throw (RangeError "Invalid time value").
Proof.
  induction pages as [|page pages IH]; simpl.
  - split; [intros (p & [] & _) | discriminate].
  - unfold eligible_entry at 1, Sitemap.Date_toISOString.
    destruct (Date_parse (page_lastmod_source clock page)) as [t|] eqn:Ht; simpl.
    + destruct (traverse (eligible_entry clock config) pages) as [entries|e]; simpl.
      * split; [|discriminate].
        intros (p & [<-|Hp] & Hn); [congruence|].
        destruct IH as [IH _].
        discriminate (IH (ex_intro _ p (conj Hp Hn))).
      * split.
        -- intros (p & [<-|Hp] & Hn); [congruence|].
           f_equal. assert (X : Throw (A:=list SitemapUrl.t) e
                                = Throw (RangeError "Invalid time value"))
             by (apply IH; exists p; auto).
           now injection X.
        -- intros X. injection X as ->.
           destruct IH as [_ IH]. destruct (IH eq_refl) as (p & Hp & Hn).
           exists p. auto.
    + split; [reflexivity|]. intros _. exists page. auto.
Qed.


Lemma dates_valid_filter (clock : Z) (pages : list Page.t) :
  dates_valid clock pages
  <-> (forall page, In page (filter shouldIncludePage pages) ->
         Date_parse (page_lastmod_source clock page) <> None).
Proof.
  unfold dates_valid. split.
  - intros H page Hin. apply filter_In in Hin. destruct Hin. now apply H.
  - intros H page Hin He. apply H, filter_In. now split.
Qed.

(** C4, amended.  A page is eligible exactly when its slug is non-empty,
    its status is [published] and [seo.noIndex] is not [true].  For every
    list of pages in which the date text of each eligible page is a valid
    date, [generateSitemapUrls] returns the optional homepage entry
    followed by one entry per eligible page, in the order of the input
    list, and no entry for any other page. *)
Theorem C4_generateSitemapUrls_eligible_pages_in_order
    (clock : Z) (pages : list Page.t) (site : SiteSettings.t)
    (config : option SitemapConfig.t) :
  (forall page,
     shouldIncludePage page = true
     <-> Page.slug page <> ""
         /\ Page.status page = published
         /\ opt_chain (Page.seo page) SEOFields.noIndex <> Some true)
  /\ (dates_valid clock pages ->
      exists entries,
        generateSitemapUrls clock pages site config
        = Normal (homepage_entries clock config ++ entries)%list
        /\ Forall2 (fun page entry =>
                      exists t, Date_parse (page_lastmod_source clock page) = Some t
                                /\ entry = page_entry config page (Date_format t))
                   (filter shouldIncludePage pages) entries).
Proof.
  split; [apply shouldIncludePage_spec|].
  intros Hv.
  destruct (traverse_normal clock config _ (proj1 (dates_valid_filter clock pages) Hv))
    as (entries & E & F).
  exists entries. split; [|exact F].
  rewrite generateSitemapUrls_eq, E. reflexivity.
Qed.

(** C8, amended.  [generateSitemapUrls] neither validates nor catches:
    it returns a list exactly when the date text of every eligible page
    is a valid date, and it throws the RangeError of [toISOString]
    exactly when some eligible page carries a date text that is an
    Invalid Date; it throws nothing else.  The dates of pages that are
    not eligible are not read. *)
Theorem C8_generateSitemapUrls_throws_on_invalid_date
    (clock : Z) (pages : list Page.t) (site : SiteSettings.t)
    (config : option SitemapConfig.t) :
  (dates_valid clock pages
   <-> exists urls, generateSitemapUrls clock pages site config = Normal urls)
  /\ ((exists page, In page pages /\ shouldIncludePage page = true
                    /\ Date_parse (page_lastmod_source clock page) = None)
      <-> generateSitemapUrls clock pages site config
          = Throw (RangeError "Invalid time value"))
  /\ (forall e, generateSitemapUrls clock pages site config = Throw e ->
        e = RangeError "Invalid time value").
Proof.
  rewrite generateSitemapUrls_eq.
  assert (T := traverse_throw clock config (filter shouldIncludePage pages)).
  split; [|split].
  - split.
    + intros Hv.
      destruct (traverse_normal clock config _ (proj1 (dates_valid_filter clock pages) Hv))
        as (entries & E & _).
      rewrite E. simpl. eexists. reflexivity.
    + intros [urls E]. apply dates_valid_filter. intros page Hin Hn.
      destruct T as [T _]. rewrite (T (ex_intro _ page (conj Hin Hn))) in E.
      discriminate E.
  - split.
    + intros (page & Hin & He & Hn).
      destruct T as [T _]. rewrite T; [reflexivity|].
      exists page. split; [apply filter_In; now split | exact Hn].
    + intros E.
      destruct (traverse _ _) as [entries|e] eqn:Et; simpl in E; [discriminate|].
      injection E as ->. destruct T as [_ T].
      destruct (T eq_refl) as (page & Hin & Hn).
      apply filter_In in Hin. destruct Hin. exists page. auto.
  - intros e E.
    destruct (traverse _ _) as [entries|e'] eqn:Et; simpl in E; [discriminate|].
    injection E as <-.
    destruct (traverse_normal_or_throw clock config (filter shouldIncludePage pages))
      as [[entries E']|E']; congruence.
Qed.




End SitemapFacts.


(** ** The sitemap builder on the reference [Date] *)

Section SitemapExamples.
Import JS Sitemap Examples.

Local Abbreviation generateSitemapUrls := (Sitemap.generateSitemapUrls IsoDate.parse IsoDate.format).

Lemma C4_generateSitemapUrls_eligible_pages_in_order_witness :
  exists entries,
    generateSitemapUrls clock_2024 [page_draft; page_about; page_noindex]
                        site_acme (Some config_no_homepage)
    = Normal (Sitemap.homepage_entries IsoDate.format clock_2024 (Some config_no_homepage)
              ++ entries)%list
    /\ Forall2 (fun page entry =>
                  exists t,
                    IsoDate.parse (Sitemap.page_lastmod_source IsoDate.format clock_2024 page)
                    = Some t
                    /\ entry = page_entry (Some config_no_homepage) page (IsoDate.format t))
               (filter shouldIncludePage [page_draft; page_about; page_noindex]) entries.
Proof.
  apply (proj2 (C4_generateSitemapUrls_eligible_pages_in_order
                  IsoDate.parse IsoDate.format clock_2024
                  [page_draft; page_about; page_noindex] site_acme
                  (Some config_no_homepage))).
  intros page [<-|[<-|[<-|[]]]]; vm_compute; discriminate.
Defined.

(** C4 as stated fails on a list with an eligible page whose date text
    is not a date: the call throws, and no entry for the page is
    returned. *)
Lemma C4_counterexample_eligible_page_without_entry :
  shouldIncludePage page_bad_date = true
  /\ generateSitemapUrls clock_2024 [page_about; page_bad_date] site_acme None
     = Throw (RangeError "Invalid time value")
  /\ forall urls,
       generateSitemapUrls clock_2024 [page_about; page_bad_date] site_acme None
       <> Normal urls.
Proof.
  split; [reflexivity|]. split; [vm_compute; reflexivity|].
  intros urls. vm_compute. discriminate.
Qed.

Lemma C8_generateSitemapUrls_throws_on_invalid_date_witness :
  exists urls,
    generateSitemapUrls clock_2024 [page_draft; page_about] site_acme None = Normal urls.
Proof.
  apply (proj1 (proj1 (C8_generateSitemapUrls_throws_on_invalid_date
                         IsoDate.parse IsoDate.format clock_2024
                         [page_draft; page_about] site_acme None))).
  intros page [<-|[<-|[]]]; vm_compute; discriminate.
Defined.

(** C8 as stated fails: a page with a malformed [publishedDate] makes
    the call raise a RangeError instead of returning. *)
Lemma C8_counterexample_malformed_date_raises :
  generateSitemapUrls clock_2024 [page_bad_published] site_acme
                      (Some config_no_homepage)
  = Throw (RangeError "Invalid time value").
Proof.
  vm_compute. reflexivity.
Qed.


(** The host counts as well: the same arguments at the same clock
    reading give two results on a host in UTC and on a host one hour
    ahead of it, for a page whose date text carries no offset. *)
Example generateSitemapUrls_depends_on_the_host_time_zone :
  Sitemap.generateSitemapUrls (IsoDate.parse_in 0) IsoDate.format
    clock_2024 [page_local_time] site_acme (Some config_no_homepage)
  <> Sitemap.generateSitemapUrls (IsoDate.parse_in 60) IsoDate.format
       clock_2024 [page_local_time] site_acme (Some config_no_homepage).
Proof.
  vm_compute. discriminate.
Qed.

End SitemapExamples.

(** ** External state *)



(** * Further properties *)

(** ** Escaped text *)

Section EscapedTextFacts.
Import JS Escaping Text Sitemap.

Lemma count_char_app (c : ascii) (s t : string) :
  count_char c (s ++ t) = count_char c s + count_char c t.
Proof.
  induction s as [|a s IH]; simpl; [reflexivity|]. rewrite IH. lia.
Qed.

Lemma count_char_flat_map_zero (c : ascii) (f : ascii -> string) (s : string) :
  (forall a, count_char c (f a) = 0) -> count_char c (flat_map_string f s) = 0.
Proof.
  intros H. induction s as [|a s IH]; simpl; [reflexivity|].
  now rewrite count_char_app, H, IH.
Qed.

Lemma escapeXml_escapeHtml (s : string) : escapeXml s = escapeHtml s.
Proof. reflexivity. Qed.

Lemma count_lt_escapeHtml (s : string) : count_char "<" (escapeHtml s) = 0.
Proof.
  rewrite escapeHtml_flat_map. apply count_char_flat_map_zero.
  intros a. destruct a as [[] [] [] [] [] [] [] []]; reflexivity.
Qed.

Lemma count_gt_escapeHtml (s : string) : count_char ">" (escapeHtml s) = 0.
Proof.
  rewrite escapeHtml_flat_map. apply count_char_flat_map_zero.
  intros a. destruct a as [[] [] [] [] [] [] [] []]; reflexivity.
Qed.

Lemma count_dq_escapeHtml (s : string) : count_char DQUOTE (escapeHtml s) = 0.
Proof.
  rewrite escapeHtml_flat_map. apply count_char_flat_map_zero.
  intros a. destruct a as [[] [] [] [] [] [] [] []]; reflexivity.
Qed.

Lemma count_apos_escapeHtml (s : string) : count_char "'" (escapeHtml s) = 0.
Proof.
  rewrite escapeHtml_flat_map. apply count_char_flat_map_zero.
  intros a. destruct a as [[] [] [] [] [] [] [] []]; reflexivity.
Qed.

(** X1.  No markup delimiter survives escaping: [escapeXml] and
    [escapeHtml] return the same text, and it contains no less-than
    sign, no greater-than sign, no double quote and no apostrophe,
    whatever the input. *)
Theorem X_escaped_text_has_no_delimiter (s : string) :
  escapeXml s = escapeHtml s
  /\ count_char "<" (escapeXml s) = 0 /\ count_char ">" (escapeXml s) = 0
  /\ count_char DQUOTE (escapeXml s) = 0 /\ count_char "'" (escapeXml s) = 0
  /\ count_char "<" (escapeHtml s) = 0 /\ count_char ">" (escapeHtml s) = 0
  /\ count_char DQUOTE (escapeHtml s) = 0 /\ count_char "'" (escapeHtml s) = 0.
Proof.
  rewrite escapeXml_escapeHtml.
  repeat split; auto using count_lt_escapeHtml, count_gt_escapeHtml,
    count_dq_escapeHtml, count_apos_escapeHtml.
Qed.

Lemma unescapeHtml_entity (a : ascii) (e : string) :
  unescapeHtml (html_entity a ++ e) = String a (unescapeHtml e).
Proof.
  destruct a as [[] [] [] [] [] [] [] []]; reflexivity.
Qed.

Lemma unescapeHtml_escapeHtml (s : string) : unescapeHtml (escapeHtml s) = s.
Proof.
  rewrite escapeHtml_flat_map.
  induction s as [|a s IH]; [reflexivity|].
  cbn [flat_map_string]. now rewrite unescapeHtml_entity, IH.
Qed.

(** X2.  Escaping loses nothing: the five entities read back as their
    characters give the text that was escaped, so two different texts
    never escape to the same text. *)
Theorem X_escapeHtml_injective (s : string) :
  unescapeHtml (escapeHtml s) = s
  /\ (forall s', escapeHtml s = escapeHtml s' -> s = s').
Proof.
  split; [apply unescapeHtml_escapeHtml|].
  intros s' E. rewrite <- (unescapeHtml_escapeHtml s), E.
  apply unescapeHtml_escapeHtml.
Qed.

Lemma X_escapeHtml_injective_witness : "a<b" = "a<b".
Proof.
  apply (proj2 (X_escapeHtml_injective "a<b") "a<b"). reflexivity.
Defined.

Lemma escapeHtml_app (s t : string) : escapeHtml (s ++ t) = escapeHtml s ++ escapeHtml t.
Proof. rewrite !escapeHtml_flat_map. apply flat_map_string_app. Qed.

Lemma length_flat_map_entity (s : string) :
  String.length s <= String.length (flat_map_string html_entity s)
  /\ (free_of_specials s = false ->
      String.length s < String.length (flat_map_string html_entity s)).
Proof.
  induction s as [|a s [IH1 IH2]]; [split; [simpl; lia | discriminate]|].
  cbn [flat_map_string free_of_specials]. rewrite string_length_app.
  assert (Ha : 1 <= String.length (html_entity a)
               /\ (is_special a = true -> 2 <= String.length (html_entity a))).
  { split.
    - destruct a as [[] [] [] [] [] [] [] []]; simpl; lia.
    - destruct a as [[] [] [] [] [] [] [] []]; intros H; compute in H;
        try discriminate H; simpl; lia. }
  destruct Ha as [Ha1 Ha2].
  change (String.length (String a s)) with (S (String.length s)).
  split; [lia|].
  intros H. apply andb_false_iff in H. destruct H as [H|H].
  - apply negb_false_iff in H. specialize (Ha2 H). lia.
  - specialize (IH2 H). lia.
Qed.

Lemma escaped_special_stays (s : string) :
  free_of_specials s = false -> free_of_specials (flat_map_string html_entity s) = false.
Proof.
  induction s as [|a s IH]; [discriminate|].
  cbn [flat_map_string free_of_specials]. intros H.
  apply andb_false_iff in H. destruct H as [H|H].
  - apply negb_false_iff in H. revert H.
    destruct a as [[] [] [] [] [] [] [] []]; intros H; compute in H;
      try discriminate H; reflexivity.
  - specialize (IH H).
    assert (G : forall x y, free_of_specials y = false -> free_of_specials (x ++ y) = false).
    { intros x y Hy. induction x as [|b x IHx]; simpl; [exact Hy|].
      rewrite IHx. apply andb_false_r. }
    now apply G.
Qed.

(** X3.  Escaping is a homomorphism for concatenation and never shortens
    a text, and it is not idempotent: escaping a text a second time
    changes it exactly when the text contains one of the five special
    characters. *)
Theorem X_escapeHtml_twice (s t : string) :
  escapeHtml (s ++ t) = escapeHtml s ++ escapeHtml t
  /\ String.length s <= String.length (escapeHtml s)
  /\ (escapeHtml (escapeHtml s) = escapeHtml s <-> free_of_specials s = true).
Proof.
  split; [apply escapeHtml_app|].
  split; [rewrite escapeHtml_flat_map; apply length_flat_map_entity|].
  split.
  - intros E. destruct (free_of_specials s) eqn:F; [reflexivity|].
    exfalso. rewrite !escapeHtml_flat_map in E.
    pose proof (proj2 (length_flat_map_entity (flat_map_string html_entity s))
                  (escaped_special_stays s F)) as L.
    rewrite E in L. lia.
  - intros F. rewrite !escapeHtml_flat_map, !(flat_map_entity_free s F). reflexivity.
Qed.

End EscapedTextFacts.

(** ** Rendered tags cannot be broken out of *)

Section MetaTagSafety.
Import JS Escaping Text Seo.

Lemma count_char_join (c : ascii) (sep : string) (l : list string) :
  count_char c sep = 0 ->
  count_char c (join sep l) = list_sum (map (count_char c) l).
Proof.
  intros Hsep. induction l as [|x l IH]; [reflexivity|].
  rewrite join_cons. destruct l as [|y l].
  - simpl. lia.
  - rewrite !count_char_app, Hsep, IH. simpl. lia.
Qed.

Lemma count_char_meta_name (c : ascii) (name content : string) :
  count_char c (meta_name name content)
  = count_char c (meta_name "" "") + count_char c name + count_char c content.
Proof.
  unfold meta_name, quoted. rewrite !count_char_app. simpl. lia.
Qed.

Lemma count_char_meta_property (c : ascii) (property content : string) :
  count_char c (meta_property property content)
  = count_char c (meta_property "" "") + count_char c property + count_char c content.
Proof.
  unfold meta_property, quoted. rewrite !count_char_app. simpl. lia.
Qed.

Lemma count_char_title_tag (c : ascii) (seo : SEOData.t) :
  count_char c (title_tag seo)
  = count_char c "<title></title>" + count_char c (escapeHtml (SEOData.title seo)).
Proof.
  unfold title_tag. rewrite !count_char_app. simpl. lia.
Qed.

Lemma count_char_free (c : ascii) (s : string) :
  is_special c = true -> free_of_specials s = true -> count_char c s = 0.
Proof.
  intros Hc. induction s as [|a s IH]; [reflexivity|].
  cbn [free_of_specials count_char]. intros H.
  apply andb_prop in H. destruct H as [Ha Hs]. rewrite (IH Hs).
  destruct (Ascii.eqb a c) eqn:E; [|reflexivity].
  apply Ascii.eqb_eq in E. subst a. rewrite Hc in Ha. discriminate.
Qed.

(** The sum of the counts over the tags, for a delimiter [c] that the
    fixed parts of a meta tag hold [k] times, the title tag [2 * k'] times
    and no escaped text holds. *)
Lemma count_tags (c : ascii) (seo : SEOData.t) (k : nat) :
  (forall s, count_char c (escapeHtml s) = 0) ->
  count_char c (or_default (SEOData.type seo) "website") = 0 ->
  count_char c (meta_name "" "") = k ->
  count_char c (meta_property "" "") = k ->
  count_char c "descriptionkeywordsog:titleog:descriptionog:typeog:urlog:image" = 0 ->
  count_char c "twitter:cardsummary_large_imagetwitter:imagetwitter:titletwitter:description" = 0 ->
  list_sum (map (count_char c) (tags_array seo))
  = count_char c "<title></title>" + k * (length (tags_array seo) - 1).
Proof.
  intros Hesc Htype Hn Hp Hk1 Hk2.
  assert (Hname : forall n x, count_char c n = 0 ->
                              count_char c (meta_name n (escapeHtml x)) = k)
    by (intros n x H0; rewrite count_char_meta_name, Hn, H0, Hesc; lia).
  assert (Hprop : forall n x, count_char c n = 0 ->
                              count_char c (meta_property n (escapeHtml x)) = k)
    by (intros n x H0; rewrite count_char_meta_property, Hp, H0, Hesc; lia).
  assert (Z : forall n, In n ["description"; "keywords"; "og:title"; "og:description";
                              "og:type"; "og:url"; "og:image"; "twitter:card";
                              "summary_large_image"; "twitter:image"; "twitter:title";
                              "twitter:description"] -> count_char c n = 0).
  { intros n Hin.
    assert (A : forall a b, count_char c (a ++ b) = 0 -> count_char c a = 0
                                                          /\ count_char c b = 0)
      by (intros a b H; rewrite count_char_app in H; lia).
    change "descriptionkeywordsog:titleog:descriptionog:typeog:urlog:image"
      with ("description" ++ "keywords" ++ "og:title" ++ "og:description" ++ "og:type"
            ++ "og:url" ++ "og:image") in Hk1.
    change "twitter:cardsummary_large_imagetwitter:imagetwitter:titletwitter:description"
      with ("twitter:card" ++ "summary_large_image" ++ "twitter:image" ++ "twitter:title"
            ++ "twitter:description") in Hk2.
    repeat match goal with
           | H : count_char c (_ ++ _) = 0 |- _ => apply A in H; destruct H
           end.
    simpl in Hin. intuition (subst; assumption). }
  assert (Hcard : count_char c (meta_name "twitter:card" "summary_large_image") = k)
    by (rewrite count_char_meta_name, Hn, !Z by (simpl; tauto); lia).
  assert (Htyp : count_char c (meta_property "og:type"
                                 (or_default (SEOData.type seo) "website")) = k)
    by (rewrite count_char_meta_property, Hp, Htype, Z by (simpl; tauto); lia).
  unfold tags_array, push.
  destruct (SEOData.keywords seo) as [[|k0 ks]|];
    destruct (SEOData.url seo) as [[|u us]|];
    destruct (SEOData.image seo) as [[|i is_]|];
    cbn [app map list_sum length fold_right];
    rewrite ?count_char_title_tag, ?Hesc, ?Hcard, ?Htyp;
    rewrite ?Hname by (apply Z; simpl; tauto);
    rewrite ?Hprop by (apply Z; simpl; tauto);
    cbn [Nat.sub]; lia.
Qed.

(** X4.  When [seo.type] holds none of the five special characters (it is the
    one field the renderer embeds without escaping), the text of
    [generateMetaTags] has one less-than sign and one greater-than sign
    per meta tag and two for the title element, and four double quotes
    per meta tag: escaped content opens no tag and closes no attribute. *)
Theorem X_generateMetaTags_delimiters (seo : SEOData.t) :
  free_of_specials (or_default (SEOData.type seo) "website") = true ->
  count_char "<" (generateMetaTags seo) = S (length (tags_array seo))
  /\ count_char ">" (generateMetaTags seo) = S (length (tags_array seo))
  /\ count_char DQUOTE (generateMetaTags seo) = 4 * (length (tags_array seo) - 1)
  /\ 7 <= length (tags_array seo).
Proof.
  intros Hfree.
  assert (L : 7 <= length (tags_array seo)).
  { unfold tags_array, push.
    destruct (SEOData.keywords seo) as [[|k0 ks]|];
      destruct (SEOData.url seo) as [[|u us]|];
      destruct (SEOData.image seo) as [[|i is_]|]; simpl; lia. }
  unfold generateMetaTags.
  rewrite !count_char_join by reflexivity.
  rewrite (count_tags "<" seo 1), (count_tags ">" seo 1), (count_tags DQUOTE seo 4);
    try reflexivity;
    try (apply count_char_free; [reflexivity | exact Hfree]);
    auto using count_lt_escapeHtml, count_gt_escapeHtml, count_dq_escapeHtml.
  repeat split; simpl count_char; lia.
Qed.

Lemma generateSEO_type data site type baseUrl breadcrumbs :
  SEOData.type (generateSEO data site type baseUrl breadcrumbs) = Some "website"
  \/ SEOData.type (generateSEO data site type baseUrl breadcrumbs) = Some "article".
Proof.
  unfold generateSEO.
  destruct (Kind_eqb _ kind_page && Data.has_title data);
    destruct type as [[|]|]; simpl; auto.
Qed.

(** X5.  The deriver and the renderer together: whatever the page, the site
    settings and the base URL hold, the tags rendered from the result of
    [generateSEO] have exactly the delimiters of their fixed parts. *)
Theorem X_generateSEO_then_generateMetaTags_delimiters
    (data : Data.t) (site : SiteSettings.t) (type : option Kind)
    (baseUrl : option string) (breadcrumbs : option (list Breadcrumb.t)) :
  let seo := generateSEO data site type baseUrl breadcrumbs in
  count_char "<" (generateMetaTags seo) = S (length (tags_array seo))
  /\ count_char ">" (generateMetaTags seo) = S (length (tags_array seo))
  /\ count_char DQUOTE (generateMetaTags seo) = 4 * (length (tags_array seo) - 1).
Proof.
  intros seo.
  assert (Hfree : free_of_specials (or_default (SEOData.type seo) "website") = true)
    by (destruct (generateSEO_type data site type baseUrl breadcrumbs) as [E|E];
        subst seo; rewrite E; reflexivity).
  unfold generateMetaTags.
  rewrite !count_char_join by reflexivity.
  rewrite (count_tags "<" seo 1), (count_tags ">" seo 1), (count_tags DQUOTE seo 4);
    try reflexivity;
    try (apply count_char_free; [reflexivity | exact Hfree]);
    auto using count_lt_escapeHtml, count_gt_escapeHtml, count_dq_escapeHtml.
  assert (L : 7 <= length (tags_array seo)).
  { unfold tags_array, push.
    destruct (SEOData.keywords seo) as [[|k0 ks]|];
      destruct (SEOData.url seo) as [[|u us]|];
      destruct (SEOData.image seo) as [[|i is_]|]; simpl; lia. }
  repeat split; simpl count_char; lia.
Qed.

End MetaTagSafety.

Lemma X_generateMetaTags_delimiters_witness :
  Text.count_char "<"
    (Seo.generateMetaTags
       (SEOData.mk "A <b> title" "Tom & Jerry" (Some "x, y") None
                   (Some "https://acme.test/?a=1&b=2") (Some "article") None))
  = 10.
Proof.
  exact (proj1 (X_generateMetaTags_delimiters
                  (SEOData.mk "A <b> title" "Tom & Jerry" (Some "x, y") None
                     (Some "https://acme.test/?a=1&b=2") (Some "article") None)
                  eq_refl)).
Defined.

(** ** The sitemap text and [robots.txt] *)

Section SitemapTextFacts.
Import JS Text Sitemap SitemapText.

Variable Number_toString : number -> string.

Lemma concat_blocks_app (a : string) (l : list string) :
  fold_left (fun acc b => acc ++ b) l a = a ++ String.concat "" l.
Proof.
  revert a. induction l as [|b l IH]; intros a; simpl.
  - now rewrite string_app_nil_r.
  - rewrite IH, string_app_assoc. destruct l; [now rewrite string_app_nil_r|reflexivity].
Qed.

Lemma fold_left_pointwise {A B : Type} (f g : B -> A -> B) (l : list A) (b : B) :
  (forall acc x, f acc x = g acc x) -> fold_left f l b = fold_left g l b.
Proof.
  intros H. revert b. induction l as [|x l IH]; intros b; simpl; [reflexivity|].
  now rewrite H, IH.
Qed.

Lemma fold_left_map {A B C : Type} (f : C -> B -> C) (g : A -> B) (l : list A) (c : C) :
  fold_left (fun acc x => f acc (g x)) l c = fold_left f (map g l) c.
Proof. revert c. induction l as [|x l IH]; intros c; simpl; auto. Qed.

(** X6.  [generateSitemapXML] writes the two header lines, then the six lines
    of each entry in the order of the list, whatever the entries are
    (equal entries are written again), then the closing tag; on the empty
    list the text is the header and the closing tag. *)
Theorem X_generateSitemapXML_one_block_per_entry (urls urls' : list SitemapUrl.t) :
  generateSitemapXML Number_toString urls
  = xml_header ++ String.concat "" (map (url_block Number_toString) urls) ++ "</urlset>"
  /\ generateSitemapXML Number_toString [] = xml_header ++ "</urlset>"
  /\ String.concat "" (map (url_block Number_toString) (urls ++ urls'))
     = String.concat "" (map (url_block Number_toString) urls)
       ++ String.concat "" (map (url_block Number_toString) urls').
Proof.
  assert (E : forall us, generateSitemapXML Number_toString us
                         = xml_header
                           ++ String.concat "" (map (url_block Number_toString) us)
                           ++ "</urlset>").
  { intros us. unfold generateSitemapXML.
    rewrite (fold_left_pointwise _ (fun acc url => acc ++ url_block Number_toString url)).
    - rewrite (fold_left_map (fun acc b => acc ++ b) (url_block Number_toString)).
      rewrite concat_blocks_app. unfold xml_header.
      rewrite !string_app_assoc. reflexivity.
    - intros acc url. unfold url_block. rewrite !string_app_assoc. reflexivity. }
  split; [apply E|]. split; [apply E|].
  rewrite map_app. generalize (map (url_block Number_toString) urls') as l'.
  induction (map (url_block Number_toString) urls) as [|b l IH]; intros l'; [reflexivity|].
  cbn [app]. destruct l as [|b' l].
  - cbn [app String.concat]. destruct l'; [now rewrite string_app_nil_r | reflexivity].
  - specialize (IH l'). cbn [app] in IH |- *.
    change (String.concat "" (b :: b' :: ?t)) with (b ++ "" ++ String.concat "" (b' :: t)).
    rewrite IH. cbn [append]. now rewrite string_app_assoc.
Qed.

Lemma lines_no_LF (s : string) :
  count_char LF s = 0 -> lines s = [s].
Proof.
  induction s as [|a s IH]; [reflexivity|].
  cbn [count_char lines]. destruct (Ascii.eqb a LF); [discriminate|].
  intros H. now rewrite (IH H).
Qed.

Lemma lines_line (s t : string) :
  count_char LF s = 0 -> lines (s ++ String LF t) = s :: lines t.
Proof.
  induction s as [|a s IH]; [reflexivity|].
  cbn [count_char lines append]. destruct (Ascii.eqb a LF); [discriminate|].
  intros H. now rewrite (IH H).
Qed.

End SitemapTextFacts.

Section RobotsFacts.
Import JS Text Sitemap SitemapText.

(** X7.  For a base URL without a line feed, the lines of [generateRobotsTxt]
    are the fourteen fixed lines (every crawler allowed at the root, the
    five disallowed directories), then the sitemap reference built from
    the base URL, and the text ends with a line feed. *)
Theorem X_generateRobotsTxt_lines (baseUrl : string) :
  count_char LF baseUrl = 0 ->
  lines (generateRobotsTxt baseUrl)
  = (robots_fixed_lines
     ++ [ ("Sitemap: " ++ baseUrl ++ "/sitemap.xml")%string; "" ])%list.
Proof.
  intros H.
  assert (E : lines (baseUrl ++ "/sitemap.xml" ++ String LF "")
              = [ baseUrl ++ "/sitemap.xml"; "" ]).
  { rewrite <- string_app_assoc.
    rewrite lines_line by (rewrite count_char_app, H; reflexivity). reflexivity. }
  unfold generateRobotsTxt, nl.
  rewrite !string_app_assoc. cbn in E |- *. rewrite E. reflexivity.
Qed.

End RobotsFacts.

Lemma X_generateRobotsTxt_lines_witness :
  In "Disallow: /admin/" (Text.lines (Sitemap.generateRobotsTxt "https://x.com"))
  /\ In "Sitemap: https://x.com/sitemap.xml"
        (Text.lines (Sitemap.generateRobotsTxt "https://x.com")).
Proof.
  rewrite (X_generateRobotsTxt_lines "https://x.com" eq_refl).
  split; simpl; tauto.
Defined.

(** ** The sitemap entries: what does not count *)

Section SitemapMoreFacts.
Import JS Sitemap.

Variable Date_parse : string -> option Z.
Variable Date_format : Z -> string.

Local Abbreviation generateSitemapUrls := (Sitemap.generateSitemapUrls Date_parse Date_format).
Local Abbreviation homepage_entries := (Sitemap.homepage_entries Date_format).
Local Abbreviation eligible_entry := (Sitemap.eligible_entry Date_parse Date_format).

Lemma filter_filter {A : Type} (f : A -> bool) (l : list A) :
  filter f (filter f l) = filter f l.
Proof.
  induction l as [|x l IH]; [reflexivity|]. simpl.
  destruct (f x) eqn:E; simpl; [rewrite E, IH|]; auto.
Qed.

(** X8.  Pages that are not eligible have no influence on the sitemap
    entries, not even through a malformed date: the call on a list and
    the call on its eligible pages have the same outcome.  The site
    settings argument has no influence either. *)
Theorem X_generateSitemapUrls_ignores_ineligible_pages
    (clock : Z) (pages : list Page.t) (site site' : SiteSettings.t)
    (config : option SitemapConfig.t) :
  generateSitemapUrls clock pages site config
  = generateSitemapUrls clock (filter shouldIncludePage pages) site' config.
Proof.
  rewrite !(generateSitemapUrls_eq Date_parse Date_format), filter_filter. reflexivity.
Qed.

Lemma traverse_map {A B : Type} (f : A -> completion B) (g : A -> B) (xs : list A) :
  (forall x, In x xs -> f x = Normal (g x)) -> traverse f xs = Normal (map g xs).
Proof.
  induction xs as [|x xs IH]; intros H; [reflexivity|]. simpl.
  rewrite (H x (or_introl eq_refl)), IH; [reflexivity|].
  intros y Hy. apply H. now right.
Qed.

(** X9.  Where [Date] reads its own ISO text of the clock reading back (as it
    does), eligible pages that carry neither an [updatedAt] nor a
    [publishedDate] never make the call throw: each gets an entry whose
    [lastmod] is the time of the call, the same text as the homepage
    entry. *)
Theorem X_generateSitemapUrls_undated_pages
    (clock : Z) (pages : list Page.t) (site : SiteSettings.t)
    (config : option SitemapConfig.t) :
  Date_parse (Date_format clock) = Some clock ->
  (forall page, In page pages -> shouldIncludePage page = true ->
     truthy (or_else (Some (Page.updatedAt page)) (Page.publishedDate page)) = false) ->
  generateSitemapUrls clock pages site config
  = Normal (homepage_entries clock config
            ++ map (fun page => page_entry config page (Date_format clock))
                   (filter shouldIncludePage pages))%list.
Proof.
  intros Hnow Hund.
  rewrite (generateSitemapUrls_eq Date_parse Date_format).
  rewrite (traverse_map _ (fun page => page_entry config page (Date_format clock)));
    [reflexivity|].
  intros page Hin. apply filter_In in Hin. destruct Hin as [Hin He].
  specialize (Hund page Hin He).
  unfold Sitemap.eligible_entry, Sitemap.page_lastmod_source, Sitemap.Date_toISOString.
  destruct (or_else _ _) as [[|a t]|]; simpl in *; try discriminate;
    rewrite Hnow; reflexivity.
Qed.

End SitemapMoreFacts.

Lemma X_generateSitemapUrls_undated_pages_witness :
  exists entry,
    Sitemap.generateSitemapUrls IsoDate.parse IsoDate.format Examples.clock_2024
      [Examples2.page_undated] Examples.site_acme (Some Examples.config_no_homepage)
    = Normal [entry]
    /\ SitemapUrl.lastmod entry = "2024-01-15T10:30:00.000Z".
Proof.
  eexists. split.
  - apply (X_generateSitemapUrls_undated_pages IsoDate.parse IsoDate.format
             Examples.clock_2024 [Examples2.page_undated] Examples.site_acme
             (Some Examples.config_no_homepage)).
    + vm_compute. reflexivity.
    + intros page [<-|[]] _. reflexivity.
  - vm_compute. reflexivity.
Defined.

(** ** The standalone schema builders *)

Section SchemaFacts.
Import JS JSON StructuredData Schemas.

(** The question object of one FAQ item. *)
Lemma generateFAQSchema_eq (faqs : list FAQItem.t) :
  exists items,
    generateFAQSchema faqs
    = VObj [ ("@context", VStr "https://schema.org");
             ("@type", VStr "FAQPage");
             ("mainEntity", VArr items) ]
    /\ length items = length faqs
    /\ forallb wf items = true
    /\ map clean items = items
    /\ forall index faq,
         nth_error faqs index = Some faq ->
         nth_error items index
         = Some (VObj [
             ("@type", VStr "Question");
             ("name", VStr (FAQItem.question faq));
             ("acceptedAnswer", VObj [
               ("@type", VStr "Answer");
               ("text", VStr (FAQItem.answer faq)) ]) ]).
Proof.
  eexists. split; [reflexivity|].
  split; [apply length_map|].
  split; [induction faqs as [|f fs IH]; [reflexivity | cbn [map forallb]; now rewrite IH]|].
  split; [induction faqs as [|f fs IH]; [reflexivity | cbn [map]; now rewrite IH]|].
  intros index faq H. rewrite nth_error_map, H. reflexivity.
Qed.

(** X10.  [generateFAQSchema] returns a [FAQPage] whose [mainEntity] has one
    [Question] per item, in the order given, each with its question as
    [name] and its answer as the text of the accepted [Answer]; the
    object holds no [undefined], so [JSON.stringify] and [JSON.parse]
    give it back whole. *)
Theorem X_generateFAQSchema_questions_in_order (faqs : list FAQItem.t) :
  parse (serialize "" (generateFAQSchema faqs)) = Some (generateFAQSchema faqs)
  /\ get "@type" (generateFAQSchema faqs) = Some (VStr "FAQPage")
  /\ exists items,
       get "mainEntity" (generateFAQSchema faqs) = Some (VArr items)
       /\ length items = length faqs
       /\ forall index faq,
            nth_error faqs index = Some faq ->
            nth_error items index
            = Some (VObj [
                ("@type", VStr "Question");
                ("name", VStr (FAQItem.question faq));
                ("acceptedAnswer", VObj [
                  ("@type", VStr "Answer");
                  ("text", VStr (FAQItem.answer faq)) ]) ]).
Proof.
  destruct (generateFAQSchema_eq faqs) as (items & E & Hl & Hwf & Hc & Hn).
  rewrite E. split.
  - rewrite parse_serialize.
    + cbn [clean]. now rewrite Hc.
    + cbn [wf map fst distinct existsb]. rewrite Hwf. reflexivity.
  - split; [reflexivity|]. exists items. auto.
Qed.

(** X11.  [generateLocalBusinessSchema] returns [null] exactly when the site
    has no contact address (absent or empty).  Otherwise it returns a
    [LocalBusiness] object for the base URL whose [address] is a
    [PostalAddress] with that street address, with a [telephone] and an
    [email] exactly when the site has them, and the object survives
    [JSON.stringify] and [JSON.parse] whole. *)
Theorem X_generateLocalBusinessSchema_needs_address
    (baseUrl : string) (site : SiteSettings.t) :
  (generateLocalBusinessSchema baseUrl site = None
   <-> truthy (address_of site) = false)
  /\ forall schema,
       generateLocalBusinessSchema baseUrl site = Some schema ->
       get "@type" schema = Some (VStr "LocalBusiness")
       /\ get "url" schema = Some (VStr baseUrl)
       /\ (exists address,
             address_of site = Some address
             /\ get "address" schema
                = Some (VObj [ ("@type", VStr "PostalAddress");
                               ("streetAddress", VStr address) ]))
       /\ (forall contactInfo,
             SiteSettings.contactInfo site = Some contactInfo ->
             get "telephone" schema
             = (if truthy (ContactInfo.phone contactInfo)
                then option_map VStr (ContactInfo.phone contactInfo) else None)
             /\ get "email" schema
                = (if truthy (ContactInfo.email contactInfo)
                   then option_map VStr (ContactInfo.email contactInfo) else None))
       /\ parse (serialize "" schema) = Some schema.
Proof.
  unfold generateLocalBusinessSchema, address_of.
  destruct site as [name desc logo social contact].
  cbn [SiteSettings.contactInfo SiteSettings.siteName SiteSettings.siteDescription
       SiteSettings.logo opt_chain].
  destruct contact as [[email phone [[|a t]|]]|]; cbn [ContactInfo.address ContactInfo.phone
    ContactInfo.email truthy];
    try (split; [split; [reflexivity | reflexivity] | intros schema H; discriminate H]).
  split; [split; intros H; discriminate H|].
  intros schema H. injection H as <-.
  destruct logo as [logo|], phone as [[|p ps]|], email as [[|e es]|];
    cbn -[or_default parse serialize];
    (split; [reflexivity|]); (split; [reflexivity|]);
    (split; [eexists; split; reflexivity|]);
    (split; [intros c Hc; injection Hc as <-; split; reflexivity|]);
    apply parse_serialize; reflexivity.
Qed.

Lemma X_generateLocalBusinessSchema_needs_address_witness :
  generateLocalBusinessSchema "https://acme.test" Examples.site_acme = None.
Proof.
  apply (proj1 (X_generateLocalBusinessSchema_needs_address "https://acme.test"
                  Examples.site_acme)).
  reflexivity.
Defined.

End SchemaFacts.

(** ** The structured data of a page and its SEO data *)

Section StructuredDataMoreFacts.
Import JS JSON StructuredData Seo.

Lemma type_of_website baseUrl site :
  get "@type" (clean (generateWebsiteSchema baseUrl site)) = Some (VStr "WebSite").
Proof. reflexivity. Qed.

Lemma type_of_article baseUrl site page :
  get "@type" (clean (generateArticleSchema baseUrl site page)) = Some (VStr "Article").
Proof. reflexivity. Qed.

Lemma type_of_breadcrumbs baseUrl crumbs :
  get "@type" (clean (generateBreadcrumbSchema baseUrl crumbs))
  = Some (VStr "BreadcrumbList").
Proof. reflexivity. Qed.

(** X12.  The text of [generateStructuredData] parses to an array of one, two
    or three objects: the [WebSite] first, then an [Article] exactly when
    a page is given, then a [BreadcrumbList] exactly when [breadcrumbs]
    is given and not empty. *)
Theorem X_generateStructuredData_elements (config : StructuredDataConfig.t) :
  exists items,
    parse (generateStructuredData config) = Some (VArr items)
    /\ map (get "@type") items
       = ([ Some (VStr "WebSite") ]
          ++ match StructuredDataConfig.page config with
             | Some _ => [ Some (VStr "Article") ]
             | None => []
             end
          ++ match StructuredDataConfig.breadcrumbs config with
             | Some (_ :: _) => [ Some (VStr "BreadcrumbList") ]
             | _ => []
             end)%list.
Proof.
  rewrite parse_generateStructuredData, structuredData_array_eq.
  eexists. split; [reflexivity|].
  destruct (StructuredDataConfig.page config) as [page|],
    (StructuredDataConfig.breadcrumbs config) as [[|c cs]|]; reflexivity.
Qed.

Lemma generateSEO_structuredData data site type baseUrl breadcrumbs :
  SEOData.structuredData (generateSEO data site type baseUrl breadcrumbs)
  = match baseUrl with
    | Some (String a t) =>
        Some (generateStructuredData
                {| StructuredDataConfig.baseUrl := String a t;
                   StructuredDataConfig.siteSettings := site;
                   StructuredDataConfig.page :=
                     if Kind_eqb (match type with Some k => k | None => kind_home end)
                                 kind_page
                     then Some data else None;
                   StructuredDataConfig.breadcrumbs := breadcrumbs |})
    | _ => None
    end.
Proof.
  unfold generateSEO.
  destruct (Kind_eqb _ kind_page && Data.has_title data); reflexivity.
Qed.

Lemma generateSEO_url data site type baseUrl breadcrumbs :
  SEOData.url (generateSEO data site type baseUrl breadcrumbs)
  = if Kind_eqb (match type with Some k => k | None => kind_home end) kind_page
       && Data.has_slug data
    then Some (interpolate baseUrl ++ "/pages/" ++ interpolate (Data.slug data))
    else baseUrl.
Proof.
  unfold generateSEO.
  destruct (Kind_eqb _ kind_page && Data.has_title data); reflexivity.
Qed.



(** X14.  The [Article] of a page agrees with the SEO data of the page: for a
    page, type [page] and a non-empty base URL, the structured data
    attached by [generateSEO] parses to an array whose second element is
    an [Article] with the page title as [headline], the description of
    the SEO data as [description] and the url of the SEO data as [url]
    and as the [@id] of [mainEntityOfPage]. *)
Theorem X_generateSEO_page_article_agrees
    (page : Page.t) (site : SiteSettings.t) (baseUrl : string)
    (breadcrumbs : option (list Breadcrumb.t)) :
  baseUrl <> "" ->
  let seo := generateSEO (Data.OfPage page) site (Some kind_page) (Some baseUrl)
                         breadcrumbs in
  exists text website article rest url,
    SEOData.structuredData seo = Some text
    /\ parse text = Some (VArr (website :: article :: rest))
    /\ SEOData.url seo = Some url
    /\ get "@type" article = Some (VStr "Article")
    /\ get "headline" article = Some (VStr (Page.title page))
    /\ get "description" article = Some (VStr (SEOData.description seo))
    /\ get "url" article = Some (VStr url)
    /\ get "mainEntityOfPage" article
       = Some (VObj [ ("@type", VStr "WebPage"); ("@id", VStr url) ]).
Proof.
  intros Hb seo. subst seo.
  rewrite generateSEO_structuredData, generateSEO_description, generateSEO_url.
  destruct baseUrl as [|a t]; [contradiction|].
  cbn [Kind_eqb Data.has_title Data.has_slug andb].
  do 5 eexists. split; [reflexivity|].
  rewrite parse_generateStructuredData, structuredData_array_eq.
  cbn [map app StructuredDataConfig.baseUrl StructuredDataConfig.siteSettings
       StructuredDataConfig.page].
  split; [reflexivity|]. split; [reflexivity|]. split; [reflexivity|].
  split; [reflexivity|].
  split; [|split; [reflexivity|];
           destruct (Page.publishedDate page) as [[|p ps]|] eqn:Ep;
           unfold generateArticleSchema; cbn [Data.publishedDate]; rewrite Ep;
           reflexivity].
  unfold generateArticleSchema. cbn [Data.seo Data.excerpt Data.title].
  destruct (opt_chain (Page.seo page) SEOFields.description) as [[|c cs]|],
    (Page.excerpt page) as [[|e es]|],
    (SiteSettings.siteDescription site) as [[|d ds]|]; reflexivity.
Qed.

Lemma X_generateSEO_page_article_agrees_witness :
  exists text website article rest,
    SEOData.structuredData
      (generateSEO (Data.OfPage Examples.page_about) Examples.site_acme (Some kind_page)
                   (Some "https://acme.test") None)
    = Some text
    /\ parse text = Some (VArr (website :: article :: rest))
    /\ get "url" article = Some (VStr "https://acme.test/pages/about")
    /\ get "description" article = Some (VStr "desc").
Proof.
  destruct (X_generateSEO_page_article_agrees Examples.page_about Examples.site_acme
              "https://acme.test" None ltac:(discriminate))
    as (text & website & article & rest & url & Ht & Hp & Hu & _ & _ & Hd & Hurl & _).
  exists text, website, article, rest.
  split; [exact Ht|]. split; [exact Hp|].
  injection Hu as <-. split; [exact Hurl | exact Hd].
Defined.

(** X15.  A [SiteSettings] object passed as [data] with type [page] is taken
    for the page of the structured data: the SEO data keep the site
    title and the bare base URL, and the attached [Article] has no
    [headline], no [datePublished], no [dateModified], and the url
    [{baseUrl}/pages/undefined]. *)
Theorem X_generateSEO_siteSettings_as_page
    (data site : SiteSettings.t) (baseUrl : string)
    (breadcrumbs : option (list Breadcrumb.t)) :
  baseUrl <> "" ->
  let seo := generateSEO (Data.OfSiteSettings data) site (Some kind_page) (Some baseUrl)
                         breadcrumbs in
  SEOData.title seo = or_default (SiteSettings.siteName site) "Website"
  /\ SEOData.url seo = Some baseUrl
  /\ SEOData.type seo = Some "article"
  /\ exists text website article rest,
       SEOData.structuredData seo = Some text
       /\ parse text = Some (VArr (website :: article :: rest))
       /\ get "@type" article = Some (VStr "Article")
       /\ get "headline" article = None
       /\ get "datePublished" article = None
       /\ get "dateModified" article = None
       /\ get "url" article = Some (VStr (baseUrl ++ "/pages/undefined")).
Proof.
  intros Hb seo. subst seo.
  rewrite generateSEO_structuredData, generateSEO_title, generateSEO_url.
  destruct baseUrl as [|a t]; [contradiction|].
  cbn [Kind_eqb Data.has_title Data.has_slug andb].
  split; [destruct (SiteSettings.siteName site) as [[|n ns]|]; reflexivity|].
  split; [reflexivity|]. split; [reflexivity|].
  do 4 eexists. split; [reflexivity|].
  rewrite parse_generateStructuredData, structuredData_array_eq.
  cbn [map app StructuredDataConfig.baseUrl StructuredDataConfig.siteSettings
       StructuredDataConfig.page].
  repeat split.
Qed.

Lemma X_generateSEO_siteSettings_as_page_witness :
  SEOData.url
    (generateSEO (Data.OfSiteSettings Examples.site_acme) Examples.site_acme
                 (Some kind_page) (Some "https://acme.test") None)
  = Some "https://acme.test".
Proof.
  apply (X_generateSEO_siteSettings_as_page Examples.site_acme Examples.site_acme
           "https://acme.test" None ltac:(discriminate)).
Defined.

End StructuredDataMoreFacts.

(** ** The framework adapters *)

Section AdapterFacts.
Import JS JSON Escaping Seo StructuredData Adapters.

Lemma generateSEO_home_ignores_data (d d' : Data.t) (site : SiteSettings.t)
    (baseUrl : option string) (breadcrumbs : option (list Breadcrumb.t)) :
  generateSEO d site (Some kind_home) baseUrl breadcrumbs
  = generateSEO d' site (Some kind_home) baseUrl breadcrumbs.
Proof. reflexivity. Qed.

(** X16.  In home mode the first argument of [generateSEO] is not looked at:
    with type [home], or no type, any two [data] give the same SEO data,
    structured data included.  So through the adapters a page passed
    without [type: 'page'] changes nothing: [generateSEOData], [useSEO]
    and [generateMetadata] return what they return without the page. *)
Theorem X_home_mode_ignores_the_page
    (d d' : Data.t) (site : SiteSettings.t) (baseUrl : option string)
    (breadcrumbs : option (list Breadcrumb.t))
    (page : Page.t) (overrides : option SEOOverrides.t)
    (props : option (list (string * value))) :
  generateSEO d site (Some kind_home) baseUrl breadcrumbs
  = generateSEO d' site (Some kind_home) baseUrl breadcrumbs
  /\ generateSEO d site None baseUrl breadcrumbs
     = generateSEO d' site None baseUrl breadcrumbs
  /\ generateSEOData (SEOOptions.mk site (Some page) baseUrl breadcrumbs None overrides)
     = generateSEOData (SEOOptions.mk site None baseUrl breadcrumbs None overrides)
  /\ UseSEOReturn.seo
       (useSEO (SEOOptions.mk site (Some page) baseUrl breadcrumbs None overrides))
     = UseSEOReturn.seo
         (useSEO (SEOOptions.mk site None baseUrl breadcrumbs None overrides))
  /\ generateMetadata
       (NextJSMetadataOptions.mk site (Some page) baseUrl breadcrumbs None props)
     = generateMetadata
         (NextJSMetadataOptions.mk site None baseUrl breadcrumbs None props)
  /\ generateStructuredDataScript
       (NextJSMetadataOptions.mk site (Some page) baseUrl breadcrumbs None props)
     = generateStructuredDataScript
         (NextJSMetadataOptions.mk site None baseUrl breadcrumbs None props).
Proof. repeat split. Qed.

Lemma spread_empty (seo : SEOData.t) : spread seo SEOOverrides.empty = seo.
Proof. destruct seo; reflexivity. Qed.

Lemma spread_spread (seo : SEOData.t) (u1 u2 : SEOOverrides.t) :
  spread (spread seo u1) u2 = spread seo (spread_partial u1 u2).
Proof.
  destruct u1 as [t1 d1 k1 i1 l1 y1 s1], u2 as [t2 d2 k2 i2 l2 y2 s2].
  unfold spread, spread_partial; cbn.
  destruct t2, d2, k2, i2, l2, y2, s2; reflexivity.
Qed.

Lemma spread_partial_empty_l (u : SEOOverrides.t) :
  spread_partial SEOOverrides.empty u = u.
Proof.
  destruct u as [t d k i l y s]. unfold spread_partial; cbn.
  destruct t, d, k, i, l, y, s; reflexivity.
Qed.

(** X17.  The React hook and the SvelteKit helper return the same SEO data:
    what [generateSEO] derives, with every key present in [overrides]
    replaced, an optional key present and [undefined] erasing the
    derived value.  The meta tags of the hook are rendered from the
    merged data, so an overridden title is the title element, escaped;
    and [updateSEO] of the hook returns the merged data with the update
    on top, leaving the hook's data as they are. *)
Theorem X_useSEO_overrides_win (options : SEOOptions.t) (updates : SEOOverrides.t) :
  let generated :=
    generateSEO (page_or_siteSettings (SEOOptions.page options)
                                      (SEOOptions.siteSettings options))
                (SEOOptions.siteSettings options)
                (Some (match SEOOptions.type options with
                       | Some k => k | None => kind_home end))
                (SEOOptions.baseUrl options) (SEOOptions.breadcrumbs options) in
  let hook := useSEO options in
  UseSEOReturn.seo hook = generateSEOData options
  /\ (SEOOptions.overrides options = None -> UseSEOReturn.seo hook = generated)
  /\ (forall o, SEOOptions.overrides options = Some o ->
        UseSEOReturn.seo hook = spread generated o
        /\ (forall t, SEOOverrides.title o = Some t ->
              exists rest,
                UseSEOReturn.metaTags hook
                = "<title>" ++ escapeHtml t ++ "</title>" ++ rest)
        /\ (SEOOverrides.image o = Some None ->
              UseSEOReturn.image hook = None
              /\ length (tags_array (UseSEOReturn.seo hook)) <= 9))
  /\ UseSEOReturn.metaTags hook = generateMetaTags (UseSEOReturn.seo hook)
  /\ UseSEOReturn.metaTags hook = generateSvelteKitMetaTags (generateSEOData options)
  /\ UseSEOReturn.updateSEO hook updates = spread (UseSEOReturn.seo hook) updates.
Proof.
  cbv zeta. unfold useSEO, generateSEOData, generateSvelteKitMetaTags.
  cbn [UseSEOReturn.seo UseSEOReturn.metaTags UseSEOReturn.updateSEO UseSEOReturn.image].
  split; [reflexivity|].
  split; [intros ->; apply spread_empty|].
  split; [|repeat split].
  intros o ->. split; [reflexivity|]. split.
  - intros t Ht.
    match goal with |- context [generateMetaTags ?x] => set (seo := x) end.
    assert (Et : SEOData.title seo = t)
      by (subst seo; cbn [spread SEOData.title]; rewrite Ht; reflexivity).
    assert (Eh : exists second rest, tags_array seo = title_tag seo :: second :: rest).
    { unfold tags_array, push.
      destruct (SEOData.keywords seo) as [[|k ks]|], (SEOData.url seo) as [[|u us]|],
        (SEOData.image seo) as [[|i i0]|]; cbn [app]; eexists; eexists; reflexivity. }
    destruct Eh as (second & rest & Eh).
    unfold generateMetaTags. rewrite Eh, join_cons_more by discriminate.
    unfold title_tag. rewrite Et, !string_app_assoc. eexists; reflexivity.
  - intros Hi.
    match goal with |- context [tags_array ?x] => set (seo := x) end.
    assert (Ei : SEOData.image seo = None)
      by (subst seo; cbn [spread SEOData.image]; rewrite Hi; reflexivity).
    split; [exact Ei|].
    unfold tags_array, push. rewrite Ei.
    destruct (SEOData.keywords seo) as [[|k ks]|], (SEOData.url seo) as [[|u us]|];
      simpl; lia.
Qed.

Lemma X_useSEO_overrides_win_witness :
  exists rest,
    UseSEOReturn.metaTags
      (useSEO (SEOOptions.mk Examples.site_acme (Some Examples.page_about)
                 (Some "https://acme.test") None (Some kind_page)
                 (Some (SEOOverrides.mk (Some "Q&A") None None None None None None))))
    = "<title>Q&amp;A</title>" ++ rest.
Proof.
  apply (proj1 (proj2 (proj1 (proj2 (proj2
           (X_useSEO_overrides_win
              (SEOOptions.mk Examples.site_acme (Some Examples.page_about)
                 (Some "https://acme.test") None (Some kind_page)
                 (Some (SEOOverrides.mk (Some "Q&A") None None None None None None)))
              SEOOverrides.empty))) _ eq_refl)) "Q&A" eq_refl).
Defined.


(** X19.  [useSEOManager]: before any update the manager renders the options
    it was given, overrides included.  From the first [updateSEO] on, the
    overrides it was given are no longer applied: the data rendered are
    the derived data with the accumulated updates over them, later
    updates over earlier ones. *)
Theorem X_useSEOManager_updates_replace_overrides
    (initialOptions : SEOOptions.t) (u1 u2 : SEOOverrides.t) :
  let generated :=
    generateSEO (page_or_siteSettings (SEOOptions.page initialOptions)
                                      (SEOOptions.siteSettings initialOptions))
                (SEOOptions.siteSettings initialOptions)
                (Some (match SEOOptions.type initialOptions with
                       | Some k => k | None => kind_home end))
                (SEOOptions.baseUrl initialOptions)
                (SEOOptions.breadcrumbs initialOptions) in
  let st0 := SEOManager.init initialOptions in
  UseSEOReturn.seo (SEOManager.render st0) = UseSEOReturn.seo (useSEO initialOptions)
  /\ UseSEOReturn.seo (SEOManager.render (SEOManager.updateSEO u1 st0))
     = spread generated u1
  /\ UseSEOReturn.seo
       (SEOManager.render (SEOManager.updateSEO u2 (SEOManager.updateSEO u1 st0)))
     = spread (spread generated u1) u2.
Proof.
  cbv zeta. unfold SEOManager.render, SEOManager.render_options, SEOManager.updateSEO,
    SEOManager.init, useSEO.
  cbn [SEOManager.seoData SEOManager.options UseSEOReturn.seo SEOOptions.siteSettings
       SEOOptions.page SEOOptions.baseUrl SEOOptions.breadcrumbs SEOOptions.type
       SEOOptions.overrides].
  split; [reflexivity|].
  rewrite !spread_partial_empty_l. split; [reflexivity|].
  now rewrite spread_spread.
Qed.

Lemma get_set_prop_same (k : string) (v : value) (props : list (string * value)) :
  get_prop k (set_prop k v props) = Some v.
Proof.
  induction props as [|[k' v'] props IH]; simpl.
  - now rewrite String.eqb_refl.
  - destruct (String.eqb k k') eqn:E; simpl; rewrite E; [reflexivity | exact IH].
Qed.

Lemma get_set_prop_other (k k' : string) (v : value) (props : list (string * value)) :
  String.eqb k k' = false ->
  get_prop k (set_prop k' v props) = get_prop k props.
Proof.
  intros Hk. induction props as [|[k0 v0] props IH]; simpl.
  - now rewrite Hk.
  - destruct (String.eqb k' k0) eqn:E; simpl.
    + apply String.eqb_eq in E. subst k0. now rewrite Hk.
    + now rewrite IH.
Qed.

Lemma get_spread_props (k : string) (overrides object : list (string * value)) :
  get_prop k (spread_props object overrides)
  = match get_prop k (rev overrides) with
    | Some v => Some v
    | None => get_prop k object
    end.
Proof.
  unfold spread_props. revert object.
  induction overrides as [|[k' v'] overrides IH] using rev_ind; intros object.
  - reflexivity.
  - rewrite fold_left_app, rev_app_distr. cbn [fold_left rev app fst snd get_prop].
    destruct (String.eqb k k') eqn:E.
    + apply String.eqb_eq in E. subst k'. apply get_set_prop_same.
    + rewrite get_set_prop_other by exact E. apply IH.
Qed.

(** X20.  The metadata object of the Next.js adapter.  Without overrides it
    carries the title of [generateSEO], the canonical link is the Open
    Graph url, and both [images] entries are [undefined] exactly when
    the SEO data have no image.  The overrides are spread over the top
    level only: a key of [overrides] reads as its last value there,
    whatever the adapter derived for it, nested entries such as
    [openGraph] being replaced as a whole; any other key reads as
    without overrides. *)
Theorem X_generateMetadata_overrides_are_shallow
    (site : SiteSettings.t) (page : option Page.t) (baseUrl : option string)
    (breadcrumbs : option (list Breadcrumb.t)) (type : option Kind)
    (overrides : list (string * value)) (k : string) :
  let seo :=
    generateSEO (page_or_siteSettings page site) site
                (Some (match type with Some t => t | None => kind_home end))
                baseUrl breadcrumbs in
  let plain :=
    generateMetadata (NextJSMetadataOptions.mk site page baseUrl breadcrumbs type None) in
  let metadata :=
    generateMetadata
      (NextJSMetadataOptions.mk site page baseUrl breadcrumbs type (Some overrides)) in
  get k metadata
  = match get_prop k (rev overrides) with
    | Some v => Some v
    | None => get k plain
    end
  /\ get "title" plain = Some (VStr (SEOData.title seo))
  /\ get "description" plain = Some (VStr (SEOData.description seo))
  /\ get_in ["openGraph"; "url"] plain = Some (VStr_opt (SEOData.url seo))
  /\ get_in ["alternates"; "canonical"] plain = get_in ["openGraph"; "url"] plain
  /\ (get_in ["openGraph"; "images"] plain = Some VUndefined
      <-> truthy (SEOData.image seo) = false)
  /\ (get_in ["twitter"; "images"] plain = Some VUndefined
      <-> truthy (SEOData.image seo) = false)
  /\ (forall v, get_prop "openGraph" (rev overrides) = Some v ->
        get_in ["openGraph"; "url"] metadata = get "url" v).
Proof.
  cbv zeta. unfold generateMetadata.
  cbn [NextJSMetadataOptions.siteSettings NextJSMetadataOptions.page
       NextJSMetadataOptions.baseUrl NextJSMetadataOptions.breadcrumbs
       NextJSMetadataOptions.type NextJSMetadataOptions.overrides].
  set (seo := generateSEO _ _ _ _ _).
  split; [cbn [get]; apply get_spread_props|].
  split; [reflexivity|]. split; [reflexivity|]. split; [reflexivity|].
  split; [reflexivity|].
  split; [|split].
  - cbn. destruct (SEOData.image seo) as [[|a t]|]; cbn; split; intros H;
      try reflexivity; discriminate H.
  - cbn. destruct (SEOData.image seo) as [[|a t]|]; cbn; split; intros H;
      try reflexivity; discriminate H.
  - intros v Hv. cbn [get_in get]. rewrite get_spread_props, Hv.
    destruct (get "url" v); reflexivity.
Qed.

Lemma X_generateMetadata_overrides_are_shallow_witness :
  get_in ["openGraph"; "url"]
    (generateMetadata
       (NextJSMetadataOptions.mk Examples.site_acme (Some Examples.page_about)
          (Some "https://acme.test") None (Some kind_page)
          (Some [ ("openGraph", VObj [ ("locale", VStr "en") ]) ])))
  = None.
Proof.
  exact (proj2 (proj2 (proj2 (proj2 (proj2 (proj2 (proj2
    (X_generateMetadata_overrides_are_shallow
       Examples.site_acme (Some Examples.page_about) (Some "https://acme.test")
       None (Some kind_page)
       [ ("openGraph", VObj [ ("locale", VStr "en") ]) ] "title")))))))
    (VObj [ ("locale", VStr "en") ]) eq_refl).
Defined.

(** X21.  The Next.js script text is the empty string exactly when [baseUrl]
    is missing or empty.  Otherwise it is the structured data of
    [generateSEO], a JSON text that parses to an array whose first
    element is the [WebSite] object. *)
Theorem X_generateStructuredDataScript_empty_iff_no_baseUrl
    (options : NextJSMetadataOptions.t) :
  (generateStructuredDataScript options = ""
   <-> truthy (NextJSMetadataOptions.baseUrl options) = false)
  /\ (truthy (NextJSMetadataOptions.baseUrl options) = true ->
      exists first others,
        parse (generateStructuredDataScript options) = Some (VArr (first :: others))
        /\ get "@type" first = Some (VStr "WebSite")
        /\ get "url" first
           = Some (VStr_opt (NextJSMetadataOptions.baseUrl options))).
Proof.
  unfold generateStructuredDataScript. rewrite generateSEO_structuredData.
  destruct (NextJSMetadataOptions.baseUrl options) as [[|a t]|]; cbn [truthy or_default].
  1, 3: split; [split; reflexivity | discriminate].
  set (config := StructuredDataConfig.mk _ _ _ _).
  assert (P := parse_generateStructuredData config).
  rewrite structuredData_array_eq in P.
  assert (N : parse "" = None) by reflexivity.
  split.
  - split; [|discriminate]. intros E.
    destruct (generateStructuredData config) eqn:G; [|].
    + rewrite N in P. discriminate P.
    + cbn in E. discriminate E.
  - intros _. unfold or_default.
    destruct (generateStructuredData config) eqn:G;
      [rewrite N in P; discriminate P|].
    cbn [truthy]. rewrite P. cbn [map app].
    eexists; eexists. split; [reflexivity|]. split; reflexivity.
Qed.

Lemma X_generateStructuredDataScript_empty_iff_no_baseUrl_witness :
  exists first others,
    parse (generateStructuredDataScript
             (NextJSMetadataOptions.mk Examples.site_acme None
                (Some "https://acme.test") None None None))
    = Some (VArr (first :: others))
    /\ get "@type" first = Some (VStr "WebSite")
    /\ get "url" first = Some (VStr_opt (Some "https://acme.test")).
Proof.
  exact (proj2 (X_generateStructuredDataScript_empty_iff_no_baseUrl
                  (NextJSMetadataOptions.mk Examples.site_acme None
                     (Some "https://acme.test") None None None)) eq_refl).
Defined.

End AdapterFacts.

(** ** The Payload hooks and the admin score *)

Section PayloadFacts.
Import JS Escaping Seo Payload.
Local Open Scope nat_scope.

Lemma substring_0_S (n : nat) (a : ascii) (s : string) :
  substring 0 (S n) (String a s) = String a (substring 0 n s).
Proof. reflexivity. Qed.

Lemma length_substring_0 (n : nat) (s : string) :
  String.length (substring 0 n s) = Nat.min n (String.length s).
Proof.
  revert s. induction n as [|n IH]; intros [|a s]; try reflexivity.
  rewrite substring_0_S. cbn [String.length]. rewrite IH. reflexivity.
Qed.

Lemma substring_0_all (n : nat) (s : string) :
  String.length s <= n -> substring 0 n s = s.
Proof.
  revert s. induction n as [|n IH]; intros [|a s] H; try reflexivity.
  - cbn in H. lia.
  - rewrite substring_0_S, IH; [reflexivity | cbn in H; lia].
Qed.

Lemma truthy_substring (a : ascii) (s : string) :
  truthy (Some (substring 0 160 (String a s))) = true.
Proof. reflexivity. Qed.

Lemma truthy_app_l (s t : string) :
  truthy (Some s) = true -> truthy (Some (s ++ t)) = true.
Proof. destruct s; [discriminate | reflexivity]. Qed.

(** What a step of the hook leaves of the document: everything but the
    [seo] group, and in the group everything but the property it sets. *)
Local Abbreviation seo_title d := (opt_chain (Page.seo d) SEOFields.title).
Local Abbreviation seo_description d := (opt_chain (Page.seo d) SEOFields.description).
Local Abbreviation seo_keywords d := (opt_chain (Page.seo d) SEOFields.keywords).
Local Abbreviation seo_image d := (opt_chain (Page.seo d) SEOFields.image).
Local Abbreviation seo_noIndex d := (opt_chain (Page.seo d) SEOFields.noIndex).
Local Abbreviation seo_noFollow d := (opt_chain (Page.seo d) SEOFields.noFollow).

Lemma same_outside_refl (d : Page.t) : same_outside_seo_texts d d.
Proof. repeat split. Qed.

Lemma same_outside_trans (d1 d2 d3 : Page.t) :
  same_outside_seo_texts d1 d2 -> same_outside_seo_texts d2 d3 ->
  same_outside_seo_texts d1 d3.
Proof.
  unfold same_outside_seo_texts. intros H1 H2.
  repeat match goal with H : _ /\ _ |- _ => destruct H end.
  repeat split; congruence.
Qed.

Lemma same_outside_with_title (d : Page.t) (v : string) :
  same_outside_seo_texts d (set_seo d (with_title (Page.seo d) v)).
Proof. destruct d as [? ? ? ? ? ? [s|] ? ? ?]; repeat split. Qed.

Lemma same_outside_with_description (d : Page.t) (v : string) :
  same_outside_seo_texts d (set_seo d (with_description (Page.seo d) v)).
Proof. destruct d as [? ? ? ? ? ? [s|] ? ? ?]; repeat split. Qed.

Lemma same_outside_with_keywords (d : Page.t) (v : string) :
  same_outside_seo_texts d (set_seo d (with_keywords (Page.seo d) v)).
Proof. destruct d as [? ? ? ? ? ? [s|] ? ? ?]; repeat split. Qed.

(** The three texts after each step. *)
Lemma auto_title_spec (site_title : option string) (d : Page.t) :
  let d' := auto_title site_title d in
  same_outside_seo_texts d d'
  /\ seo_description d' = seo_description d
  /\ seo_keywords d' = seo_keywords d
  /\ seo_title d'
     = (if truthy (Some (Page.title d)) && negb (truthy (seo_title d))
        then Some (Page.title d ++ " | " ++ or_default site_title "Site")
        else seo_title d).
Proof.
  cbv zeta. unfold auto_title.
  destruct (truthy (Some (Page.title d)) && negb (truthy (seo_title d))).
  - split; [apply same_outside_with_title|].
    destruct d as [? ? ? ? ? ? [s|] ? ? ?]; repeat split.
  - split; [apply same_outside_refl | repeat split].
Qed.

Lemma auto_description_spec (d : Page.t) :
  let d' := auto_description d in
  same_outside_seo_texts d d'
  /\ seo_title d' = seo_title d
  /\ seo_keywords d' = seo_keywords d
  /\ seo_description d'
     = (if truthy (Page.excerpt d) && negb (truthy (seo_description d))
        then option_map (substring 0 160) (Page.excerpt d)
        else seo_description d).
Proof.
  cbv zeta. unfold auto_description.
  destruct (Page.excerpt d) as [[|a t]|] eqn:E; cbn [truthy andb option_map].
  1, 3: split; [apply same_outside_refl | repeat split].
  destruct (truthy (seo_description d)); cbn [negb].
  - split; [apply same_outside_refl | repeat split].
  - split; [apply same_outside_with_description|].
    destruct d as [? ? ? ? ? ? [s|] ? ? ?]; repeat split.
Qed.

Lemma truncate_description_spec (d : Page.t) :
  let d' := truncate_description d in
  same_outside_seo_texts d d'
  /\ seo_title d' = seo_title d
  /\ seo_keywords d' = seo_keywords d
  /\ seo_description d' = option_map (substring 0 160) (seo_description d).
Proof.
  cbv zeta. unfold truncate_description.
  destruct (seo_description d) as [[|a t]|] eqn:E; cbn [option_map].
  1, 3: split; [apply same_outside_refl | repeat split; exact E].
  destruct (160 <? String.length (String a t)) eqn:L.
  - split; [apply same_outside_with_description|].
    destruct d as [? ? ? ? ? ? [s|] ? ? ?]; repeat split.
  - split; [apply same_outside_refl|]. repeat split.
    rewrite E, substring_0_all; [reflexivity|].
    apply Nat.ltb_ge in L. exact L.
Qed.

Lemma auto_keywords_spec (d : Page.t) :
  let d' := auto_keywords d in
  same_outside_seo_texts d d'
  /\ seo_title d' = seo_title d
  /\ seo_description d' = seo_description d
  /\ seo_keywords d'
     = (if truthy (Some (Page.title d)) && negb (truthy (seo_keywords d))
           && truthy (Some (keywords_of_title (Page.title d)))
        then Some (keywords_of_title (Page.title d))
        else seo_keywords d).
Proof.
  cbv zeta. unfold auto_keywords.
  destruct (truthy (Some (Page.title d)) && negb (truthy (seo_keywords d)));
    cbn [andb].
  - destruct (truthy (Some (keywords_of_title (Page.title d)))).
    + split; [apply same_outside_with_keywords|].
      destruct d as [? ? ? ? ? ? [s|] ? ? ?]; repeat split.
    + split; [apply same_outside_refl | repeat split].
  - split; [apply same_outside_refl | repeat split].
Qed.

(** The hook as a whole, on the three texts. *)
Lemma beforeChange_spec (site_title : option string) (d : Page.t) :
  let d' := beforeChange site_title d in
  same_outside_seo_texts d d'
  /\ seo_title d'
     = (if truthy (Some (Page.title d)) && negb (truthy (seo_title d))
        then Some (Page.title d ++ " | " ++ or_default site_title "Site")
        else seo_title d)
  /\ seo_description d'
     = option_map (substring 0 160)
         (if truthy (Page.excerpt d) && negb (truthy (seo_description d))
          then Page.excerpt d
          else seo_description d)
  /\ seo_keywords d'
     = (if truthy (Some (Page.title d)) && negb (truthy (seo_keywords d))
           && truthy (Some (keywords_of_title (Page.title d)))
        then Some (keywords_of_title (Page.title d))
        else seo_keywords d).
Proof.
  cbv zeta. unfold beforeChange.
  destruct (auto_title_spec site_title d) as (S1 & D1 & K1 & T1).
  set (d1 := auto_title site_title d) in *.
  destruct (auto_description_spec d1) as (S2 & T2 & K2 & D2).
  set (d2 := auto_description d1) in *.
  destruct (truncate_description_spec d2) as (S3 & T3 & K3 & D3).
  set (d3 := truncate_description d2) in *.
  destruct (auto_keywords_spec d3) as (S4 & T4 & D4 & K4).
  set (d4 := auto_keywords d3) in *.
  assert (S12 := same_outside_trans _ _ _ S1 S2).
  assert (S13 := same_outside_trans _ _ _ S12 S3).
  assert (S14 := same_outside_trans _ _ _ S13 S4).
  split; [exact S14|].
  assert (Et1 : Page.excerpt d1 = Page.excerpt d) by apply S1.
  assert (Tt3 : Page.title d3 = Page.title d) by apply S13.
  split; [congruence|]. split.
  - rewrite D4, D3, D2, Et1, D1.
    destruct (truthy (Page.excerpt d) && negb (truthy (seo_description d)));
      [|reflexivity].
    destruct (Page.excerpt d) as [e|]; [|reflexivity].
    cbn [option_map]. f_equal. apply substring_0_all.
    rewrite length_substring_0. lia.
  - rewrite K4, Tt3, K3, K2, K1. reflexivity.
Qed.

Lemma truthy_option_map_substring (x : option string) :
  truthy (option_map (substring 0 160) x) = truthy x.
Proof. destruct x as [[|a s]|]; reflexivity. Qed.

Lemma auto_title_fixed (site_title : option string) (d : Page.t) :
  truthy (Some (Page.title d)) && negb (truthy (seo_title d)) = false ->
  auto_title site_title d = d.
Proof. unfold auto_title. now intros ->. Qed.

Lemma auto_description_fixed (d : Page.t) :
  truthy (Page.excerpt d) && negb (truthy (seo_description d)) = false ->
  auto_description d = d.
Proof.
  unfold auto_description.
  destruct (Page.excerpt d) as [[|a t]|]; cbn [truthy andb]; try reflexivity.
  now intros ->.
Qed.

Lemma truncate_description_fixed (d : Page.t) :
  (forall s, seo_description d = Some s -> String.length s <= 160) ->
  truncate_description d = d.
Proof.
  unfold truncate_description. intros H.
  destruct (seo_description d) as [[|a t]|]; try reflexivity.
  specialize (H _ eq_refl). apply Nat.ltb_ge in H. now rewrite H.
Qed.

Lemma auto_keywords_fixed (d : Page.t) :
  truthy (Some (Page.title d)) && negb (truthy (seo_keywords d))
    && truthy (Some (keywords_of_title (Page.title d))) = false ->
  auto_keywords d = d.
Proof.
  unfold auto_keywords.
  destruct (truthy (Some (Page.title d)) && negb (truthy (seo_keywords d)));
    cbn [andb]; [|reflexivity].
  now intros ->.
Qed.

Lemma beforeChange_bounds (site_title : option string) (d : Page.t) :
  let d' := beforeChange site_title d in
  (forall text, seo_description d' = Some text -> String.length text <= 160)
  /\ (Page.title d <> "" -> truthy (seo_title d') = true)
  /\ (truthy (Page.excerpt d) = true -> truthy (seo_description d') = true).
Proof.
  cbv zeta.
  destruct (beforeChange_spec site_title d) as (S & T & D & K).
  set (d' := beforeChange site_title d) in *.
  split; [|split].
  - intros text H. rewrite D in H.
    destruct (if truthy (Page.excerpt d) && negb (truthy (seo_description d))
              then Page.excerpt d else seo_description d) as [x|];
      [|discriminate H].
    cbn in H. injection H as <-. rewrite length_substring_0. lia.
  - intros Ht. rewrite T.
    destruct (Page.title d) as [|a t] eqn:Et; [contradiction|].
    cbn [truthy andb].
    destruct (truthy (seo_title d)) eqn:E; cbn [negb]; [exact E | reflexivity].
  - intros He. rewrite D, truthy_option_map_substring, He. cbn [andb].
    destruct (truthy (seo_description d)) eqn:E; cbn [negb]; [exact E | exact He].
Qed.

(** X22.  [seoHooks.beforeChange].  The hook changes nothing of the document
    but the title, description and keywords of its [seo] group.  After it
    the description, when there is one, has at most 160 characters; a
    document with a title has an SEO title, and one with an excerpt an
    SEO description; an SEO title already there is kept as it is.
    Running the hook on its own result changes nothing. *)
Theorem X_beforeChange_bounds_and_idempotent (site_title : option string) (d : Page.t) :
  let d' := beforeChange site_title d in
  same_outside_seo_texts d d'
  /\ (forall text, seo_description d' = Some text -> String.length text <= 160)
  /\ (Page.title d <> "" -> truthy (seo_title d') = true)
  /\ (truthy (Page.excerpt d) = true -> truthy (seo_description d') = true)
  /\ (truthy (seo_title d) = true -> seo_title d' = seo_title d)
  /\ beforeChange site_title d' = d'.
Proof.
  cbv zeta.
  destruct (beforeChange_spec site_title d) as (S & T & D & K).
  set (d' := beforeChange site_title d) in *.
  destruct (beforeChange_bounds site_title d) as (Bound & HasT & HasD).
  fold d' in Bound, HasT, HasD.
  split; [exact S|]. split; [exact Bound|]. split; [exact HasT|].
  split; [exact HasD|]. split.
  { intros H. rewrite T, H, andb_false_r. reflexivity. }
  assert (Et : Page.title d' = Page.title d) by apply S.
  assert (Ee : Page.excerpt d' = Page.excerpt d) by apply S.
  unfold beforeChange.
  rewrite (auto_title_fixed site_title d').
  2:{ rewrite Et. destruct (Page.title d) as [|a t] eqn:E; [reflexivity|].
      rewrite <- E in HasT. rewrite HasT; [reflexivity|]. rewrite E. discriminate. }
  rewrite (auto_description_fixed d').
  2:{ rewrite Ee. destruct (truthy (Page.excerpt d)) eqn:E; [|reflexivity].
      rewrite (HasD eq_refl). reflexivity. }
  rewrite (truncate_description_fixed d' Bound).
  apply auto_keywords_fixed.
  rewrite Et, K.
  destruct (truthy (Some (Page.title d))); [|reflexivity].
  destruct (truthy (seo_keywords d)) eqn:Ek; cbn [negb andb];
    [rewrite Ek; reflexivity|].
  destruct (truthy (Some (keywords_of_title (Page.title d)))) eqn:Eg;
    cbn [negb andb]; rewrite ?Ek, ?Eg; reflexivity.
Qed.

Lemma X_beforeChange_bounds_and_idempotent_witness :
  truthy (opt_chain (Page.seo (beforeChange (Some "Acme") Examples.page_about))
                    SEOFields.title) = true.
Proof.
  apply (proj1 (proj2 (proj2
           (X_beforeChange_bounds_and_idempotent (Some "Acme") Examples.page_about)))).
  discriminate.
Defined.
Lemma string_forallb_impl (p q : ascii -> bool) (s : string) :
  (forall c, p c = true -> q c = true) ->
  string_forallb p s = true -> string_forallb q s = true.
Proof.
  intros H. induction s as [|c s IH]; [reflexivity|].
  cbn [string_forallb]. intros E. apply andb_prop in E. destruct E as [E1 E2].
  now rewrite (H c E1), (IH E2).
Qed.

Lemma string_forallb_app (p : ascii -> bool) (s t : string) :
  string_forallb p (s ++ t) = string_forallb p s && string_forallb p t.
Proof.
  induction s as [|c s IH]; [reflexivity|].
  cbn [append string_forallb]. now rewrite IH, andb_assoc.
Qed.

Lemma remove_other_chars_kept (s : string) :
  string_forallb (fun c => is_lower_or_digit c || is_space c) (remove_other_chars s)
  = true.
Proof.
  induction s as [|c s IH]; [reflexivity|].
  cbn [remove_other_chars].
  destruct (is_lower_or_digit c || is_space c) eqn:E; [|exact IH].
  cbn [string_forallb]. now rewrite E, IH.
Qed.

(** No piece of [split] holds a white space character. *)
Lemma split_from_pieces (p : ascii -> bool) (s : string) (in_run : bool) :
  string_forallb p s = true ->
  Forall (fun w => string_forallb (fun c => p c && negb (is_space c)) w = true)
         (split_from in_run s).
Proof.
  revert in_run. induction s as [|c s IH]; intros in_run H.
  - repeat constructor.
  - cbn [string_forallb] in H. apply andb_prop in H. destruct H as [Hc Hs].
    cbn [split_from]. destruct (is_space c) eqn:Sp.
    + destruct in_run; [apply IH; exact Hs|].
      constructor; [reflexivity | apply IH; exact Hs].
    + specialize (IH false Hs).
      destruct (split_from false s) as [|w ws].
      * constructor; [|constructor]. cbn [string_forallb]. now rewrite Hc, Sp.
      * inversion IH as [|? ? Hw Hws]; subst. constructor; [|exact Hws].
        cbn [string_forallb]. now rewrite Hc, Sp, Hw.
Qed.

Lemma Forall_firstn {A : Type} (P : A -> Prop) (n : nat) (l : list A) :
  Forall P l -> Forall P (firstn n l).
Proof.
  revert l. induction n as [|n IH]; intros [|x l] H; cbn; try constructor.
  - inversion H; assumption.
  - apply IH. inversion H; assumption.
Qed.

Lemma Forall_filter_both {A : Type} (P : A -> Prop) (f : A -> bool) (l : list A) :
  Forall P l -> Forall (fun x => P x /\ f x = true) (filter f l).
Proof.
  induction 1 as [|x l Hx Hl IH]; cbn; [constructor|].
  destruct (f x) eqn:E; [constructor; [split; assumption | exact IH] | exact IH].
Qed.

Lemma lower_or_digit_not_special (c : ascii) :
  is_lower_or_digit c = true -> is_special c = false.
Proof. destruct c as [[] [] [] [] [] [] [] []]; vm_compute; congruence. Qed.

Lemma free_of_specials_forallb (s : string) :
  free_of_specials s = string_forallb (fun c => negb (is_special c)) s.
Proof. induction s as [|c s IH]; [reflexivity|]. cbn. now rewrite IH. Qed.

Lemma string_forallb_join (p : ascii -> bool) (sep : string) (ws : list string) :
  string_forallb p sep = true ->
  Forall (fun w => string_forallb p w = true) ws ->
  string_forallb p (join sep ws) = true.
Proof.
  intros Hsep. induction 1 as [|w ws Hw Hws IH]; [reflexivity|].
  rewrite join_cons. destruct ws as [|w' ws']; [exact Hw|].
  rewrite !string_forallb_app, Hw, Hsep. exact IH.
Qed.

(** X23.  The keywords the hook derives from a title are at most five words,
    separated by a comma and a space, each of four characters or more
    out of [a-z] and [0-9]; so the text holds none of the five special
    characters and [escapeHtml] leaves it as it is.  The hook stores them
    exactly when the document has a title, no keywords yet, and the
    title has such a word; otherwise it leaves the keywords alone. *)
Theorem X_beforeChange_keywords_are_plain_words (site_title : option string) (d : Page.t) :
  (exists words,
     keywords_of_title (Page.title d) = join ", " words
     /\ length words <= 5
     /\ Forall (fun w => 4 <= String.length w
                         /\ string_forallb is_lower_or_digit w = true) words
     /\ (words = [] <-> keywords_of_title (Page.title d) = ""))
  /\ free_of_specials (keywords_of_title (Page.title d)) = true
  /\ escapeHtml (keywords_of_title (Page.title d)) = keywords_of_title (Page.title d)
  /\ seo_keywords (beforeChange site_title d)
     = (if truthy (seo_keywords d) then seo_keywords d
        else if truthy (Some (keywords_of_title (Page.title d)))
             then Some (keywords_of_title (Page.title d))
             else seo_keywords d).
Proof.
  set (title := Page.title d).
  set (words := firstn 5
                  (filter (fun word => 3 <? String.length word)
                     (split_white_space (remove_other_chars (toLowerCase title))))).
  assert (W : Forall (fun w => 4 <= String.length w
                               /\ string_forallb is_lower_or_digit w = true) words).
  { subst words. apply Forall_firstn.
    eapply Forall_impl;
      [|apply Forall_filter_both; unfold split_white_space;
        apply (split_from_pieces (fun c => is_lower_or_digit c || is_space c)), 
          remove_other_chars_kept].
    cbv beta. intros w [H1 H2]. split; [apply Nat.ltb_lt in H2; lia|].
    revert H1. apply string_forallb_impl. intros c Hc.
    destruct (is_space c); [now rewrite andb_false_r in Hc|].
    now rewrite orb_false_r, andb_true_r in Hc. }
  assert (F : free_of_specials (keywords_of_title title) = true).
  { rewrite free_of_specials_forallb. apply string_forallb_join; [reflexivity|].
    fold words. eapply Forall_impl; [|exact W]. cbv beta. intros w [_ H].
    revert H. apply string_forallb_impl. intros c Hc.
    now rewrite (lower_or_digit_not_special c Hc). }
  split; [|split; [exact F|split]].
  - exists words. split; [reflexivity|]. split; [subst words; rewrite length_firstn; lia|].
    split; [exact W|]. unfold keywords_of_title. fold words. split.
    + intros ->. reflexivity.
    + destruct words as [|w ws]; [reflexivity|]. intros E.
      inversion W as [|? ? [Hw _] _]; subst.
      rewrite join_cons in E. destruct ws; destruct w; cbn in *; try lia; discriminate.
  - rewrite escapeHtml_flat_map. apply flat_map_entity_free, F.
  - destruct (beforeChange_spec site_title d) as (_ & _ & _ & K).
    rewrite K. fold title.
    destruct (truthy (seo_keywords d)); [now rewrite andb_false_r|].
    destruct title as [|a t] eqn:Et.
    + reflexivity.
    + cbn [truthy negb andb]. reflexivity.
Qed.

Lemma computedSEO_fields (payload : PayloadRequest.t) (SITE_URL : option string)
    (doc : Page.t) :
  let seo := computedSEO payload SITE_URL doc in
  SEOData.title seo
  = or_default
      (Some (or_default (seo_title doc)
               (Page.title doc ++ " | "
                ++ or_default (PayloadRequest.site_title payload) "Site")))
      "Website"
  /\ SEOData.description seo
     = or_default
         (Some (or_default (or_else (seo_description doc) (Page.excerpt doc))
                  (or_default (PayloadRequest.site_description payload) "A website")))
         "A modern website"
  /\ SEOData.keywords seo = seo_keywords doc
  /\ SEOData.image seo
     = or_else (opt_chain (seo_image doc) (fun m => Some (Media.url m)))
               (opt_chain (Page.featuredImage doc) (fun m => Some (Media.url m)))
  /\ SEOData.url seo
     = Some (or_default SITE_URL "https://example.com" ++ "/pages/" ++ Page.slug doc)
  /\ SEOData.type seo = Some "article".
Proof.
  cbv zeta. unfold computedSEO.
  rewrite generateSEO_title, generateSEO_description, generateSEO_url.
  cbn [Kind_eqb Data.has_title Data.has_slug andb Data.seo Data.title Data.excerpt
       Data.slug interpolate SiteSettings.siteName SiteSettings.siteDescription].
  assert (M : forall x d e, d <> "" ->
                or_default (Some (or_default x d)) e = or_default x d)
    by (intros [[|a s]|] [|b u] e H; try reflexivity; contradiction).
  rewrite !(M (PayloadRequest.site_title payload) "Site"),
    !(M (PayloadRequest.site_description payload) "A website") by discriminate.
  repeat split.
Qed.

(** X24.  The two hooks of a collection together.  [afterRead] stores
    computed SEO data exactly when the document and [req.payload] are
    both there.  When they are, for a document read back after
    [beforeChange] has run on the same request, the computed data have
    the title, image, url and type they had for the document as
    submitted, and the keywords the hook stored; the description is the
    first 160 characters of what it was when the document has an SEO
    description or an excerpt, and the site's description, untouched,
    when it has neither.  The url is always SITE_URL, or
    https://example.com, then /pages/ and the slug. *)
Theorem X_afterRead_after_beforeChange
    (payload : option PayloadRequest.t) (SITE_URL : option string)
    (doc : option Page.t) (d : Page.t) :
  let site_title := opt_chain payload PayloadRequest.site_title in
  let d' := beforeChange site_title d in
  (afterRead payload SITE_URL doc = None <-> doc = None \/ payload = None)
  /\ (forall p, payload = Some p ->
      exists before after,
        afterRead payload SITE_URL (Some d) = Some before
        /\ afterRead payload SITE_URL (Some d') = Some after
        /\ SEOData.title after = SEOData.title before
        /\ SEOData.image after = SEOData.image before
        /\ SEOData.url after = SEOData.url before
        /\ SEOData.url after
           = Some (or_default SITE_URL "https://example.com" ++ "/pages/" ++ Page.slug d)
        /\ SEOData.type after = SEOData.type before
        /\ SEOData.keywords after = seo_keywords d'
        /\ SEOData.description after
           = (if truthy (seo_description d) || truthy (Page.excerpt d)
              then substring 0 160 (SEOData.description before)
              else SEOData.description before)
        /\ String.length (SEOData.description after)
           <= Nat.max 160
                (String.length
                   (or_default (PayloadRequest.site_description p) "A website"))).
Proof.
  cbv zeta. split.
  { unfold afterRead. destruct doc as [x|], payload as [p|]; split;
      try (intros H; discriminate H); try (intros [H|H]; discriminate H); auto. }
  intros p ->. cbn [opt_chain afterRead].
  set (site_title := PayloadRequest.site_title p).
  set (site_description := PayloadRequest.site_description p).
  exists (computedSEO p SITE_URL d), (computedSEO p SITE_URL (beforeChange site_title d)).
  split; [reflexivity|]. split; [reflexivity|].
  destruct (computedSEO_fields p SITE_URL d) as (T0 & D0 & K0 & I0 & U0 & Y0).
  destruct (computedSEO_fields p SITE_URL (beforeChange site_title d))
    as (T1 & D1 & K1 & I1 & U1 & Y1).
  fold site_title in T0, T1. fold site_description in D0, D1.
  destruct (beforeChange_spec site_title d) as (S & T & D & K).
  set (d' := beforeChange site_title d) in *.
  unfold same_outside_seo_texts in S.
  destruct S as (_ & St & Ss & _ & Se & Sf & _ & _ & _ & Si & _ & _).
  assert (Ed : SEOData.description (computedSEO p SITE_URL d')
               = (if truthy (seo_description d) || truthy (Page.excerpt d)
                  then substring 0 160 (SEOData.description (computedSEO p SITE_URL d))
                  else SEOData.description (computedSEO p SITE_URL d))).
  { rewrite D1, D0, D, Se.
    destruct (seo_description d) as [[|a s]|], (Page.excerpt d) as [[|b u]|];
      cbn [truthy negb andb orb option_map or_else or_default];
      try reflexivity.
    all: destruct (or_default site_description "A website"); reflexivity. }
  split.
  { rewrite T1, T0, T, St.
    destruct (Page.title d) as [|a t]; [reflexivity|].
    cbn [truthy andb].
    destruct (seo_title d) as [[|b u]|]; reflexivity. }
  split; [rewrite I1, I0, Si, Sf; reflexivity|].
  split; [rewrite U1, U0, Ss; reflexivity|].
  split; [rewrite U1, Ss; reflexivity|].
  split; [rewrite Y1, Y0; reflexivity|].
  split; [exact K1|].
  split; [exact Ed|].
  rewrite Ed.
  destruct (truthy (seo_description d) || truthy (Page.excerpt d)) eqn:E.
  - rewrite length_substring_0. lia.
  - rewrite D0.
    destruct (seo_description d) as [[|a s]|], (Page.excerpt d) as [[|b u]|];
      try discriminate E; cbn [or_else truthy or_default].
    all: destruct (or_default site_description "A website") eqn:O;
      [destruct site_description as [[|? ?]|]; discriminate O|];
      cbn [or_default]; lia.
Qed.

Lemma X_afterRead_after_beforeChange_witness :
  exists before after,
    afterRead (Some (PayloadRequest.mk (Some "Acme") None)) None
      (Some Examples.page_about) = Some before
    /\ afterRead (Some (PayloadRequest.mk (Some "Acme") None)) None
         (Some (beforeChange (Some "Acme") Examples.page_about)) = Some after
    /\ SEOData.title after = SEOData.title before
    /\ SEOData.title after = "About | Acme".
Proof.
  destruct (proj2 (X_afterRead_after_beforeChange
                     (Some (PayloadRequest.mk (Some "Acme") None)) None None
                     Examples.page_about) _ eq_refl)
    as (before & after & B & A & T & _).
  exists before, after. split; [exact B|]. split; [exact A|]. split; [exact T|].
  cbn in A. injection A as <-. reflexivity.
Defined.

(** X25.  [calculateScore] of the admin panel.  The score is 100 less 25 for
    each issue, 15 for missing keywords, 20 for a missing image and 15
    for [noIndex]; it lies between 0 and 100, is 100 exactly when there
    is no issue, no suggestion and [noIndex] is off, and is 15 when
    there are no SEO data at all.  There are always as many issues as
    failed length checks, at most two, and as many suggestions as
    missing keywords and image; the label [Excellent!] (80 and more) is
    never shown while there is an issue. *)
Theorem X_calculateScore_accounts_for_every_check (seoData : option SEOFields.t) :
  let result := calculateScore seoData in
  let title_ok :=
    match opt_chain seoData SEOFields.title with
    | Some t => (30 <=? String.length t) && (String.length t <=? 60)
    | None => false
    end in
  let description_ok :=
    match opt_chain seoData SEOFields.description with
    | Some t => (120 <=? String.length t) && (String.length t <=? 160)
    | None => false
    end in
  (Score.score result
   = 100 - 25 * Z.of_nat (length (Score.issues result))
     - (if truthy (opt_chain seoData SEOFields.keywords) then 0 else 15)
     - (match opt_chain seoData SEOFields.image with Some _ => 0 | None => 20 end)
     - (if truthy_bool (opt_chain seoData SEOFields.noIndex) then 15 else 0))%Z
  /\ length (Score.issues result)
     = (if title_ok then 0 else 1) + (if description_ok then 0 else 1)
  /\ length (Score.suggestions result)
     = (if truthy (opt_chain seoData SEOFields.keywords) then 0 else 1)
       + (match opt_chain seoData SEOFields.image with Some _ => 0 | None => 1 end)
  /\ (0 <= Score.score result <= 100)%Z
  /\ (Score.score result = 100%Z
      <-> Score.issues result = [] /\ Score.suggestions result = []
          /\ truthy_bool (opt_chain seoData SEOFields.noIndex) = false)
  /\ (score_label (Score.score result) = "Excellent!" -> Score.issues result = [])
  /\ (seoData = None -> Score.score result = 15%Z).
Proof.
  cbv zeta. unfold calculateScore, push.
  destruct seoData as [[t d k i n f]|]; cbn [opt_chain SEOFields.title
    SEOFields.description SEOFields.keywords SEOFields.image SEOFields.noIndex].
  2:{ cbn. repeat split; try lia; try discriminate; intros H; try discriminate H;
      destruct H as (H & _); discriminate H. }
  destruct t as [[|ta ts]|], d as [[|da ds]|], k as [[|ka ks]|], i as [i|],
    n as [[|]|];
    cbn [truthy truthy_bool negb];
    try (destruct ((30 <=? String.length (String ta ts))
                   && (String.length (String ta ts) <=? 60)));
    try (destruct ((120 <=? String.length (String da ds))
                   && (String.length (String da ds) <=? 160)));
    cbn; (repeat split; try lia; try discriminate; try reflexivity;
          intros H; try discriminate H; try (destruct H as (H & H' & H''));
          try discriminate H; try discriminate H'; try discriminate H'').
Qed.

Lemma X_calculateScore_accounts_for_every_check_witness :
  Score.issues
    (calculateScore
       (Some (SEOFields.mk
                (Some "A title of thirty to sixty characters")
                (Some ("A description that is long enough to pass the check of the "
                       ++ "admin panel, which wants at least one hundred and twenty "
                       ++ "characters."))
                (Some "seo") None None None))) = [].
Proof.
  apply (proj1 (proj2 (proj2 (proj2 (proj2 (proj2
           (X_calculateScore_accounts_for_every_check _))))))).
  reflexivity.
Defined.

(** X26.  The hook and the score together: after [beforeChange], the score of
    the stored [seo] group of a document with a title never reports a
    missing SEO title, and of one with an excerpt never a missing
    description; and the description check fails only on a description
    shorter than 120 characters, never on one longer than 160. *)
Theorem X_calculateScore_after_beforeChange (site_title : option string) (d : Page.t) :
  let d' := beforeChange site_title d in
  let result := calculateScore (Page.seo d') in
  (Page.title d <> "" -> ~ In "Missing SEO title" (Score.issues result))
  /\ (truthy (Page.excerpt d) = true ->
      ~ In "Missing meta description" (Score.issues result))
  /\ (In "Description length should be 120-160 characters" (Score.issues result) ->
      exists text, seo_description d' = Some text /\ String.length text < 120).
Proof.
  cbv zeta.
  destruct (beforeChange_bounds site_title d) as (B & HT & HD).
  set (d' := beforeChange site_title d) in *.
  unfold calculateScore, push.
  destruct (seo_title d') as [[|ta ts]|] eqn:Et,
    (seo_description d') as [[|da ds]|] eqn:Ed;
    try (destruct ((30 <=? String.length (String ta ts))
                   && (String.length (String ta ts) <=? 60)));
    try (destruct ((120 <=? String.length (String da ds))
                   && (String.length (String da ds) <=? 160)) eqn:L);
    destruct (truthy (seo_keywords d')), (seo_image d');
    cbn [app In].
  all: split; [intros Ht Hin; try (specialize (HT Ht); discriminate HT);
               repeat (destruct Hin as [Hin|Hin]; [discriminate Hin|]); exact Hin |].
  all: split; [intros He Hin; try (specialize (HD He); discriminate HD);
               repeat (destruct Hin as [Hin|Hin]; [discriminate Hin|]); exact Hin |].
  all: intros Hin.
  all: repeat (destruct Hin as [Hin|Hin]; [try discriminate Hin|]);
    try contradiction.
  all: exists (String da ds); split; [reflexivity|];
    specialize (B _ eq_refl); apply andb_false_iff in L;
    destruct L as [L|L]; [apply Nat.leb_gt in L; exact L | apply Nat.leb_gt in L; lia].
Qed.

Lemma X_calculateScore_after_beforeChange_witness :
  ~ In "Missing SEO title"
       (Score.issues
          (calculateScore (Page.seo (beforeChange None Examples.page_about)))).
Proof.
  apply (proj1 (X_calculateScore_after_beforeChange None Examples.page_about)).
  discriminate.
Defined.

(** X27.  [siteSeoHooks.beforeChange].  After the hook the default description
    of the site, when there is one, has at most 160 characters, being
    the first 160 of what it was; a site with a title has a default
    title, its own when it had one and the site title otherwise; the
    other properties are as they were, and running the hook on its own
    result changes nothing. *)
Theorem X_site_beforeChange_bounds_and_idempotent (data : SiteDoc.t) :
  let data' := site_beforeChange data in
  let defaultTitle x := opt_chain (SiteDoc.seo x) SiteSeoFields.defaultTitle in
  let defaultDescription x := opt_chain (SiteDoc.seo x) SiteSeoFields.defaultDescription in
  SiteDoc.title data' = SiteDoc.title data
  /\ defaultDescription data' = option_map (substring 0 160) (defaultDescription data)
  /\ (forall text, defaultDescription data' = Some text -> String.length text <= 160)
  /\ defaultTitle data'
     = (if truthy (SiteDoc.title data) && negb (truthy (defaultTitle data))
        then SiteDoc.title data else defaultTitle data)
  /\ opt_chain (SiteDoc.seo data') SiteSeoFields.defaultImage
     = opt_chain (SiteDoc.seo data) SiteSeoFields.defaultImage
  /\ opt_chain (SiteDoc.seo data') SiteSeoFields.twitterHandle
     = opt_chain (SiteDoc.seo data) SiteSeoFields.twitterHandle
  /\ opt_chain (SiteDoc.seo data') SiteSeoFields.facebookAppId
     = opt_chain (SiteDoc.seo data) SiteSeoFields.facebookAppId
  /\ site_beforeChange data' = data'.
Proof.
  cbv zeta.
  assert (Sub : forall a s, (160 <? String.length (String a s)) = false ->
                            String a (substring 0 159 s) = String a s)
    by (intros a s H; rewrite <- substring_0_S; apply substring_0_all, Nat.ltb_ge, H).
  assert (Len : forall a s,
             (160 <? String.length (String a (substring 0 159 s))) = false)
    by (intros a s; rewrite <- substring_0_S; apply Nat.ltb_ge;
        rewrite length_substring_0; lia).
  assert (Bound : forall a s, String.length (String a (substring 0 159 s)) <= 160)
    by (intros a s; rewrite <- substring_0_S, length_substring_0; lia).
  destruct data as [title [[dt dd di tw fb]|]]; unfold site_beforeChange;
    cbn [SiteDoc.seo SiteDoc.title SiteSeoFields.defaultDescription opt_chain].
  - destruct dd as [[|a s]|];
      [| destruct (160 <? String.length (String a s)) eqn:L |];
      rewrite ?substring_0_S;
      cbn [SiteDoc.seo SiteDoc.title SiteSeoFields.defaultDescription
           SiteSeoFields.defaultTitle opt_chain];
      destruct title as [[|b u]|], dt as [[|c v]|];
      cbn [truthy negb andb SiteDoc.seo SiteDoc.title
           SiteSeoFields.defaultDescription SiteSeoFields.defaultTitle
           SiteSeoFields.defaultImage SiteSeoFields.twitterHandle
           SiteSeoFields.facebookAppId opt_chain option_map];
      rewrite ?substring_0_S, ?Len, ?L, ?(Sub a s L);
      cbn [truthy negb andb SiteDoc.seo SiteDoc.title
           SiteSeoFields.defaultDescription SiteSeoFields.defaultTitle
           SiteSeoFields.defaultImage SiteSeoFields.twitterHandle
           SiteSeoFields.facebookAppId opt_chain option_map];
      (repeat split; try reflexivity;
       intros text H; try discriminate H; injection H as <-;
       try apply Bound; try (cbn; lia);
       apply Nat.ltb_ge in L; exact L).
  - destruct title as [[|b u]|];
      cbn [truthy negb andb SiteDoc.seo SiteDoc.title
           SiteSeoFields.defaultDescription SiteSeoFields.defaultTitle
           SiteSeoFields.defaultImage SiteSeoFields.twitterHandle
           SiteSeoFields.facebookAppId opt_chain option_map];
      repeat split; try reflexivity; intros text H; discriminate H.
Qed.

Lemma X_site_beforeChange_bounds_and_idempotent_witness :
  String.length (substring 0 160 Examples2.text_200) <= 160.
Proof.
  apply (proj1 (proj2 (proj2
           (X_site_beforeChange_bounds_and_idempotent Examples2.site_doc_long)))
           (substring 0 160 Examples2.text_200)).
  vm_compute. reflexivity.
Defined.

End PayloadFacts.

(** ** The command line tool *)

Section CliFacts.
Import JS JSON StructuredData Cli.
Local Open Scope nat_scope.

Variable ToNumber : value -> settled num.

Local Abbreviation auditSEOData := (Cli.auditSEOData ToNumber).
Local Abbreviation too_short := (Cli.too_short ToNumber).
Local Abbreviation too_long := (Cli.too_long ToNumber).

(** A value is never both too short and too long. *)
Lemma too_short_or_too_long (lo hi : Z) (v : value) (short long : bool) :
  (lo <= hi)%Z ->
  too_short lo v = Resolved short -> too_long hi v = Resolved long ->
  short && long = false.
Proof.
  intros Hle. unfold Cli.too_short, Cli.too_long.
  destruct (to_boolean v); cbn [negb].
  2:{ intros _ E. injection E as <-. apply andb_false_r. }
  destruct (length_of v) as [len|]; cbn [and_then]; [|discriminate].
  destruct (to_number ToNumber len) as [x|]; cbn [and_then]; [|discriminate].
  intros E1 E2. injection E1 as <-. injection E2 as <-.
  destruct x as [| | |n d]; try reflexivity. cbn [num_ltb num_gtb].
  destruct (n <? lo * Z.pos d)%Z eqn:A; [|reflexivity].
  destruct (hi * Z.pos d <? n)%Z eqn:B; [|reflexivity].
  apply Z.ltb_lt in A. apply Z.ltb_lt in B. nia.
Qed.

(** The two tests on a value that is not an object. *)
Lemma tests_of_plain_value (lo hi : Z) (v : value) :
  (0 < lo)%Z -> is_object v = false ->
  exists short long,
    too_short lo v = Resolved short /\ too_long hi v = Resolved long
    /\ negb short && negb long = passes lo hi v.
Proof.
  intros Hlo Hv. unfold Cli.too_short, Cli.too_long.
  destruct v as [| |[|]|n|[|a s]|items|props]; try discriminate Hv;
    cbn [to_boolean negb length_of and_then to_number num_ltb num_gtb passes].
  - exists true, false. repeat split.
  - exists true, false. repeat split.
  - exists false, false. repeat split.
  - exists true, false. repeat split.
  - destruct (n =? 0)%Z; cbn [negb and_then to_number num_ltb num_gtb].
    + exists true, false. repeat split.
    + exists false, false. repeat split.
  - exists true, false. repeat split.
    cbn [String.length]. destruct (lo <=? Z.of_nat 0)%Z eqn:E; [|reflexivity].
    apply Z.leb_le in E. cbn in E. lia.
  - eexists. eexists. split; [reflexivity|]. split; [reflexivity|].
    generalize (Z.of_nat (String.length (String a s))). intros n.
    rewrite !Z.mul_1_r, !Z.ltb_antisym, !negb_involutive. reflexivity.
  - eexists. eexists. split; [reflexivity|]. split; [reflexivity|].
    generalize (Z.of_nat (length items)). intros n.
    rewrite !Z.mul_1_r, !Z.ltb_antisym, !negb_involutive. reflexivity.
Qed.

(** X28.  [auditSEOData] on what [JSON.parse] gave.  On [null] the promise
    is rejected with a TypeError.  Whenever it resolves, a title or a
    description has raised at most one issue, too short or too long,
    never both; so there are at most two issues and two suggestions, the
    score is 100 less 20 for each issue and 5 for each suggestion, it is
    never below 50 (the floor at 0 is never reached), and the timestamp
    is the one of the call.  When neither the title nor the description
    is an object the promise resolves, and the score is 100 exactly when
    both pass and keywords and image are truthy, where a string or an
    array passes by its length (30 to 60, 120 to 160) and a number other
    than 0 or [true] passes as it is. *)
Theorem X_auditSEOData_score_range (timestamp : string) (seoData : value) :
  let title := read "title" seoData in
  let description := read "description" seoData in
  let keywords := read "keywords" seoData in
  let image := read "image" seoData in
  auditSEOData timestamp VNull = Rejected_TypeError
  /\ (forall result,
        auditSEOData timestamp seoData = Resolved result ->
        length (Audit.issues result) <= 2
        /\ length (Audit.suggestions result)
           = (if to_boolean keywords then 0 else 1) + (if to_boolean image then 0 else 1)
        /\ (Audit.score result
            = 100 - 20 * Z.of_nat (length (Audit.issues result))
                  - 5 * Z.of_nat (length (Audit.suggestions result)))%Z
        /\ (50 <= Audit.score result <= 100)%Z
        /\ Audit.timestamp result = timestamp)
  /\ (seoData <> VNull -> seoData <> VUndefined ->
      is_object title = false -> is_object description = false ->
      exists result,
        auditSEOData timestamp seoData = Resolved result
        /\ length (Audit.issues result)
           = (if passes 30 60 title then 0 else 1)
             + (if passes 120 160 description then 0 else 1)
        /\ (Audit.score result = 100%Z
            <-> passes 30 60 title = true /\ passes 120 160 description = true
                /\ to_boolean keywords = true /\ to_boolean image = true)).
Proof.
  cbv zeta. split; [reflexivity|]. split.
  - intros result. unfold Cli.auditSEOData, push.
    destruct seoData as [| |b|n|s|items|props]; try discriminate.
    all: match goal with
         | |- context [read "title" ?x] =>
             generalize (read "title" x), (read "description" x),
               (read "keywords" x), (read "image" x);
             intros title description keywords image
         end.
    all: destruct (too_short 30 title) as [s1|] eqn:E1; cbn [and_then]; [|discriminate];
      destruct (too_long 60 title) as [l1|] eqn:E2; cbn [and_then]; [|discriminate];
      destruct (too_short 120 description) as [s2|] eqn:E3; cbn [and_then];
        [|discriminate];
      destruct (too_long 160 description) as [l2|] eqn:E4; cbn [and_then];
        [|discriminate];
      pose proof (too_short_or_too_long 30 60 title s1 l1 ltac:(lia) E1 E2) as X1;
      pose proof (too_short_or_too_long 120 160 description s2 l2 ltac:(lia) E3 E4) as X2;
      intros R; injection R as <-;
      destruct s1, l1; try discriminate X1; destruct s2, l2; try discriminate X2;
      destruct (to_boolean keywords), (to_boolean image); cbn;
      repeat split; try reflexivity; lia.
  - intros N1 N2 Ot Od. unfold Cli.auditSEOData, push.
    destruct seoData as [| |b|n|s|items|props]; try contradiction.
    all: revert Ot Od;
      match goal with
      | |- context [read "title" ?x] =>
          generalize (read "title" x), (read "description" x),
            (read "keywords" x), (read "image" x);
          intros title description keywords image Ot Od
      end.
    all: destruct (tests_of_plain_value 30 60 title ltac:(lia) Ot)
           as (s1 & l1 & E1 & E2 & P1);
      destruct (tests_of_plain_value 120 160 description ltac:(lia) Od)
           as (s2 & l2 & E3 & E4 & P2);
      pose proof (too_short_or_too_long 30 60 title s1 l1 ltac:(lia) E1 E2) as X1;
      pose proof (too_short_or_too_long 120 160 description s2 l2 ltac:(lia) E3 E4) as X2;
      rewrite E1; cbn [and_then]; rewrite E2; cbn [and_then];
      rewrite E3; cbn [and_then]; rewrite E4; cbn [and_then];
      rewrite <- P1, <- P2; eexists; split; [reflexivity|];
      destruct s1, l1; try discriminate X1; destruct s2, l2; try discriminate X2;
      destruct (to_boolean keywords), (to_boolean image); cbn;
      (split; [reflexivity|]); split; intros H; try discriminate H; try lia;
      try (repeat split; reflexivity);
      repeat match goal with H : _ /\ _ |- _ => destruct H end; discriminate.
Qed.

(** X29.  [validateStructuredData] on what the library itself generates.  The
    text of [generateStructuredData] parses to an array, and the
    validator reads [@context] and [@type] on the array itself: it
    settles with [valid] false and the two errors for a missing
    [@context] and [@type], whatever the configuration.  Given one by
    one, the elements pass: the [WebSite] and the [BreadcrumbList] are
    valid, and the [Article] is valid exactly when the page has a
    non-empty title; none raises a warning. *)
Theorem X_validateStructuredData_on_generated_data
    (timestamp : string) (config : StructuredDataConfig.t)
    (page : Data.t) (crumbs : list Breadcrumb.t) :
  let baseUrl := StructuredDataConfig.baseUrl config in
  let site := StructuredDataConfig.siteSettings config in
  (exists parsed,
     parse (generateStructuredData config) = Some parsed
     /\ validateStructuredData timestamp parsed
        = Resolved
            {| Validation.valid := false;
               Validation.errors :=
                 [ "Missing @context property"; "Missing @type property" ];
               Validation.warnings := [];
               Validation.timestamp := timestamp |})
  /\ validateStructuredData timestamp (clean (generateWebsiteSchema baseUrl site))
     = Resolved (Validation.mk true [] [] timestamp)
  /\ validateStructuredData timestamp (clean (generateBreadcrumbSchema baseUrl crumbs))
     = Resolved (Validation.mk true [] [] timestamp)
  /\ validateStructuredData timestamp (clean (generateArticleSchema baseUrl site page))
     = Resolved
         (if truthy (Data.title page)
          then Validation.mk true [] [] timestamp
          else Validation.mk false [ "Article missing headline" ] [] timestamp)
  /\ validateStructuredData timestamp VNull = Rejected_TypeError.
Proof.
  cbv zeta. split; [|split; [|split; [|split]]].
  - rewrite parse_generateStructuredData. eexists. split; reflexivity.
  - reflexivity.
  - reflexivity.
  - unfold generateArticleSchema.
    destruct (Data.title page) as [[|a t]|],
      (or_else (Data.publishedDate page) (Data.createdAt page)) as [published|],
      (Data.updatedAt page) as [modified|],
      (Data.featuredImage page) as [image|],
      (opt_chain (Data.seo page) SEOFields.keywords) as [[|k ks]|]; reflexivity.
  - reflexivity.
Qed.

End CliFacts.

Lemma X_auditSEOData_score_range_witness :
  exists result,
    Cli.auditSEOData (fun _ => Cli.Resolved Cli.NaN) "2024-01-15T10:30:00.000Z"
      (JSON.VObj [ ("title", JSON.VNum 12345); ("description", JSON.VBool true);
                   ("keywords", JSON.VStr "seo"); ("image", JSON.VStr "/og.png") ])
    = Cli.Resolved result
    /\ Cli.Audit.score result = 100%Z.
Proof.
  destruct (proj2 (proj2
             (X_auditSEOData_score_range (fun _ => Cli.Resolved Cli.NaN)
                "2024-01-15T10:30:00.000Z"
                (JSON.VObj [ ("title", JSON.VNum 12345);
                             ("description", JSON.VBool true);
                             ("keywords", JSON.VStr "seo");
                             ("image", JSON.VStr "/og.png") ])))
             ltac:(discriminate) ltac:(discriminate) eq_refl eq_refl)
    as (result & E & _ & S).
  exists result. split; [exact E|].
  apply S. repeat split; reflexivity.
Defined.
